(** * StakeYourGoal: goal ledger and soulbound badge registry

    A shallow embedding of [contracts/src/StakeYourGoal.sol] and of
    [GoalBadgeNFT.sol] together with the properties of the goal life cycle:
    resolution, voting, withdrawal, value accounting and badge soulbinding.

    Unsigned integers of the EVM are modelled as [N]; checked arithmetic
    (Solidity 0.8) reverts with [Panic(0x11)] when a result leaves the range
    of its type, explicit down-casts truncate.  Storage mappings are [gmap]s
    read with a default value.  A transaction either commits a new storage
    together with the effects it produced, or reverts and leaves no trace. *)

From Stdlib Require Import NArith String List Lia Bool DecimalString.
From stdpp Require Import base option numbers strings gmap list.
Import ListNotations.

Local Open Scope N_scope.

Abbreviation address := N (only parsing).

Definition MAX_UINT256 : N := 2 ^ 256 - 1.
Definition MAX_UINT96 : N := 2 ^ 96 - 1.
Definition MAX_UINT64 : N := 2 ^ 64 - 1.

(** Explicit conversions [uint96(x)] and [uint64(x)] keep the low bits. *)
Definition uint96 (x : N) : N := x mod 2 ^ 96.
Definition uint64 (x : N) : N := x mod 2 ^ 64.

Definition ether : N := 10 ^ 18.
Definition days : N := 86400.

(** ** Transaction outcome and external calls *)

Inductive Result (A : Type) : Type :=
| Ok (a : A)
| Reverted (msg : string).
Arguments Ok {A} a.
Arguments Reverted {A} msg.

Definition PANIC_ARITH : string := "Panic(0x11)".

(** The calls a contract makes to other accounts.  [Transfer p goalId to value]
    is [payable(to).call{value: value}("")]; the call site (refund to the owner
    in [withdrawStake], donation in [_onGoalFailed]) and the goal on whose
    behalf the value moves are recorded with it.  [MintBadge] is the call to
    the badge registry made under [try]/[catch]. *)
Inductive Purpose : Type := Refund | Donation.

Inductive Call : Type :=
| Transfer (p : Purpose) (goalId : N) (to : address) (value : N)
| MintBadge (registry : address) (user : address) (goalId : N)
            (category : N) (streak : N).

Inductive Reply : Type :=
| Failed
| Returned (ret : N).

Definition succeeded (r : Reply) : bool :=
  match r with Returned _ => true | Failed => false end.

Module StakeYourGoal.

(** ** Storage *)

Record Goal : Type := mkGoal {
  user : address;
  stakeAmount : N;      (* uint96 *)
  deadline : N;         (* uint64 *)
  createdAt : N;        (* uint64 *)
  aiScore : N;          (* uint64 *)
  status : N;           (* uint8: 0=active, 1=completed, 2=failed, 3=disputed *)
  category : N;         (* uint8 *)
  description : string;
  proofURI : string
}.

Record Vote : Type := mkVote {
  yesVotes : N;
  noVotes : N;
  hasVoted : gmap N bool;
  resolved : bool;
  passed : bool
}.

(** The value of a storage slot that was never written. *)
Definition Goal0 : Goal := mkGoal 0 0 0 0 0 0 0 EmptyString EmptyString.
Definition Vote0 : Vote := mkVote 0 0 ∅ false false.

Record State : Type := mkState {
  goalCounter : N;
  goals : gmap N Goal;
  userGoals : gmap N (list N);
  votes : gmap N Vote;
  badgeContract : address;
  badgeMinter : address;
  minimumStake : N;
  votingPeriod : N;
  aiVerifier : address;
  totalStaked : N;
  charityAddress : address;
  charityBasisPoints : N;
  userStreaks : gmap N N;
  userHighestStreak : gmap N N;
  _owner : address;          (* Ownable *)
  _entered : bool            (* ReentrancyGuard: _status == ENTERED *)
}.

Inductive Event : Type :=
| GoalCreated (goalId : N) (usr : address) (amount : N) (dl : N) (cat : N)
              (desc : string)
| ProofSubmitted (goalId : N) (usr : address) (uri : string)
| AIScoredProof (goalId : N) (score : N) (reason : string)
| VoteStarted (goalId : N) (votingDeadline : N)
| VoteCast (goalId : N) (voter : address) (support : bool)
| VoteResolved (goalId : N) (pass : bool) (yes : N) (no : N)
| GoalResolved (goalId : N) (st : N)
| StakeWithdrawn (usr : address) (amount : N)
| GoalVerified (goalId : N) (verifier : address) (score : N) (pass : bool)
| BadgeMintedForGoal (goalId : N) (usr : address) (tokenId : N)
| CharityDonation (goalId : N) (charity : address) (amount : N).

(** What a committed transaction leaves behind besides storage: the events
    it emitted and the value it sent out. *)
Inductive Effect : Type :=
| Emit (e : Event)
| Pay (p : Purpose) (goalId : N) (to : address) (value : N).

(** ** Execution monad

    A computation either finishes, reverts, or stops at an external call.
    The node of an external call shows the storage as it stands when the call
    is made, which is what a callee that calls back would find. *)

Inductive Exec (A : Type) : Type :=
| Done (a : A)
| Revert (msg : string)
| External (st : State) (c : Call) (k : Reply -> Exec A).
Arguments Done {A} a.
Arguments Revert {A} msg.
Arguments External {A} st c k.

Fixpoint bindE {A B : Type} (e : Exec A) (f : A -> Exec B) : Exec B :=
  match e with
  | Done a => f a
  | Revert m => Revert m
  | External st c k => External st c (fun r => bindE (k r) f)
  end.

Definition M (A : Type) : Type :=
  State -> list Effect -> Exec (A * (State * list Effect)).

Definition ret {A : Type} (a : A) : M A := fun s l => Done (a, (s, l)).

Definition bind {A B : Type} (m : M A) (f : A -> M B) : M B :=
  fun s l => bindE (m s l) (fun r => f (fst r) (fst (snd r)) (snd (snd r))).

Declare Scope exec_scope.
Delimit Scope exec_scope with exec.
Bind Scope exec_scope with M.
Notation "x <- m ; k" := (bind m (fun x => k))
  (at level 20, m at level 100, k at level 200, only parsing) : exec_scope.
Notation "m ;; k" := (bind m (fun _ => k))
  (at level 100, k at level 200, only parsing, right associativity) : exec_scope.
Local Open Scope exec_scope.

Definition get : M State := fun s l => Done (s, (s, l)).
Definition modify (f : State -> State) : M unit := fun s l => Done (tt, (f s, l)).
Definition revert {A : Type} (msg : string) : M A := fun _ _ => Revert msg.
Definition require (b : bool) (msg : string) : M unit :=
  if b then ret tt else revert msg.
Definition emit (e : Event) : M unit := fun s l => Done (tt, (s, l ++ [Emit e])).
Definition call (c : Call) : M Reply :=
  fun s l => External s c (fun r => Done (r, (s, l))).

(** [payable(to).call{value: value}("")]: on success the value has left. *)
Definition send (p : Purpose) (goalId : N) (to : address) (value : N)
  : M bool :=
  r <- call (Transfer p goalId to value) ;
  if succeeded r
  then (fun s l => Done (true, (s, l ++ [Pay p goalId to value])))
  else ret false.

Definition checked_add (bound a b : N) : M N :=
  if a + b <=? bound then ret (a + b) else revert PANIC_ARITH.
Definition checked_sub (a b : N) : M N :=
  if b <=? a then ret (a - b) else revert PANIC_ARITH.
Definition checked_mul (bound a b : N) : M N :=
  if a * b <=? bound then ret (a * b) else revert PANIC_ARITH.

(** Running a computation against the answers of the called accounts. *)
Fixpoint run {A : Type} (env : Call -> Reply) (e : Exec A) : Result A :=
  match e with
  | Done a => Ok a
  | Revert m => Reverted m
  | External _ c k => run env (k (env c))
  end.

(** ** Field updates *)

Definition set_user (v : address) (r : Goal) : Goal :=
  mkGoal v (stakeAmount r) (deadline r) (createdAt r) (aiScore r) (status r)
    (category r) (description r) (proofURI r).
Definition set_stakeAmount (v : N) (r : Goal) : Goal :=
  mkGoal (user r) v (deadline r) (createdAt r) (aiScore r) (status r)
    (category r) (description r) (proofURI r).
Definition set_deadline (v : N) (r : Goal) : Goal :=
  mkGoal (user r) (stakeAmount r) v (createdAt r) (aiScore r) (status r)
    (category r) (description r) (proofURI r).
Definition set_createdAt (v : N) (r : Goal) : Goal :=
  mkGoal (user r) (stakeAmount r) (deadline r) v (aiScore r) (status r)
    (category r) (description r) (proofURI r).
Definition set_aiScore (v : N) (r : Goal) : Goal :=
  mkGoal (user r) (stakeAmount r) (deadline r) (createdAt r) v (status r)
    (category r) (description r) (proofURI r).
Definition set_status (v : N) (r : Goal) : Goal :=
  mkGoal (user r) (stakeAmount r) (deadline r) (createdAt r) (aiScore r) v
    (category r) (description r) (proofURI r).
Definition set_category (v : N) (r : Goal) : Goal :=
  mkGoal (user r) (stakeAmount r) (deadline r) (createdAt r) (aiScore r)
    (status r) v (description r) (proofURI r).
Definition set_description (v : string) (r : Goal) : Goal :=
  mkGoal (user r) (stakeAmount r) (deadline r) (createdAt r) (aiScore r)
    (status r) (category r) v (proofURI r).
Definition set_proofURI (v : string) (r : Goal) : Goal :=
  mkGoal (user r) (stakeAmount r) (deadline r) (createdAt r) (aiScore r)
    (status r) (category r) (description r) v.

Definition set_yesVotes (v : N) (r : Vote) : Vote :=
  mkVote v (noVotes r) (hasVoted r) (resolved r) (passed r).
Definition set_noVotes (v : N) (r : Vote) : Vote :=
  mkVote (yesVotes r) v (hasVoted r) (resolved r) (passed r).
Definition set_hasVoted (v : gmap N bool) (r : Vote) : Vote :=
  mkVote (yesVotes r) (noVotes r) v (resolved r) (passed r).
Definition set_resolved (v : bool) (r : Vote) : Vote :=
  mkVote (yesVotes r) (noVotes r) (hasVoted r) v (passed r).
Definition set_passed (v : bool) (r : Vote) : Vote :=
  mkVote (yesVotes r) (noVotes r) (hasVoted r) (resolved r) v.

Definition set_goalCounter (v : N) (r : State) : State :=
  mkState v (goals r) (userGoals r) (votes r) (badgeContract r)
    (badgeMinter r) (minimumStake r) (votingPeriod r) (aiVerifier r)
    (totalStaked r) (charityAddress r) (charityBasisPoints r)
    (userStreaks r) (userHighestStreak r) (_owner r) (_entered r).
Definition set_goals (v : gmap N Goal) (r : State) : State :=
  mkState (goalCounter r) v (userGoals r) (votes r) (badgeContract r)
    (badgeMinter r) (minimumStake r) (votingPeriod r) (aiVerifier r)
    (totalStaked r) (charityAddress r) (charityBasisPoints r)
    (userStreaks r) (userHighestStreak r) (_owner r) (_entered r).
Definition set_userGoals (v : gmap N (list N)) (r : State) : State :=
  mkState (goalCounter r) (goals r) v (votes r) (badgeContract r)
    (badgeMinter r) (minimumStake r) (votingPeriod r) (aiVerifier r)
    (totalStaked r) (charityAddress r) (charityBasisPoints r)
    (userStreaks r) (userHighestStreak r) (_owner r) (_entered r).
Definition set_votes (v : gmap N Vote) (r : State) : State :=
  mkState (goalCounter r) (goals r) (userGoals r) v (badgeContract r)
    (badgeMinter r) (minimumStake r) (votingPeriod r) (aiVerifier r)
    (totalStaked r) (charityAddress r) (charityBasisPoints r)
    (userStreaks r) (userHighestStreak r) (_owner r) (_entered r).
Definition set_badgeContract (v : address) (r : State) : State :=
  mkState (goalCounter r) (goals r) (userGoals r) (votes r) v
    (badgeMinter r) (minimumStake r) (votingPeriod r) (aiVerifier r)
    (totalStaked r) (charityAddress r) (charityBasisPoints r)
    (userStreaks r) (userHighestStreak r) (_owner r) (_entered r).
Definition set_badgeMinter (v : address) (r : State) : State :=
  mkState (goalCounter r) (goals r) (userGoals r) (votes r)
    (badgeContract r) v (minimumStake r) (votingPeriod r) (aiVerifier r)
    (totalStaked r) (charityAddress r) (charityBasisPoints r)
    (userStreaks r) (userHighestStreak r) (_owner r) (_entered r).
Definition set_minimumStake (v : N) (r : State) : State :=
  mkState (goalCounter r) (goals r) (userGoals r) (votes r)
    (badgeContract r) (badgeMinter r) v (votingPeriod r) (aiVerifier r)
    (totalStaked r) (charityAddress r) (charityBasisPoints r)
    (userStreaks r) (userHighestStreak r) (_owner r) (_entered r).
Definition set_votingPeriod (v : N) (r : State) : State :=
  mkState (goalCounter r) (goals r) (userGoals r) (votes r)
    (badgeContract r) (badgeMinter r) (minimumStake r) v (aiVerifier r)
    (totalStaked r) (charityAddress r) (charityBasisPoints r)
    (userStreaks r) (userHighestStreak r) (_owner r) (_entered r).
Definition set_aiVerifier (v : address) (r : State) : State :=
  mkState (goalCounter r) (goals r) (userGoals r) (votes r)
    (badgeContract r) (badgeMinter r) (minimumStake r) (votingPeriod r) v
    (totalStaked r) (charityAddress r) (charityBasisPoints r)
    (userStreaks r) (userHighestStreak r) (_owner r) (_entered r).
Definition set_totalStaked (v : N) (r : State) : State :=
  mkState (goalCounter r) (goals r) (userGoals r) (votes r)
    (badgeContract r) (badgeMinter r) (minimumStake r) (votingPeriod r)
    (aiVerifier r) v (charityAddress r) (charityBasisPoints r)
    (userStreaks r) (userHighestStreak r) (_owner r) (_entered r).
Definition set_charityAddress (v : address) (r : State) : State :=
  mkState (goalCounter r) (goals r) (userGoals r) (votes r)
    (badgeContract r) (badgeMinter r) (minimumStake r) (votingPeriod r)
    (aiVerifier r) (totalStaked r) v (charityBasisPoints r) (userStreaks r)
    (userHighestStreak r) (_owner r) (_entered r).
Definition set_charityBasisPoints (v : N) (r : State) : State :=
  mkState (goalCounter r) (goals r) (userGoals r) (votes r)
    (badgeContract r) (badgeMinter r) (minimumStake r) (votingPeriod r)
    (aiVerifier r) (totalStaked r) (charityAddress r) v (userStreaks r)
    (userHighestStreak r) (_owner r) (_entered r).
Definition set_userStreaks (v : gmap N N) (r : State) : State :=
  mkState (goalCounter r) (goals r) (userGoals r) (votes r)
    (badgeContract r) (badgeMinter r) (minimumStake r) (votingPeriod r)
    (aiVerifier r) (totalStaked r) (charityAddress r) (charityBasisPoints r)
    v (userHighestStreak r) (_owner r) (_entered r).
Definition set_userHighestStreak (v : gmap N N) (r : State) : State :=
  mkState (goalCounter r) (goals r) (userGoals r) (votes r)
    (badgeContract r) (badgeMinter r) (minimumStake r) (votingPeriod r)
    (aiVerifier r) (totalStaked r) (charityAddress r) (charityBasisPoints r)
    (userStreaks r) v (_owner r) (_entered r).
Definition set_owner (v : address) (r : State) : State :=
  mkState (goalCounter r) (goals r) (userGoals r) (votes r)
    (badgeContract r) (badgeMinter r) (minimumStake r) (votingPeriod r)
    (aiVerifier r) (totalStaked r) (charityAddress r) (charityBasisPoints r)
    (userStreaks r) (userHighestStreak r) v (_entered r).
Definition set_entered (v : bool) (r : State) : State :=
  mkState (goalCounter r) (goals r) (userGoals r) (votes r)
    (badgeContract r) (badgeMinter r) (minimumStake r) (votingPeriod r)
    (aiVerifier r) (totalStaked r) (charityAddress r) (charityBasisPoints r)
    (userStreaks r) (userHighestStreak r) (_owner r) v.

(** Storage reads: a key that was never written reads as zero. *)
Definition goal_at (s : State) (goalId : N) : Goal :=
  default Goal0 (goals s !! goalId).
Definition vote_at (s : State) (goalId : N) : Vote :=
  default Vote0 (votes s !! goalId).
Definition streak_of (s : State) (a : address) : N :=
  default 0 (userStreaks s !! a).
Definition highest_of (s : State) (a : address) : N :=
  default 0 (userHighestStreak s !! a).
Definition goals_of (s : State) (a : address) : list N :=
  default [] (userGoals s !! a).
Definition voted (v : Vote) (a : address) : bool :=
  default false (hasVoted v !! a).

(** Writes through a storage reference [Goal storage goal = goals[goalId]]. *)
Definition upd_goal (goalId : N) (f : Goal -> Goal) (s : State) : State :=
  set_goals (<[goalId := f (goal_at s goalId)]> (goals s)) s.
Definition upd_vote (goalId : N) (f : Vote -> Vote) (s : State) : State :=
  set_votes (<[goalId := f (vote_at s goalId)]> (votes s)) s.

(** ** Modifiers *)

Definition onlyAIVerifier (msg_sender : address) : M unit :=
  s <- get ;
  require (msg_sender =? aiVerifier s) "Only AI verifier can call".

Definition goalExists (goalId : N) : M unit :=
  s <- get ;
  require (goalId <? goalCounter s) "Goal does not exist".

(** OpenZeppelin [Ownable.onlyOwner]. *)
Definition onlyOwner (msg_sender : address) : M unit :=
  s <- get ;
  require (msg_sender =? _owner s) "OwnableUnauthorizedAccount".

(** OpenZeppelin [ReentrancyGuard.nonReentrant]: the flag is raised before the
    body runs and lowered after it. *)
Definition nonReentrant {A : Type} (body : M A) : M A :=
  s <- get ;
  require (negb (_entered s)) "ReentrancyGuardReentrantCall" ;;
  modify (set_entered true) ;;
  a <- body ;
  modify (set_entered false) ;;
  ret a.

(** ** Internal helpers *)

(** [_onGoalCompleted]: streak update and best-effort badge mint. *)
Definition _onGoalCompleted (goalId : N) : M unit :=
  s <- get ;
  let goal := goal_at s goalId in
  currentStreak <- checked_add MAX_UINT64 (streak_of s (user goal)) 1 ;
  modify (fun s => set_userStreaks (<[user goal := currentStreak]> (userStreaks s)) s) ;;
  (if highest_of s (user goal) <? currentStreak
   then modify (fun s => set_userHighestStreak
                           (<[user goal := currentStreak]> (userHighestStreak s)) s)
   else ret tt) ;;
  if negb (badgeMinter s =? 0)
  then r <- call (MintBadge (badgeMinter s) (user goal) goalId (category goal)
                            currentStreak) ;
       match r with
       | Returned tokenId => emit (BadgeMintedForGoal goalId (user goal) tokenId)
       | Failed => ret tt
       end
  else ret tt.

(** [_onGoalFailed]: streak reset and best-effort payment of the charity
    share.  The goal's recorded stake is left as it is. *)
Definition _onGoalFailed (goalId : N) : M unit :=
  s <- get ;
  let goal := goal_at s goalId in
  modify (fun s => set_userStreaks (<[user goal := 0]> (userStreaks s)) s) ;;
  if negb (charityAddress s =? 0) && (0 <? stakeAmount goal)
  then charityAmount0 <- checked_mul MAX_UINT256 (stakeAmount goal)
                                     (charityBasisPoints s) ;
       let charityAmount := charityAmount0 / 10000 in
       if 0 <? charityAmount
       then sent <- send Donation goalId (charityAddress s) charityAmount ;
            if sent
            then emit (CharityDonation goalId (charityAddress s) charityAmount)
            else ret tt
       else ret tt
  else ret tt.

(** ** Entry points *)

Section Transaction.

Variable msg_sender : address.
Variable block_timestamp : N.

Definition createGoal (msg_value : N) (deadline_ category_ : N)
    (description_ : string) : M N :=
  nonReentrant (
    s <- get ;
    require (minimumStake s <=? msg_value) "Stake too low" ;;
    require (block_timestamp <? deadline_) "Deadline must be in future" ;;
    require (0 <? String.length description_)%nat "Description required" ;;
    require (category_ <=? 5) "Invalid category" ;;
    let goalId := goalCounter s in
    next <- checked_add MAX_UINT256 goalId 1 ;
    modify (set_goalCounter next) ;;
    modify (upd_goal goalId (set_user msg_sender)) ;;
    modify (upd_goal goalId (set_stakeAmount (uint96 msg_value))) ;;
    modify (upd_goal goalId (set_deadline deadline_)) ;;
    modify (upd_goal goalId (set_createdAt (uint64 block_timestamp))) ;;
    modify (upd_goal goalId (set_status 0)) ;;
    modify (upd_goal goalId (set_category category_)) ;;
    modify (upd_goal goalId (set_description description_)) ;;
    modify (fun s => set_userGoals
                       (<[msg_sender := goals_of s msg_sender ++ [goalId]]>
                          (userGoals s)) s) ;;
    total <- checked_add MAX_UINT256 (totalStaked s) msg_value ;
    modify (set_totalStaked total) ;;
    emit (GoalCreated goalId msg_sender msg_value deadline_ category_
                      description_) ;;
    ret goalId).

Definition submitProof (goalId : N) (proofURI_ : string) : M unit :=
  goalExists goalId ;;
  nonReentrant (
    s <- get ;
    let goal := goal_at s goalId in
    require (user goal =? msg_sender) "Only goal creator can submit proof" ;;
    require (status goal =? 0) "Goal not active" ;;
    closes <- checked_add MAX_UINT64 (deadline goal) (1 * days) ;
    require (block_timestamp <=? closes) "Proof submission window closed" ;;
    modify (upd_goal goalId (set_proofURI proofURI_)) ;;
    emit (ProofSubmitted goalId msg_sender proofURI_)).

Definition setAIScore (goalId score : N) : M unit :=
  goalExists goalId ;;
  onlyAIVerifier msg_sender ;;
  require (score <=? 100) "Score must be 0-100" ;;
  s <- get ;
  require (status (goal_at s goalId) =? 0) "Goal not active" ;;
  modify (upd_goal goalId (set_aiScore score)) ;;
  let pass := 75 <=? score in
  (if pass
   then modify (upd_goal goalId (set_status 1)) ;;
        _onGoalCompleted goalId ;;
        emit (GoalResolved goalId 1)
   else if score <? 40
   then modify (upd_goal goalId (set_status 2)) ;;
        _onGoalFailed goalId ;;
        emit (GoalResolved goalId 2)
   else votingDeadline <- checked_add MAX_UINT256 block_timestamp
                                      (votingPeriod s) ;
        emit (VoteStarted goalId votingDeadline)) ;;
  emit (AIScoredProof goalId score "AI verification complete") ;;
  emit (GoalVerified goalId msg_sender score pass).

Definition verifyGoal (goalId : N) (result : bool) : M unit :=
  goalExists goalId ;;
  onlyAIVerifier msg_sender ;;
  s <- get ;
  require (status (goal_at s goalId) =? 0) "Goal not active" ;;
  let score := if result then 100 else 0 in
  modify (upd_goal goalId (set_aiScore score)) ;;
  (if result
   then modify (upd_goal goalId (set_status 1)) ;;
        _onGoalCompleted goalId ;;
        emit (GoalResolved goalId 1)
   else modify (upd_goal goalId (set_status 2)) ;;
        _onGoalFailed goalId ;;
        emit (GoalResolved goalId 2)) ;;
  emit (AIScoredProof goalId score
          (if result then "Goal verified by AI" else "Goal rejected by AI")) ;;
  emit (GoalVerified goalId msg_sender score result).

Definition vote (goalId : N) (support : bool) : M unit :=
  goalExists goalId ;;
  nonReentrant (
    s <- get ;
    let goal := goal_at s goalId in
    require (status goal =? 0) "Goal not in voting phase" ;;
    require ((40 <=? aiScore goal) && (aiScore goal <? 75))
            "Not eligible for voting" ;;
    let v := vote_at s goalId in
    require (negb (voted v msg_sender)) "Already voted" ;;
    modify (upd_vote goalId (fun v => set_hasVoted (<[msg_sender := true]> (hasVoted v)) v)) ;;
    (if support
     then n <- checked_add MAX_UINT256 (yesVotes v) 1 ;
          modify (upd_vote goalId (set_yesVotes n))
     else n <- checked_add MAX_UINT256 (noVotes v) 1 ;
          modify (upd_vote goalId (set_noVotes n))) ;;
    emit (VoteCast goalId msg_sender support)).

Definition resolveVote (goalId : N) : M unit :=
  goalExists goalId ;;
  nonReentrant (
    s <- get ;
    let goal := goal_at s goalId in
    let v := vote_at s goalId in
    require (negb (resolved v)) "Vote already resolved" ;;
    require (status goal =? 0) "Goal not active" ;;
    let pass := noVotes v <? yesVotes v in
    modify (upd_vote goalId (set_resolved true)) ;;
    modify (upd_vote goalId (set_passed pass)) ;;
    (if pass
     then modify (upd_goal goalId (set_status 1)) ;;
          _onGoalCompleted goalId
     else modify (upd_goal goalId (set_status 2)) ;;
          _onGoalFailed goalId) ;;
    s' <- get ;
    emit (VoteResolved goalId pass (yesVotes (vote_at s' goalId))
                       (noVotes (vote_at s' goalId))) ;;
    emit (GoalResolved goalId (status (goal_at s' goalId)))).

Definition withdrawStake (goalId : N) : M unit :=
  goalExists goalId ;;
  nonReentrant (
    s <- get ;
    let goal := goal_at s goalId in
    require (user goal =? msg_sender) "Only goal creator" ;;
    require (status goal =? 1) "Goal must be completed" ;;
    let amount := stakeAmount goal in
    modify (upd_goal goalId (set_stakeAmount 0)) ;;
    total <- checked_sub (totalStaked s) amount ;
    modify (set_totalStaked total) ;;
    success <- send Refund goalId msg_sender amount ;
    require success "Withdrawal failed" ;;
    emit (StakeWithdrawn msg_sender amount)).

(** Administration (owner only). *)

Definition setAIVerifier (_verifier : address) : M unit :=
  onlyOwner msg_sender ;; modify (set_aiVerifier _verifier).

Definition setMinimumStake (_minStake : N) : M unit :=
  onlyOwner msg_sender ;; modify (set_minimumStake _minStake).

Definition setVotingPeriod (_period : N) : M unit :=
  onlyOwner msg_sender ;; modify (set_votingPeriod _period).

Definition setCharityAddress (_charity : address) : M unit :=
  onlyOwner msg_sender ;; modify (set_charityAddress _charity).

Definition setCharityBasisPoints (_bps : N) : M unit :=
  onlyOwner msg_sender ;;
  require (_bps <=? 10000) "Basis points must be <= 10000" ;;
  modify (set_charityBasisPoints _bps).

Definition setBadgeContract (_badgeContract : address) : M unit :=
  onlyOwner msg_sender ;;
  modify (set_badgeContract _badgeContract) ;;
  modify (set_badgeMinter _badgeContract).

(** OpenZeppelin [Ownable]. *)
Definition transferOwnership (newOwner : address) : M unit :=
  onlyOwner msg_sender ;;
  require (negb (newOwner =? 0)) "OwnableInvalidOwner" ;;
  modify (set_owner newOwner).

Definition renounceOwnership : M unit :=
  onlyOwner msg_sender ;; modify (set_owner 0).

(** [receive() external payable {}] *)
Definition receive : M unit := ret tt.

End Transaction.

(** State after [constructor(_badgeContract)] run by [deployer]. *)
Definition constructor (deployer _badgeContract : address) : State :=
  {| goalCounter := 0; goals := ∅; userGoals := ∅; votes := ∅;
     badgeContract := _badgeContract; badgeMinter := _badgeContract;
     minimumStake := ether / 100; votingPeriod := 7 * days;
     aiVerifier := deployer; totalStaked := 0;
     charityAddress := 0; charityBasisPoints := 5000;
     userStreaks := ∅; userHighestStreak := ∅;
     _owner := deployer; _entered := false |}.

(** ** Transactions and traces *)

Inductive Op : Type :=
| CreateGoal (msg_value : N) (deadline_ category_ : N) (description_ : string)
| SubmitProof (goalId : N) (proofURI_ : string)
| SetAIScore (goalId score : N)
| VerifyGoal (goalId : N) (result : bool)
| CastVote (goalId : N) (support : bool)
| ResolveVote (goalId : N)
| WithdrawStake (goalId : N)
| SetAIVerifier (a : address)
| SetMinimumStake (n : N)
| SetVotingPeriod (n : N)
| SetCharityAddress (a : address)
| SetCharityBasisPoints (n : N)
| SetBadgeContract (a : address)
| TransferOwnership (a : address)
| RenounceOwnership
| ReceiveEther (msg_value : N).

(** Calldata is decoded at the declared widths before the body runs. *)
Definition abi_ok (op : Op) : bool :=
  match op with
  | CreateGoal _ d c _ => (d <=? MAX_UINT64) && (c <=? 255)
  | SetAIScore _ sc => sc <=? MAX_UINT64
  | _ => true
  end.

Definition dispatch (msg_sender block_timestamp : N) (op : Op) : M unit :=
  require (abi_ok op) "" ;;
  match op with
  | CreateGoal v d c desc =>
      createGoal msg_sender block_timestamp v d c desc ;; ret tt
  | SubmitProof g uri => submitProof msg_sender block_timestamp g uri
  | SetAIScore g sc => setAIScore msg_sender block_timestamp g sc
  | VerifyGoal g r => verifyGoal msg_sender g r
  | CastVote g b => vote msg_sender g b
  | ResolveVote g => resolveVote g
  | WithdrawStake g => withdrawStake msg_sender g
  | SetAIVerifier a => setAIVerifier msg_sender a
  | SetMinimumStake n => setMinimumStake msg_sender n
  | SetVotingPeriod n => setVotingPeriod msg_sender n
  | SetCharityAddress a => setCharityAddress msg_sender a
  | SetCharityBasisPoints n => setCharityBasisPoints msg_sender n
  | SetBadgeContract a => setBadgeContract msg_sender a
  | TransferOwnership a => transferOwnership msg_sender a
  | RenounceOwnership => renounceOwnership msg_sender
  | ReceiveEther _ => receive
  end.

Record Tx : Type := mkTx {
  tx_sender : address;
  tx_time : N;                 (* block.timestamp *)
  tx_env : Call -> Reply;      (* how the called accounts answer *)
  tx_op : Op
}.

(** A top-level call: the new storage and the effects if it commits. *)
Definition commit {A : Type} (env : Call -> Reply) (m : M A) (s : State)
  : Result (State * list Effect) :=
  match run env (m s []) with
  | Ok r => Ok (snd r)
  | Reverted msg => Reverted msg
  end.

Definition exec_tx (tx : Tx) (s : State) : Result (State * list Effect) :=
  commit (tx_env tx) (dispatch (tx_sender tx) (tx_time tx) (tx_op tx)) s.

(** A ledger history: the storage and everything committed so far.  A
    reverted transaction changes neither. *)
Definition apply_tx (c : State * list Effect) (tx : Tx) : State * list Effect :=
  match exec_tx tx (fst c) with
  | Ok r => (fst r, snd c ++ snd r)
  | Reverted _ => c
  end.

Definition run_trace (txs : list Tx) (c : State * list Effect)
  : State * list Effect :=
  fold_left apply_tx txs c.

(** The states a deployed ledger can be in. *)
Definition reachable (s : State) : Prop :=
  exists deployer _badgeContract txs,
    s = fst (run_trace txs (constructor deployer _badgeContract, [])).

(** ** Closed forms of the two resolution helpers *)

(** Storage after [_onGoalCompleted]. *)
Definition completed (s : State) (goalId : N) : State :=
  let u := user (goal_at s goalId) in
  let n := streak_of s u + 1 in
  set_userHighestStreak
    (if highest_of s u <? n then <[u := n]> (userHighestStreak s)
     else userHighestStreak s)
    (set_userStreaks (<[u := n]> (userStreaks s)) s).

(** Effects of [_onGoalCompleted]: the badge event when the mint returns. *)
Definition mint_effects (env : Call -> Reply) (s : State) (goalId : N)
  : list Effect :=
  let u := user (goal_at s goalId) in
  if badgeMinter s =? 0 then []
  else match env (MintBadge (badgeMinter s) u goalId (category (goal_at s goalId))
                            (streak_of s u + 1)) with
       | Returned tokenId => [Emit (BadgeMintedForGoal goalId u tokenId)]
       | Failed => []
       end.

(** Storage after [_onGoalFailed]. *)
Definition failed (s : State) (goalId : N) : State :=
  set_userStreaks (<[user (goal_at s goalId) := 0]> (userStreaks s)) s.

Definition charity_share (s : State) (goalId : N) : N :=
  stakeAmount (goal_at s goalId) * charityBasisPoints s / 10000.

(** Effects of [_onGoalFailed]: the donation when one is due and accepted. *)
Definition donation_effects (env : Call -> Reply) (s : State) (goalId : N)
  : list Effect :=
  if (charityAddress s =? 0) || (stakeAmount (goal_at s goalId) =? 0)
     || (charity_share s goalId =? 0)
  then []
  else if succeeded (env (Transfer Donation goalId (charityAddress s)
                                   (charity_share s goalId)))
  then [Pay Donation goalId (charityAddress s) (charity_share s goalId);
        Emit (CharityDonation goalId (charityAddress s) (charity_share s goalId))]
  else [].

(** The side effects a resolution has outside the goal record: value sent
    and badge or donation notifications. *)
Definition side_effects (effs : list Effect) : list Effect :=
  List.filter (fun e => match e with
                        | Pay _ _ _ _ => true
                        | Emit (BadgeMintedForGoal _ _ _) => true
                        | Emit (CharityDonation _ _ _) => true
                        | _ => false
                        end) effs.

(** ** Reading a history *)

Abbreviation Payment := (Purpose * address * N)%type.

(** Value sent out on behalf of goal [id], oldest first. *)
Definition payments_for (id : N) (effs : list Effect) : list Payment :=
  flat_map (fun e => match e with
                     | Pay p g to v => if g =? id then [(p, to, v)] else []
                     | Emit _ => []
                     end) effs.

(** Stakes received for goal [id] ([msg.value] of its [createGoal]). *)
Definition deposits_for (id : N) (effs : list Effect) : list N :=
  flat_map (fun e => match e with
                     | Emit (GoalCreated g _ v _ _ _) =>
                         if g =? id then [v] else []
                     | _ => []
                     end) effs.

Definition total (l : list N) : N := foldr N.add 0 l.

Definition has_purpose (p : Purpose) (x : Payment) : bool :=
  match p, fst (fst x) with
  | Refund, Refund | Donation, Donation => true
  | _, _ => false
  end.

(** Value paid for purpose [p] within a list of payments. *)
Definition paid (p : Purpose) (pays : list Payment) : N :=
  total (map snd (List.filter (has_purpose p) pays)).

(** Payments that moved value. *)
Definition nonzero (pays : list Payment) : list Payment :=
  List.filter (fun x => negb (snd x =? 0)) pays.

(** Everything paid for purpose [p] in a history, over all goals. *)
Definition total_paid (p : Purpose) (effs : list Effect) : N :=
  total (flat_map (fun e => match e with
                            | Pay q _ to v =>
                                if has_purpose p (q, to, v) then [v] else []
                            | Emit _ => []
                            end) effs).

Fixpoint sum_upto (n : nat) (f : N -> N) : N :=
  match n with
  | O => 0
  | S k => sum_upto k f + f (N.of_nat k)
  end.

(** Sum of [f] over the existing goals [0 .. goalCounter - 1]. *)
Definition sum_goals (s : State) (f : N -> N) : N :=
  sum_upto (N.to_nat (goalCounter s)) f.

(** ** Value accounting *)

Definition totalDeposited (log : list Effect) : N :=
  total (flat_map (fun e => match e with
                            | Emit (GoalCreated _ _ v _ _ _) => [v]
                            | _ => []
                            end) log).

Definition totalWithdrawn (log : list Effect) : N := total_paid Refund log.
Definition totalDonated (log : list Effect) : N := total_paid Donation log.

(** Stake recorded on goals whose status is Active. *)
Definition active_stake (s : State) : N :=
  sum_goals s (fun id => if status (goal_at s id) =? 0
                         then stakeAmount (goal_at s id) else 0).

(** Stake recorded on goals that are Active or Completed. *)
Definition held_stake (s : State) : N :=
  sum_goals s (fun id => if (status (goal_at s id) =? 0)
                            || (status (goal_at s id) =? 1)
                         then stakeAmount (goal_at s id) else 0).

(** What stays behind on failed goals: the recorded stake less the donation. *)
Definition totalStranded (s : State) (log : list Effect) : N :=
  sum_goals s (fun id => if status (goal_at s id) =? 2
                         then stakeAmount (goal_at s id)
                              - paid Donation (payments_for id log)
                         else 0).

(** Conservation with the stake of Active goals only. *)
Definition conservation_active (c : State * list Effect) : Prop :=
  active_stake (fst c) + totalWithdrawn (snd c) + totalDonated (snd c)
  + totalStranded (fst c) (snd c) = totalDeposited (snd c).

(** Conservation with the stake of Active and Completed goals. *)
Definition conservation (c : State * list Effect) : Prop :=
  held_stake (fst c) + totalWithdrawn (snd c) + totalDonated (snd c)
  + totalStranded (fst c) (snd c) = totalDeposited (snd c).

(** The stake sent with a [createGoal] fits the 96 bits it is recorded in. *)
Definition deposit_fits (tx : Tx) : Prop :=
  match tx_op tx with
  | CreateGoal v _ _ _ => v <= MAX_UINT96
  | _ => True
  end.

(** ** Well-formed storage *)

Record wf (s : State) : Prop := mkWf {
  wf_not_entered : _entered s = false;
  wf_bps : charityBasisPoints s <= 10000;
  wf_stake : forall id, stakeAmount (goal_at s id) <= MAX_UINT96;
  wf_status : forall id, status (goal_at s id) <= 2;
  wf_fresh_goal : forall id, goalCounter s <= id -> goal_at s id = Goal0;
  wf_fresh_vote : forall id, goalCounter s <= id -> vote_at s id = Vote0
}.

(** ** One step of a goal

    What a committed transaction can do to an existing goal, together with
    the value it sends out on the goal's behalf. *)
Definition goal_step (bps : N) (g g' : Goal) (pays : list Payment) : Prop :=
  user g' = user g /\
  ( (status g' = status g /\ stakeAmount g' = stakeAmount g /\ pays = [])
  \/ (status g = 0 /\ status g' = 1 /\ stakeAmount g' = stakeAmount g
      /\ pays = [])
  \/ (status g = 0 /\ status g' = 2 /\ stakeAmount g' = stakeAmount g
      /\ (pays = []
          \/ exists to, pays = [(Donation, to, stakeAmount g * bps / 10000)]
                        /\ 0 < stakeAmount g * bps / 10000))
  \/ (status g = 1 /\ status g' = 1 /\ stakeAmount g' = 0
      /\ pays = [(Refund, user g, stakeAmount g)]) ).

(** The books of one goal in a history [(s, log)]. *)
Definition goal_books (s : State) (log : list Effect) (id : N) : Prop :=
  let g := goal_at s id in
  let pays := payments_for id log in
  exists v, deposits_for id log = [v] /\
  ( (status g = 0 /\ stakeAmount g = uint96 v /\ pays = [])
  \/ (status g = 1 /\ stakeAmount g + paid Refund pays = uint96 v
      /\ paid Donation pays = 0
      /\ (length (nonzero pays) <= 1)%nat
      /\ (0 < stakeAmount g -> nonzero pays = []))
  \/ (status g = 2 /\ stakeAmount g = uint96 v
      /\ paid Refund pays = 0
      /\ paid Donation pays <= stakeAmount g
      /\ (pays = [] \/ exists to a, pays = [(Donation, to, a)] /\ 0 < a)) ).

Definition ledger_books (c : State * list Effect) : Prop :=
  (forall id, id < goalCounter (fst c) -> goal_books (fst c) (snd c) id) /\
  (forall id, goalCounter (fst c) <= id ->
     payments_for id (snd c) = [] /\ deposits_for id (snd c) = []).

(** The recorded stake reads zero once value has left for the goal. *)
Definition stake_zeroed_on_payout (c : State * list Effect) (id : N) : Prop :=
  nonzero (payments_for id (snd c)) <> [] ->
  stakeAmount (goal_at (fst c) id) = 0.

(** ** Sample histories *)

Definition accept : Call -> Reply := fun _ => Returned 0.

Definition admin : address := 1.      (* deployer: owner and oracle *)
Definition registry : address := 99.  (* badge contract *)
Definition alice : address := 7.
Definition charity : address := 50.

Definition genesis : State * list Effect := (constructor admin registry, []).

Definition tx_create : Tx :=
  mkTx alice 1000 accept (CreateGoal ether 5000 0 "run a marathon").

(** One goal, staked and still Active. *)
Definition history_created : State * list Effect :=
  run_trace [tx_create] genesis.

(** One goal, scored 90 by the oracle: Completed, stake not yet withdrawn. *)
Definition history_completed : State * list Effect :=
  run_trace [tx_create; mkTx admin 1001 accept (SetAIScore 0 90)] genesis.

(** The owner has withdrawn the stake of the completed goal. *)
Definition history_withdrawn : State * list Effect :=
  run_trace [tx_create; mkTx admin 1001 accept (SetAIScore 0 90);
             mkTx alice 1002 accept (WithdrawStake 0)] genesis.

(** A charity is configured and the oracle rejects the goal. *)
Definition history_failed : State * list Effect :=
  run_trace [tx_create; mkTx admin 1001 accept (SetCharityAddress charity);
             mkTx admin 1002 accept (VerifyGoal 0 false)] genesis.

(** Scored 55, then two votes in favour and one against. *)
Definition history_voted : State * list Effect :=
  run_trace [tx_create; mkTx admin 1001 accept (SetAIScore 0 55);
             mkTx 11 1002 accept (CastVote 0 true);
             mkTx 12 1003 accept (CastVote 0 true);
             mkTx 13 1004 accept (CastVote 0 false)] genesis.


(** ** Views *)

(** A [view] call: the value it returns.  Nothing it does is kept. *)
Definition view {A : Type} (m : M A) (s : State) : Result A :=
  match run (fun _ => Failed) (m s []) with
  | Ok r => Ok (fst r)
  | Reverted msg => Reverted msg
  end.

Definition getGoal (goalId : N) : M Goal :=
  goalExists goalId ;;
  s <- get ; ret (goal_at s goalId).

Definition getUserGoals (user_ : address) : M (list N) :=
  s <- get ; ret (goals_of s user_).

Definition getVoteInfo (goalId : N) : M (N * N * bool) :=
  goalExists goalId ;;
  s <- get ;
  let v := vote_at s goalId in
  ret (yesVotes v, noVotes v, resolved v).

Definition getUserStreak (user_ : address) : M (N * N) :=
  s <- get ; ret (streak_of s user_, highest_of s user_).

(** ** Configuration and callers *)

(** What the administrative functions write. *)
Definition config (s : State)
  : address * address * N * N * address * N * address * address :=
  (_owner s, aiVerifier s, minimumStake s, votingPeriod s, charityAddress s,
   charityBasisPoints s, badgeContract s, badgeMinter s).

(** Transactions are sent by accounts, never by the zero address. *)
Definition valid_tx (tx : Tx) : Prop := tx_sender tx <> 0.

(** ** Ballots in a history *)

(** Votes cast on goal [id], oldest first: who voted and how. *)
Definition ballots (id : N) (log : list Effect) : list (address * bool) :=
  flat_map (fun e => match e with
                     | Emit (VoteCast g a b) =>
                         if g =? id then [(a, b)] else []
                     | _ => []
                     end) log.

Definition count_ballots (b : bool) (l : list (address * bool)) : N :=
  N.of_nat (length (List.filter (fun x => Bool.eqb (snd x) b) l)).

(** The tallies of goal [id] are the ballots of the history, one per voter. *)
Definition tally_books (c : State * list Effect) (id : N) : Prop :=
  let v := vote_at (fst c) id in
  let bs := ballots id (snd c) in
  yesVotes v = count_ballots true bs /\
  noVotes v = count_ballots false bs /\
  NoDup (map fst bs) /\
  (forall a, voted v a = true <-> In a (map fst bs)).

(** Why a goal has the status it has. *)
Definition resolution_cause (s : State) (id : N) : Prop :=
  let g := goal_at s id in
  let v := vote_at s id in
  (status g = 0 ->
     resolved v = false /\
     (0 < yesVotes v + noVotes v -> 40 <= aiScore g /\ aiScore g < 75)) /\
  (status g = 1 ->
     (75 <= aiScore g /\ resolved v = false)
     \/ (resolved v = true /\ passed v = true /\ noVotes v < yesVotes v
         /\ 40 <= aiScore g /\ aiScore g < 75)) /\
  (status g = 2 ->
     (aiScore g < 40 /\ resolved v = false)
     \/ (resolved v = true /\ passed v = false /\ yesVotes v <= noVotes v)).

(** ** More sample histories *)

(** A goal whose deadline is the largest [uint64]. *)
Definition history_far_deadline : State * list Effect :=
  run_trace [mkTx alice 1000 accept
               (CreateGoal ether MAX_UINT64 0 "sail around the world")]
            genesis.

(** The owner of the ledger has renounced ownership. *)
Definition history_renounced : State * list Effect :=
  run_trace [tx_create; mkTx admin 1001 accept RenounceOwnership] genesis.

(** The goal of [history_voted], resolved: the vote passes. *)
Definition history_resolved : State * list Effect :=
  run_trace [mkTx 14 1005 accept (ResolveVote 0)] history_voted.

End StakeYourGoal.

(** * GoalBadgeNFT: the soulbound badge registry

    The contract inherits OpenZeppelin's [ERC721] and [Ownable] (version 5:
    every mint, burn and transfer goes through [_update], which the contract
    overrides).  The inherited functions are written out below from the
    OpenZeppelin source; the check [checkOnERC721Received] made by the safe
    variants is a call to the recipient, whose answer is a parameter.  Events
    are not recorded. *)

Module GoalBadgeNFT.

Record BadgeMetadata : Type := mkBadgeMetadata {
  goalId : N;
  category : N;       (* uint8 *)
  completedAt : N;    (* uint64 *)
  streak : N          (* uint64 *)
}.

Definition BadgeMetadata0 : BadgeMetadata := mkBadgeMetadata 0 0 0 0.

Record State : Type := mkState {
  _owners : gmap N address;                 (* ERC721 *)
  _balances : gmap N N;                     (* ERC721 *)
  _tokenApprovals : gmap N address;         (* ERC721 *)
  _operatorApprovals : gmap (N * N) bool;   (* ERC721 *)
  tokenCounter : N;
  baseURI : string;
  stakeContract : address;
  badgeMetadata : gmap N BadgeMetadata;
  userBadgeCount : gmap N N;
  categoryBadgeCount : gmap (N * N) N;
  _owner : address                          (* Ownable *)
}.

Definition set_owners (v : gmap N address) (r : State) : State :=
  mkState v (_balances r) (_tokenApprovals r) (_operatorApprovals r)
    (tokenCounter r) (baseURI r) (stakeContract r) (badgeMetadata r)
    (userBadgeCount r) (categoryBadgeCount r) (_owner r).
Definition set_balances (v : gmap N N) (r : State) : State :=
  mkState (_owners r) v (_tokenApprovals r) (_operatorApprovals r)
    (tokenCounter r) (baseURI r) (stakeContract r) (badgeMetadata r)
    (userBadgeCount r) (categoryBadgeCount r) (_owner r).
Definition set_tokenApprovals (v : gmap N address) (r : State) : State :=
  mkState (_owners r) (_balances r) v (_operatorApprovals r)
    (tokenCounter r) (baseURI r) (stakeContract r) (badgeMetadata r)
    (userBadgeCount r) (categoryBadgeCount r) (_owner r).
Definition set_operatorApprovals (v : gmap (N * N) bool) (r : State)
  : State :=
  mkState (_owners r) (_balances r) (_tokenApprovals r) v
    (tokenCounter r) (baseURI r) (stakeContract r) (badgeMetadata r)
    (userBadgeCount r) (categoryBadgeCount r) (_owner r).
Definition set_tokenCounter (v : N) (r : State) : State :=
  mkState (_owners r) (_balances r) (_tokenApprovals r) (_operatorApprovals r)
    v (baseURI r) (stakeContract r) (badgeMetadata r)
    (userBadgeCount r) (categoryBadgeCount r) (_owner r).
Definition set_baseURI (v : string) (r : State) : State :=
  mkState (_owners r) (_balances r) (_tokenApprovals r) (_operatorApprovals r)
    (tokenCounter r) v (stakeContract r) (badgeMetadata r)
    (userBadgeCount r) (categoryBadgeCount r) (_owner r).
Definition set_stakeContract (v : address) (r : State) : State :=
  mkState (_owners r) (_balances r) (_tokenApprovals r) (_operatorApprovals r)
    (tokenCounter r) (baseURI r) v (badgeMetadata r)
    (userBadgeCount r) (categoryBadgeCount r) (_owner r).
Definition set_badgeMetadata (v : gmap N BadgeMetadata) (r : State) : State :=
  mkState (_owners r) (_balances r) (_tokenApprovals r) (_operatorApprovals r)
    (tokenCounter r) (baseURI r) (stakeContract r) v
    (userBadgeCount r) (categoryBadgeCount r) (_owner r).
Definition set_userBadgeCount (v : gmap N N) (r : State) : State :=
  mkState (_owners r) (_balances r) (_tokenApprovals r) (_operatorApprovals r)
    (tokenCounter r) (baseURI r) (stakeContract r) (badgeMetadata r)
    v (categoryBadgeCount r) (_owner r).
Definition set_categoryBadgeCount (v : gmap (N * N) N) (r : State) : State :=
  mkState (_owners r) (_balances r) (_tokenApprovals r) (_operatorApprovals r)
    (tokenCounter r) (baseURI r) (stakeContract r) (badgeMetadata r)
    (userBadgeCount r) v (_owner r).
Definition set_owner (v : address) (r : State) : State :=
  mkState (_owners r) (_balances r) (_tokenApprovals r) (_operatorApprovals r)
    (tokenCounter r) (baseURI r) (stakeContract r) (badgeMetadata r)
    (userBadgeCount r) (categoryBadgeCount r) v.

(** ** State and error monad *)

Definition B (A : Type) : Type := State -> Result (A * State).

Definition ret {A : Type} (a : A) : B A := fun r => Ok (a, r).
Definition bind {A C : Type} (m : B A) (f : A -> B C) : B C :=
  fun r => match m r with
           | Ok x => f (fst x) (snd x)
           | Reverted msg => Reverted msg
           end.

Declare Scope badge_scope.
Delimit Scope badge_scope with badge.
Bind Scope badge_scope with B.
Notation "x <- m ; k" := (bind m (fun x => k))
  (at level 20, m at level 100, k at level 200, only parsing) : badge_scope.
Notation "m ;; k" := (bind m (fun _ => k))
  (at level 100, k at level 200, only parsing, right associativity)
  : badge_scope.
Local Open Scope badge_scope.

Definition get : B State := fun r => Ok (r, r).
Definition modify (f : State -> State) : B unit := fun r => Ok (tt, f r).
Definition revert {A : Type} (msg : string) : B A := fun _ => Reverted msg.
Definition require (b : bool) (msg : string) : B unit :=
  if b then ret tt else revert msg.

(** ** Storage reads *)

Definition _ownerOf (r : State) (tokenId : N) : address :=
  default 0 (_owners r !! tokenId).
Definition balance_at (r : State) (a : address) : N :=
  default 0 (_balances r !! a).
Definition _getApproved (r : State) (tokenId : N) : address :=
  default 0 (_tokenApprovals r !! tokenId).
Definition isApprovedForAll (r : State) (owner operator : address) : bool :=
  default false (_operatorApprovals r !! (owner, operator)).
Definition metadata_at (r : State) (tokenId : N) : BadgeMetadata :=
  default BadgeMetadata0 (badgeMetadata r !! tokenId).
Definition badge_count (r : State) (a : address) : N :=
  default 0 (userBadgeCount r !! a).
Definition category_count (r : State) (a : address) (c : N) : N :=
  default 0 (categoryBadgeCount r !! (a, c)).

(** [_exists] of the contract. *)
Definition _exists (r : State) (tokenId : N) : bool :=
  negb (_ownerOf r tokenId =? 0).

(** ** Inherited from OpenZeppelin ERC721 *)

Definition _requireOwned (tokenId : N) : B address :=
  r <- get ;
  let owner := _ownerOf r tokenId in
  if owner =? 0 then revert "ERC721NonexistentToken" else ret owner.

Definition ownerOf (tokenId : N) : B address := _requireOwned tokenId.

Definition balanceOf (owner : address) : B N :=
  r <- get ;
  if owner =? 0 then revert "ERC721InvalidOwner"
  else ret (balance_at r owner).

Definition getApproved (tokenId : N) : B address :=
  _requireOwned tokenId ;;
  r <- get ; ret (_getApproved r tokenId).

Definition _isAuthorized (r : State) (owner spender : address) (tokenId : N)
  : bool :=
  negb (spender =? 0)
  && ((owner =? spender) || isApprovedForAll r owner spender
      || (_getApproved r tokenId =? spender)).

Definition _checkAuthorized (owner spender : address) (tokenId : N)
  : B unit :=
  r <- get ;
  if negb (_isAuthorized r owner spender tokenId)
  then (if owner =? 0 then revert "ERC721NonexistentToken"
        else revert "ERC721InsufficientApproval")
  else ret tt.

(** [unchecked { _balances[a] -= 1; }] and [+= 1] wrap modulo 2^256. *)
Definition unchecked_dec (x : N) : N := (x + MAX_UINT256) mod 2 ^ 256.
Definition unchecked_inc (x : N) : N := (x + 1) mod 2 ^ 256.

(** [ERC721._update], reached from the override as [super._update]. *)
Definition ERC721_update (to : address) (tokenId : N) (auth : address)
  : B address :=
  r <- get ;
  let from := _ownerOf r tokenId in
  (if negb (auth =? 0) then _checkAuthorized from auth tokenId else ret tt) ;;
  (if negb (from =? 0)
   then modify (fun r => set_tokenApprovals
                           (<[tokenId := 0]> (_tokenApprovals r)) r) ;;
        modify (fun r => set_balances
                           (<[from := unchecked_dec (balance_at r from)]>
                              (_balances r)) r)
   else ret tt) ;;
  (if negb (to =? 0)
   then modify (fun r => set_balances
                           (<[to := unchecked_inc (balance_at r to)]>
                              (_balances r)) r)
   else ret tt) ;;
  modify (fun r => set_owners (<[tokenId := to]> (_owners r)) r) ;;
  ret from.

(** The override: [_update] of GoalBadgeNFT. *)
Definition _update (to : address) (tokenId : N) (auth : address)
  : B address :=
  r <- get ;
  let from := _ownerOf r tokenId in
  require ((from =? 0) || (to =? 0))
          "Soulbound: badges cannot be transferred" ;;
  ERC721_update to tokenId auth.

Definition _mint (to : address) (tokenId : N) : B unit :=
  (if to =? 0 then revert "ERC721InvalidReceiver" else ret tt) ;;
  previousOwner <- _update to tokenId 0 ;
  if negb (previousOwner =? 0) then revert "ERC721InvalidSender" else ret tt.

(** [receiver_ok] is the outcome of [checkOnERC721Received]: true when the
    recipient has no code or accepts the token. *)
Definition _safeMint (receiver_ok : bool) (to : address) (tokenId : N)
  : B unit :=
  _mint to tokenId ;;
  require receiver_ok "ERC721InvalidReceiver".

Definition _burn (tokenId : N) : B unit :=
  previousOwner <- _update 0 tokenId 0 ;
  if previousOwner =? 0 then revert "ERC721NonexistentToken" else ret tt.

Section Transaction.

Variable msg_sender : address.
Variable block_timestamp : N.

Definition transferFrom (from to : address) (tokenId : N) : B unit :=
  (if to =? 0 then revert "ERC721InvalidReceiver" else ret tt) ;;
  previousOwner <- _update to tokenId msg_sender ;
  if negb (previousOwner =? from) then revert "ERC721IncorrectOwner"
  else ret tt.

Definition safeTransferFrom (receiver_ok : bool) (from to : address)
    (tokenId : N) : B unit :=
  transferFrom from to tokenId ;;
  require receiver_ok "ERC721InvalidReceiver".

Definition approve (to : address) (tokenId : N) : B unit :=
  owner <- _requireOwned tokenId ;
  r <- get ;
  (if negb (msg_sender =? 0) && negb (owner =? msg_sender)
      && negb (isApprovedForAll r owner msg_sender)
   then revert "ERC721InvalidApprover" else ret tt) ;;
  modify (fun r => set_tokenApprovals (<[tokenId := to]> (_tokenApprovals r)) r).

Definition setApprovalForAll (operator : address) (approved : bool)
  : B unit :=
  (if operator =? 0 then revert "ERC721InvalidOperator" else ret tt) ;;
  modify (fun r => set_operatorApprovals
                     (<[(msg_sender, operator) := approved]>
                        (_operatorApprovals r)) r).

(** ** The contract's own functions *)

Definition onlyStakeContract : B unit :=
  r <- get ;
  require (msg_sender =? stakeContract r) "Only StakeYourGoal contract".

Definition onlyOwner : B unit :=
  r <- get ;
  require (msg_sender =? _owner r) "OwnableUnauthorizedAccount".

Definition checked_inc (x : N) : B N :=
  if x + 1 <=? MAX_UINT256 then ret (x + 1) else revert PANIC_ARITH.
Definition checked_dec (x : N) : B N :=
  if 1 <=? x then ret (x - 1) else revert PANIC_ARITH.

Definition mintBadge (receiver_ok : bool) (user : address)
    (goalId_ category_ streak_ : N) : B N :=
  onlyStakeContract ;;
  r <- get ;
  let tokenId := tokenCounter r in
  next <- checked_inc tokenId ;
  modify (set_tokenCounter next) ;;
  _safeMint receiver_ok user tokenId ;;
  modify (fun r => set_badgeMetadata
                     (<[tokenId := mkBadgeMetadata goalId_ category_
                                     (uint64 block_timestamp) streak_]>
                        (badgeMetadata r)) r) ;;
  r <- get ;
  n <- checked_inc (badge_count r user) ;
  modify (fun r => set_userBadgeCount (<[user := n]> (userBadgeCount r)) r) ;;
  k <- checked_inc (category_count r user category_) ;
  modify (fun r => set_categoryBadgeCount
                     (<[(user, category_) := k]> (categoryBadgeCount r)) r) ;;
  ret tokenId.

Definition burn (tokenId : N) : B unit :=
  owner <- ownerOf tokenId ;
  require (owner =? msg_sender) "Not badge owner" ;;
  r <- get ;
  let user := msg_sender in
  let category_ := category (metadata_at r tokenId) in
  n <- checked_dec (badge_count r user) ;
  modify (fun r => set_userBadgeCount (<[user := n]> (userBadgeCount r)) r) ;;
  k <- checked_dec (category_count r user category_) ;
  modify (fun r => set_categoryBadgeCount
                     (<[(user, category_) := k]> (categoryBadgeCount r)) r) ;;
  _burn tokenId.

Definition getBadgeMetadata (tokenId : N) : B BadgeMetadata :=
  r <- get ;
  require (_exists r tokenId) "Token does not exist" ;;
  ret (metadata_at r tokenId).



Definition _getCategoryName (category_ : N) : string :=
  if category_ =? 0 then "health"
  else if category_ =? 1 then "work"
  else if category_ =? 2 then "learning"
  else if category_ =? 3 then "fitness"
  else if category_ =? 4 then "finance"
  else "other".

Definition setBaseURI (_baseURI : string) : B unit :=
  onlyOwner ;; modify (set_baseURI _baseURI).

Definition setStakeContract (_stakeContract : address) : B unit :=
  onlyOwner ;; modify (set_stakeContract _stakeContract).

(** OpenZeppelin [Ownable]. *)
Definition transferOwnership (newOwner : address) : B unit :=
  onlyOwner ;;
  (if newOwner =? 0 then revert "OwnableInvalidOwner" else ret tt) ;;
  modify (set_owner newOwner).

Definition renounceOwnership : B unit :=
  onlyOwner ;; modify (set_owner 0).

End Transaction.

(** State after [constructor(_stakeContract)] run by [deployer]. *)
Definition constructor (deployer _stakeContract : address) : State :=
  {| _owners := ∅; _balances := ∅; _tokenApprovals := ∅;
     _operatorApprovals := ∅; tokenCounter := 0;
     baseURI := "https://ipfs.io/ipfs/"; stakeContract := _stakeContract;
     badgeMetadata := ∅; userBadgeCount := ∅; categoryBadgeCount := ∅;
     _owner := deployer |}.

(** ** Transactions and traces *)

Inductive Op : Type :=
| MintBadge (user : address) (goalId_ category_ streak_ : N)
| Burn (tokenId : N)
| TransferFrom (from to : address) (tokenId : N)
| SafeTransferFrom (from to : address) (tokenId : N)
| Approve (to : address) (tokenId : N)
| SetApprovalForAll (operator : address) (approved : bool)
| SetBaseURI (uri : string)
| SetStakeContract (a : address)
| TransferOwnership (a : address)
| RenounceOwnership.

Definition abi_ok (op : Op) : bool :=
  match op with
  | MintBadge _ _ c k => (c <=? 255) && (k <=? MAX_UINT64)
  | _ => true
  end.

Record Tx : Type := mkTx {
  tx_sender : address;
  tx_time : N;
  tx_receiver_ok : bool;     (* answer of [checkOnERC721Received] *)
  tx_op : Op
}.

Definition dispatch (tx : Tx) : B unit :=
  require (abi_ok (tx_op tx)) "" ;;
  match tx_op tx with
  | MintBadge u g c k =>
      mintBadge (tx_sender tx) (tx_time tx) (tx_receiver_ok tx) u g c k ;;
      ret tt
  | Burn t => burn (tx_sender tx) t
  | TransferFrom f t id => transferFrom (tx_sender tx) f t id
  | SafeTransferFrom f t id =>
      safeTransferFrom (tx_sender tx) (tx_receiver_ok tx) f t id
  | Approve t id => approve (tx_sender tx) t id
  | SetApprovalForAll o a => setApprovalForAll (tx_sender tx) o a
  | SetBaseURI u => setBaseURI (tx_sender tx) u
  | SetStakeContract a => setStakeContract (tx_sender tx) a
  | TransferOwnership a => transferOwnership (tx_sender tx) a
  | RenounceOwnership => renounceOwnership (tx_sender tx)
  end.

Definition exec_tx (tx : Tx) (r : State) : Result State :=
  match dispatch tx r with
  | Ok x => Ok (snd x)
  | Reverted msg => Reverted msg
  end.

Definition apply_tx (r : State) (tx : Tx) : State :=
  match exec_tx tx r with
  | Ok r' => r'
  | Reverted _ => r
  end.

Definition run_trace (txs : list Tx) (r : State) : State :=
  fold_left apply_tx txs r.

(** Well-formed storage: tokens that were never minted have no holder, a
    token without holder has no approved spender, and the zero address has
    appointed no operator. *)
Record wf (r : State) : Prop := mkWf {
  wf_unminted : forall tokenId,
    tokenCounter r <= tokenId -> _ownerOf r tokenId = 0;
  wf_no_stale_approval : forall tokenId,
    _ownerOf r tokenId = 0 -> _getApproved r tokenId = 0;
  wf_zero_operator : forall operator, isApprovedForAll r 0 operator = false
}.

(** Transactions are sent by accounts, never by the zero address. *)
Definition valid_tx (tx : Tx) : Prop := tx_sender tx <> 0.

(** ** Sample histories *)

Definition ledger : address := 77.
Definition holder : address := 7.

(** One badge, token 0, minted to [holder]. *)
Definition registry_minted : State :=
  run_trace [mkTx ledger 2000 true (MintBadge holder 0 3 1)]
            (constructor 1 ledger).

(** ** Views *)

Definition view {A : Type} (m : B A) (r : State) : Result A :=
  match m r with
  | Ok x => Ok (fst x)
  | Reverted msg => Reverted msg
  end.

(** OpenZeppelin [Strings.toString]: the decimal digits of a number. *)
Definition toString (n : N) : string :=
  NilEmpty.string_of_uint (N.to_uint n).

Definition tokenURI (tokenId : N) : B string :=
  r <- get ;
  require (_exists r tokenId) "Token does not exist" ;;
  let metadata := metadata_at r tokenId in
  let categoryStr := _getCategoryName (category metadata) in
  ret (baseURI r +:+ "Qm" +:+ categoryStr +:+ "_"
       +:+ toString (streak metadata) +:+ "_" +:+ toString tokenId).

(** ** Counting badges *)





(** Token 0 of [registry_minted], burned by its holder. *)
Definition registry_burned : State :=
  run_trace [mkTx holder 2001 true (Burn 0)] registry_minted.

End GoalBadgeNFT.

(** * The ledger and the registry deployed together *)

Module Deployment.



End Deployment.

(** * Properties of the goal ledger *)

Module Ledger.
Import StakeYourGoal.

(** ** Running computations *)

Lemma run_bindE {A B : Type} (env : Call -> Reply) (e : Exec A)
    (f : A -> Exec B) :
  run env (bindE e f) =
  match run env e with Ok a => run env (f a) | Reverted m => Reverted m end.
Proof. induction e as [a|m|st c k IH]; cbn; auto. Qed.

Ltac unfold_monad :=
  unfold send, call, emit, modify, get, require, checked_add, checked_sub,
         checked_mul, revert, ret, bind in *.

Ltac red_exec := cbn [bindE run fst snd succeeded negb andb orb] in *.
Ltac red_bool := cbn [fst snd succeeded negb andb orb] in *.

Ltac split_on c :=
  lazymatch c with
  | negb ?x => split_on x
  | andb ?x _ => split_on x
  | orb ?x _ => split_on x
  | _ => let E := fresh "E" in destruct c eqn:E; red_bool
  end.

Ltac split_if :=
  match goal with
  | H : context [if ?c then _ else _] |- _ => split_on c
  | |- context [if ?c then _ else _] => split_on c
  | H : context [match ?c with Failed => _ | Returned _ => _ end] |- _ =>
      split_on c
  | |- context [match ?c with Failed => _ | Returned _ => _ end] => split_on c
  end.

Ltac bool_hyps :=
  repeat match goal with
  | H : (_ =? _) = true |- _ => apply N.eqb_eq in H
  | H : (_ =? _) = false |- _ => apply N.eqb_neq in H
  | H : (_ <? _) = true |- _ => apply N.ltb_lt in H
  | H : (_ <? _) = false |- _ => apply N.ltb_ge in H
  | H : (_ <=? _) = true |- _ => apply N.leb_le in H
  | H : (_ <=? _) = false |- _ => apply N.leb_gt in H
  end.

Ltac syn_refl := lazymatch goal with |- ?x = ?x => reflexivity end.
Ltac conj := repeat match goal with |- _ /\ _ => split end.
Ltac atom := first [ syn_refl | assumption | congruence | lia ].

Ltac eqb_simp :=
  rewrite ?N.eqb_refl in *;
  repeat match goal with
  | H : ?a <> ?b |- context [?a =? ?b] =>
      rewrite (proj2 (N.eqb_neq a b) H)
  end.

(** ** The two resolution helpers in closed form *)

Lemma onGoalCompleted_run env goalId s l :
  run env (_onGoalCompleted goalId s l) =
  if streak_of s (user (goal_at s goalId)) + 1 <=? MAX_UINT64
  then Ok (tt, (completed s goalId, l ++ mint_effects env s goalId))
  else Reverted PANIC_ARITH.
Proof.
  unfold _onGoalCompleted, completed, mint_effects. unfold_monad. red_exec.
  repeat (split_if; red_exec); rewrite ?app_nil_r; try reflexivity;
    congruence.
Qed.

Lemma onGoalFailed_run env goalId s l :
  run env (_onGoalFailed goalId s l) =
  if negb (charityAddress s =? 0) && (0 <? stakeAmount (goal_at s goalId))
     && negb (stakeAmount (goal_at s goalId) * charityBasisPoints s
              <=? MAX_UINT256)
  then Reverted PANIC_ARITH
  else Ok (tt, (failed s goalId, l ++ donation_effects env s goalId)).
Proof.
  unfold _onGoalFailed, failed, donation_effects, charity_share.
  unfold_monad. red_exec.
  cbn [charityAddress charityBasisPoints set_userStreaks].
  destruct (charityAddress s =? 0) eqn:E1; red_exec; rewrite ?app_nil_r; auto.
  destruct (stakeAmount (goal_at s goalId)) as [|p] eqn:E2; red_exec;
    rewrite ?app_nil_r; auto.
  change (0 <? N.pos p) with true. change (N.pos p =? 0) with false.
  red_exec.
  destruct (N.pos p * charityBasisPoints s <=? MAX_UINT256) eqn:E3; red_exec;
    auto.
  destruct (N.pos p * charityBasisPoints s / 10000) as [|q] eqn:E4; red_exec;
    rewrite ?app_nil_r; auto.
  change (0 <? N.pos q) with true. change (N.pos q =? 0) with false. red_exec.
  repeat (split_if; red_exec); rewrite ?app_nil_r, <- ?app_assoc;
    try reflexivity; congruence.
Qed.

(** ** Reading storage after a write *)

Lemma goal_at_upd_goal_eq i f s : goal_at (upd_goal i f s) i = f (goal_at s i).
Proof. unfold goal_at, upd_goal. cbn. by rewrite lookup_insert_eq. Qed.

Lemma goal_at_upd_goal_ne i j f s :
  i <> j -> goal_at (upd_goal i f s) j = goal_at s j.
Proof. intros. unfold goal_at, upd_goal. cbn. by rewrite lookup_insert_ne. Qed.

Lemma vote_at_upd_vote_eq i f s : vote_at (upd_vote i f s) i = f (vote_at s i).
Proof. unfold vote_at, upd_vote. cbn. by rewrite lookup_insert_eq. Qed.

Lemma vote_at_upd_vote_ne i j f s :
  i <> j -> vote_at (upd_vote i f s) j = vote_at s j.
Proof. intros. unfold vote_at, upd_vote. cbn. by rewrite lookup_insert_ne. Qed.

Lemma upd_goal_twice i f g s :
  upd_goal i f (upd_goal i g s) = upd_goal i (fun x => f (g x)) s.
Proof.
  unfold upd_goal at 1. rewrite goal_at_upd_goal_eq.
  unfold upd_goal, set_goals. cbn. by rewrite insert_insert_eq.
Qed.

Lemma upd_vote_twice i f g s :
  upd_vote i f (upd_vote i g s) = upd_vote i (fun x => f (g x)) s.
Proof.
  unfold upd_vote at 1. rewrite vote_at_upd_vote_eq.
  unfold upd_vote, set_votes. cbn. by rewrite insert_insert_eq.
Qed.

Lemma goal_at_same s s' j : goals s' = goals s -> goal_at s' j = goal_at s j.
Proof. unfold goal_at. by intros ->. Qed.

Lemma vote_at_same s s' j : votes s' = votes s -> vote_at s' j = vote_at s j.
Proof. unfold vote_at. by intros ->. Qed.

Lemma streak_of_same s s' j :
  userStreaks s' = userStreaks s -> streak_of s' j = streak_of s j.
Proof. unfold streak_of. by intros ->. Qed.

Lemma highest_of_same s s' j :
  userHighestStreak s' = userHighestStreak s ->
  highest_of s' j = highest_of s j.
Proof. unfold highest_of. by intros ->. Qed.

(** Projections through the field updates of a state term. *)
Ltac st_cbn :=
  cbn [goalCounter goals userGoals votes badgeContract badgeMinter minimumStake
       votingPeriod aiVerifier totalStaked charityAddress charityBasisPoints
       userStreaks userHighestStreak _owner _entered
       set_goalCounter set_goals set_userGoals set_votes set_badgeContract
       set_badgeMinter set_minimumStake set_votingPeriod set_aiVerifier
       set_totalStaked set_charityAddress set_charityBasisPoints
       set_userStreaks set_userHighestStreak set_owner set_entered
       upd_goal upd_vote failed completed
       user stakeAmount deadline createdAt aiScore status category description
       proofURI set_user set_stakeAmount set_deadline set_createdAt set_aiScore
       set_status set_category set_description set_proofURI
       yesVotes noVotes hasVoted resolved passed
       set_yesVotes set_noVotes set_hasVoted set_resolved set_passed
       fst snd app] in *.

(** The state a write was applied to. *)
Ltac inner t :=
  lazymatch t with
  | completed ?s _ => s
  | failed ?s _ => s
  | upd_goal _ _ ?s => s
  | upd_vote _ _ ?s => s
  | set_goalCounter _ ?s => s
  | set_goals _ ?s => s
  | set_userGoals _ ?s => s
  | set_votes _ ?s => s
  | set_badgeContract _ ?s => s
  | set_badgeMinter _ ?s => s
  | set_minimumStake _ ?s => s
  | set_votingPeriod _ ?s => s
  | set_aiVerifier _ ?s => s
  | set_totalStaked _ ?s => s
  | set_charityAddress _ ?s => s
  | set_charityBasisPoints _ ?s => s
  | set_userStreaks _ ?s => s
  | set_userHighestStreak _ ?s => s
  | set_owner _ ?s => s
  | set_entered _ ?s => s
  end.

(** A read of one mapping is not affected by writes to other fields. *)
Ltac peel_with acc lem :=
  match goal with
  | |- context [acc ?t ?j] =>
      let s := inner t in rewrite (lem s t j) by (st_cbn; syn_refl)
  | H : context [acc ?t ?j] |- _ =>
      let s := inner t in rewrite (lem s t j) in H by (st_cbn; syn_refl)
  end.

Ltac peel :=
  first [ peel_with goal_at goal_at_same
        | peel_with vote_at vote_at_same
        | peel_with streak_of streak_of_same
        | peel_with highest_of highest_of_same ].

Ltac st_simp :=
  repeat first
    [ progress st_cbn
    | progress rewrite ?upd_goal_twice, ?upd_vote_twice,
                       ?goal_at_upd_goal_eq, ?vote_at_upd_vote_eq in *
    | peel ].

(** ** Symbolic execution

    Each primitive of the monad has an equation for [run]; a transaction is
    executed by rewriting with them, splitting on every test. *)

Lemma run_bind {A B : Type} env (m : M A) (f : A -> M B) s l :
  run env (bind m f s l) =
  match run env (m s l) with
  | Ok r => run env (f (fst r) (fst (snd r)) (snd (snd r)))
  | Reverted msg => Reverted msg
  end.
Proof. unfold bind. apply run_bindE. Qed.

Lemma run_ret {A : Type} env (a : A) s l : run env (ret a s l) = Ok (a, (s, l)).
Proof. reflexivity. Qed.

Lemma run_get env s l : run env (get s l) = Ok (s, (s, l)).
Proof. reflexivity. Qed.

Lemma run_modify env f s l : run env (modify f s l) = Ok (tt, (f s, l)).
Proof. reflexivity. Qed.

Lemma run_emit env e s l : run env (emit e s l) = Ok (tt, (s, l ++ [Emit e])).
Proof. reflexivity. Qed.

Lemma run_require env b msg s l :
  run env (require b msg s l) = if b then Ok (tt, (s, l)) else Reverted msg.
Proof. by destruct b. Qed.

Lemma run_checked_add env bound a b s l :
  run env (checked_add bound a b s l) =
  if a + b <=? bound then Ok (a + b, (s, l)) else Reverted PANIC_ARITH.
Proof. unfold checked_add. by destruct (a + b <=? bound). Qed.

Lemma run_checked_sub env a b s l :
  run env (checked_sub a b s l) =
  if b <=? a then Ok (a - b, (s, l)) else Reverted PANIC_ARITH.
Proof. unfold checked_sub. by destruct (b <=? a). Qed.

Lemma run_send env p g to v s l :
  run env (send p g to v s l) =
  if succeeded (env (Transfer p g to v))
  then Ok (true, (s, l ++ [Pay p g to v]))
  else Ok (false, (s, l)).
Proof.
  unfold send. rewrite run_bind. cbn.
  by destruct (succeeded (env (Transfer p g to v))).
Qed.

Lemma run_if {A : Type} env (c : bool) (m1 m2 : M A) s l :
  run env ((if c then m1 else m2) s l) =
  if c then run env (m1 s l) else run env (m2 s l).
Proof. by destruct c. Qed.

Ltac exec_unfold :=
  unfold exec_tx in *; cbn [tx_op tx_sender tx_time tx_env] in *;
  unfold commit, dispatch, setAIScore, verifyGoal, vote, resolveVote,
         withdrawStake, createGoal, submitProof, setAIVerifier, setMinimumStake,
         setVotingPeriod, setCharityAddress, setCharityBasisPoints,
         setBadgeContract, transferOwnership, renounceOwnership, receive,
         goalExists, onlyAIVerifier, onlyOwner, nonReentrant in *.

Ltac exec_red := cbv beta iota zeta delta [fst snd] in *.

Ltac exec_step :=
  first [ progress exec_red
        | progress rewrite ?run_bind, ?run_ret, ?run_get, ?run_modify,
            ?run_emit, ?run_require, ?run_checked_add, ?run_checked_sub,
            ?run_send, ?run_if, ?onGoalCompleted_run, ?onGoalFailed_run in *
        | split_if ].

(** Every way a transaction can commit, with its storage and effects. *)
Ltac exec_cases H :=
  exec_unfold; repeat exec_step; try discriminate;
  inversion H; subst; clear H.

(** Case analysis on whether the goal written is the goal looked at. *)
Ltac on_goal id :=
  match goal with
  | |- context [goal_at (upd_goal ?g _ _) id] =>
      destruct (decide (g = id)) as [?|Hne];
      [subst; rewrite ?goal_at_upd_goal_eq in *
      |rewrite ?(goal_at_upd_goal_ne _ _ _ _ Hne) in *]
  | _ => idtac
  end.

Ltac on_vote id :=
  match goal with
  | |- context [vote_at (upd_vote ?g _ _) id] =>
      destruct (decide (g = id)) as [?|Hne];
      [subst; rewrite ?vote_at_upd_vote_eq in *
      |rewrite ?(vote_at_upd_vote_ne _ _ _ _ Hne) in *]
  | _ => idtac
  end.

Ltac open_effects :=
  unfold payments_for, deposits_for, mint_effects, donation_effects,
         charity_share in *.

(** ** What one transaction does *)

Lemma exec_tx_goal_step tx s s' effs id :
  exec_tx tx s = Ok (s', effs) -> id < goalCounter s ->
  goal_step (charityBasisPoints s) (goal_at s id) (goal_at s' id)
            (payments_for id effs).
Proof.
  destruct tx as [sender now env op]. intros H Hid.
  destruct op; exec_cases H.
  all: open_effects; st_simp; on_goal id; st_simp.
  all: repeat split_if; bool_hyps; try (exfalso; lia).
  all: cbn [flat_map app]; eqb_simp; cbn [flat_map app].
  all: unfold goal_step; st_cbn; split; [syn_refl|].
  all: try solve [left; conj; atom].
  all: try solve [right; left; conj; atom].
  all: try solve [right; right; left; conj; try atom;
                  (left; atom)
                  || (right; eexists; conj;
                      [reflexivity | apply N.neq_0_lt_0; assumption])].
  all: solve [right; right; right; conj; atom].
Qed.

Lemma exec_tx_payments_fresh tx s s' effs id :
  exec_tx tx s = Ok (s', effs) -> goalCounter s <= id ->
  payments_for id effs = [].
Proof.
  destruct tx as [sender now env op]. intros H Hid.
  destruct op; exec_cases H.
  all: open_effects; st_simp.
  all: repeat split_if; bool_hyps; cbn [flat_map app]; try syn_refl.
  all: try (exfalso; lia).
  all: assert (Hne : goalId <> id) by lia; eqb_simp; reflexivity.
Qed.

Lemma exec_tx_counter tx s s' effs :
  exec_tx tx s = Ok (s', effs) ->
  (goalCounter s' = goalCounter s /\ forall id, deposits_for id effs = [])
  \/ (exists v d c desc,
        tx_op tx = CreateGoal v d c desc /\
        goalCounter s' = goalCounter s + 1 /\
        deposits_for (goalCounter s) effs = [v] /\
        (forall id, id <> goalCounter s -> deposits_for id effs = []) /\
        (forall id, payments_for id effs = []) /\
        status (goal_at s' (goalCounter s)) = 0 /\
        stakeAmount (goal_at s' (goalCounter s)) = uint96 v).
Proof.
  destruct tx as [sender now env op]. intros H.
  destruct op; exec_cases H.
  2-27: left; open_effects; st_simp; split; [syn_refl|intros id];
        repeat split_if; reflexivity.
  right. exists msg_value, deadline_, category_, description_.
  open_effects. st_simp. cbn [flat_map app tx_op]. eqb_simp.
  conj; try reflexivity.
  intros id Hid. apply not_eq_sym in Hid. by eqb_simp.
Qed.

(** ** Well-formed storage is preserved *)

Lemma uint96_le v : uint96 v <= MAX_UINT96.
Proof.
  unfold uint96, MAX_UINT96.
  assert (v mod 2 ^ 96 < 2 ^ 96) by (apply N.mod_lt; discriminate). lia.
Qed.

Lemma uint96_id v : v <= MAX_UINT96 -> uint96 v = v.
Proof.
  unfold uint96, MAX_UINT96. intros. apply N.mod_small.
  assert (0 < 2 ^ 96) by (apply N.neq_0_lt_0; discriminate). lia.
Qed.

Lemma wf_constructor deployer _badgeContract :
  wf (constructor deployer _badgeContract).
Proof.
  split; try reflexivity; cbn; try lia; intros; unfold goal_at, vote_at; cbn;
    rewrite ?lookup_empty; cbn; try reflexivity; lia.
Qed.

Lemma wf_exec_tx tx s s' effs :
  wf s -> exec_tx tx s = Ok (s', effs) -> wf s'.
Proof.
  destruct tx as [sender now env op]. intros [W1 W2 W3 W4 W5 W6] H.
  destruct op; exec_cases H.
  all: bool_hyps.
  all: split; st_simp; try assumption; try reflexivity.
  all: lazymatch goal with
       | |- forall id, _ -> goal_at _ _ = _ =>
           intros id Hid; st_simp; on_goal id; st_simp;
           first [exfalso; lia | apply W5; lia]
       | |- forall id, _ -> vote_at _ _ = _ =>
           intros id Hid; st_simp; on_vote id; st_simp;
           first [exfalso; lia | apply W6; lia]
       | |- forall id, _ =>
           intros id; st_simp; on_goal id; st_simp;
           first [apply W3 | apply W4 | apply uint96_le | lia]
       | |- _ => idtac
       end.
Qed.

(** ** Histories *)

Lemma run_trace_snoc txs tx c :
  run_trace (txs ++ [tx]) c = apply_tx (run_trace txs c) tx.
Proof. unfold run_trace. by rewrite fold_left_app. Qed.

Lemma wf_apply_tx c tx : wf (fst c) -> wf (fst (apply_tx c tx)).
Proof.
  intros W. unfold apply_tx.
  destruct (exec_tx tx (fst c)) as [[s' effs]|] eqn:E; [|done].
  eapply wf_exec_tx; eauto.
Qed.

Lemma wf_run_trace txs c : wf (fst c) -> wf (fst (run_trace txs c)).
Proof.
  induction txs as [|tx txs IH] using rev_ind; [done|].
  intros W. rewrite run_trace_snoc. by apply wf_apply_tx, IH.
Qed.

Lemma reachable_wf s : reachable s -> wf s.
Proof.
  intros (d & b & txs & ->). apply wf_run_trace, wf_constructor.
Qed.

Lemma exec_tx_counter_le tx s s' effs :
  exec_tx tx s = Ok (s', effs) -> goalCounter s <= goalCounter s'.
Proof.
  intros H. destruct (exec_tx_counter _ _ _ _ H) as [[-> _]|(?&?&?&?&_&->&_)];
    lia.
Qed.

(** A property of one goal that every committed transaction preserves holds
    along every history. *)
Lemma goal_property_run_trace (P : State -> Prop) id :
  (forall tx s s' effs,
     exec_tx tx s = Ok (s', effs) -> id < goalCounter s -> P s -> P s') ->
  forall txs c,
    id < goalCounter (fst c) -> P (fst c) ->
    id < goalCounter (fst (run_trace txs c)) /\ P (fst (run_trace txs c)).
Proof.
  intros Hstep txs c Hid HP.
  induction txs as [|tx txs IH] using rev_ind; [done|].
  rewrite run_trace_snoc. destruct IH as [IH1 IH2]. unfold apply_tx.
  destruct (exec_tx tx (fst (run_trace txs c))) as [[s' effs]|] eqn:E;
    [|done].
  cbn [fst]. split; [|eauto].
  apply exec_tx_counter_le in E. lia.
Qed.

(** ** The books of a goal *)

Lemma total_app l1 l2 : total (l1 ++ l2) = total l1 + total l2.
Proof. unfold total. induction l1 as [|x l1 IH]; cbn; lia. Qed.

Lemma paid_app p l1 l2 : paid p (l1 ++ l2) = paid p l1 + paid p l2.
Proof. unfold paid. by rewrite List.filter_app, map_app, total_app. Qed.

Lemma nonzero_app l1 l2 : nonzero (l1 ++ l2) = nonzero l1 ++ nonzero l2.
Proof. unfold nonzero. apply List.filter_app. Qed.

Lemma payments_for_app id l1 l2 :
  payments_for id (l1 ++ l2) = payments_for id l1 ++ payments_for id l2.
Proof. unfold payments_for. apply flat_map_app. Qed.

Lemma deposits_for_app id l1 l2 :
  deposits_for id (l1 ++ l2) = deposits_for id l1 ++ deposits_for id l2.
Proof. unfold deposits_for. apply flat_map_app. Qed.

Lemma share_le stake bps : bps <= 10000 -> stake * bps / 10000 <= stake.
Proof.
  intros Hb. apply N.Div0.div_le_upper_bound.
  rewrite (N.mul_comm 10000). by apply N.mul_le_mono_l.
Qed.

Lemma goal_books_step s log id s' effs :
  charityBasisPoints s <= 10000 ->
  goal_books s log id ->
  goal_step (charityBasisPoints s) (goal_at s id) (goal_at s' id)
            (payments_for id effs) ->
  deposits_for id effs = [] ->
  goal_books s' (log ++ effs) id.
Proof.
  intros Hbps (v & Hdep & Hb) (Hu & Hs) Hnew. unfold goal_books.
  rewrite payments_for_app, deposits_for_app, Hnew, app_nil_r.
  exists v. split; [done|].
  destruct Hs as [(Hst & Hsk & Hp)|[(Hst & Hst' & Hsk & Hp)
                  |[(Hst & Hst' & Hsk & Hp)|(Hst & Hst' & Hsk & Hp)]]];
    rewrite ?Hsk, ?Hp, ?app_nil_r.
  - rewrite Hst. exact Hb.
  - destruct Hb as [(B1 & B2 & B3)|[(B1 & _)|(B1 & _)]]; try congruence.
    right; left. rewrite B3. cbn. repeat split; try done; lia.
  - destruct Hb as [(B1 & B2 & B3)|[(B1 & _)|(B1 & _)]]; try congruence.
    right; right. rewrite B3. destruct Hp as [->|(to & -> & Hpos)].
    + cbn. repeat split; try done; try lia. by left.
    + cbn. repeat split; try done; try lia.
      * rewrite N.add_0_r. by apply share_le.
      * right. eauto.
  - destruct Hb as [(B1 & _)|[(B1 & B2 & B3 & B4 & B5)|(B1 & _)]];
      try congruence.
    right; left. rewrite !paid_app, !nonzero_app. cbn.
    destruct (stakeAmount (goal_at s id)) as [|p] eqn:Ep; cbn.
    + rewrite app_nil_r. repeat split; try done; try lia.
    + rewrite B5 by lia. cbn. repeat split; try done; lia.
Qed.

Lemma ledger_books_apply_tx c tx :
  wf (fst c) -> ledger_books c -> ledger_books (apply_tx c tx).
Proof.
  intros W [B1 B2]. unfold apply_tx.
  destruct (exec_tx tx (fst c)) as [[s' effs]|] eqn:E; [|done].
  destruct c as [s log]. cbn [fst snd] in *.
  pose proof (fun id => exec_tx_goal_step _ _ _ _ id E) as Hstep.
  pose proof (fun id => exec_tx_payments_fresh _ _ _ _ id E) as Hfresh.
  destruct (exec_tx_counter _ _ _ _ E)
    as [[Hc Hd]|(v & d & ct & ds & _ & Hc & Hd1 & Hd2 & Hp & Hst & Hsk)].
  - unfold ledger_books; cbn [fst snd]; rewrite Hc; split.
    + intros id Hid. eapply goal_books_step; eauto using wf_bps.
    + intros id Hid. destruct (B2 id Hid) as [P1 P2].
      by rewrite payments_for_app, deposits_for_app, P1, P2, Hfresh, Hd.
  - unfold ledger_books; cbn [fst snd]; rewrite Hc; split.
    + intros id Hid. destruct (decide (id = goalCounter s)) as [->|Hne].
      * destruct (B2 (goalCounter s)) as [P1 P2]; [lia|].
        exists v. rewrite payments_for_app, deposits_for_app, P1, P2, Hd1, Hp.
        split; [done|]. left. by rewrite Hst, Hsk.
      * eapply goal_books_step; [by apply wf_bps|apply B1; lia
                                |apply Hstep; lia|by apply Hd2].
    + intros id Hid. destruct (B2 id) as [P1 P2]; [lia|].
      rewrite payments_for_app, deposits_for_app, P1, P2, Hp, Hd2; [done|lia].
Qed.

Lemma ledger_books_run_trace txs c :
  wf (fst c) -> ledger_books c -> ledger_books (run_trace txs c).
Proof.
  intros W B. induction txs as [|tx txs IH] using rev_ind; [done|].
  rewrite run_trace_snoc. apply ledger_books_apply_tx; [|done].
  by apply wf_run_trace.
Qed.

Lemma ledger_books_constructor deployer _badgeContract :
  ledger_books (constructor deployer _badgeContract, []).
Proof. split; cbn; intros id Hid; [lia|done]. Qed.

(** ** Sums over the goals *)

Lemma sum_upto_ext n f g :
  (forall k, k < N.of_nat n -> f k = g k) -> sum_upto n f = sum_upto n g.
Proof.
  induction n as [|n IH]; intros H; [done|]. cbn [sum_upto].
  rewrite IH, (H (N.of_nat n)); [done|lia|]. intros k Hk. apply H. lia.
Qed.

Lemma sum_upto_add n f g :
  sum_upto n (fun i => f i + g i) = sum_upto n f + sum_upto n g.
Proof. induction n as [|n IH]; cbn [sum_upto]; lia. Qed.

Lemma sum_upto_zero n : sum_upto n (fun _ => 0) = 0.
Proof. induction n as [|n IH]; cbn [sum_upto]; lia. Qed.

Lemma sum_upto_at n k a :
  sum_upto n (fun i => if k =? i then a else 0) =
  if k <? N.of_nat n then a else 0.
Proof.
  induction n as [|n IH]; cbn [sum_upto].
  - by destruct (k <? N.of_nat 0) eqn:E; [apply N.ltb_lt in E; lia|].
  - rewrite IH.
    destruct (k =? N.of_nat n) eqn:E1; destruct (k <? N.of_nat n) eqn:E2;
      destruct (k <? N.of_nat (S n)) eqn:E3; bool_hyps; lia.
Qed.

(** Summing the payments of each goal gives the payments of the ledger. *)
Lemma sum_paid_total p n log :
  (forall id, N.of_nat n <= id -> payments_for id log = []) ->
  sum_upto n (fun id => paid p (payments_for id log)) = total_paid p log.
Proof.
  induction log as [|e log IH]; intros Hlog.
  - cbn. apply sum_upto_zero.
  - assert (Htl : forall id, N.of_nat n <= id -> payments_for id log = []).
    { intros id Hid. specialize (Hlog id Hid).
      change (e :: log) with ([e] ++ log) in Hlog.
      rewrite payments_for_app in Hlog. by apply app_eq_nil in Hlog as [_ ?]. }
    specialize (IH Htl). destruct e as [ev|q g to v].
    + exact IH.
    + assert (Hg : g < N.of_nat n).
      { destruct (N.lt_ge_cases g (N.of_nat n)) as [|Hge]; [done|].
        specialize (Hlog g Hge). cbn in Hlog.
        by rewrite N.eqb_refl in Hlog. }
      unfold total_paid in *. cbn [flat_map]. rewrite total_app, <- IH.
      rewrite <- (sum_upto_ext n
        (fun i => (if g =? i
                   then total (if has_purpose p (q, to, v) then [v] else [])
                   else 0)
                  + paid p (payments_for i log))).
      * rewrite sum_upto_add, sum_upto_at.
        apply N.ltb_lt in Hg. by rewrite Hg.
      * intros k _. cbn [payments_for flat_map].
        fold (payments_for k log). rewrite paid_app.
        destruct (g =? k); [|done].
        unfold paid. cbn [List.filter]. by destruct (has_purpose p (q, to, v)).
Qed.

Lemma sum_deposits_total n log :
  (forall id, N.of_nat n <= id -> deposits_for id log = []) ->
  sum_upto n (fun id => total (deposits_for id log)) = totalDeposited log.
Proof.
  induction log as [|e log IH]; intros Hlog.
  - cbn. apply sum_upto_zero.
  - assert (Htl : forall id, N.of_nat n <= id -> deposits_for id log = []).
    { intros id Hid. specialize (Hlog id Hid).
      change (e :: log) with ([e] ++ log) in Hlog.
      rewrite deposits_for_app in Hlog. by apply app_eq_nil in Hlog as [_ ?]. }
    specialize (IH Htl).
    destruct e as [ev|q g to v]; [|exact IH].
    destruct ev as [g usr v dl cat desc| | | | | | | | | |]; try exact IH.
    assert (Hg : g < N.of_nat n).
    { destruct (N.lt_ge_cases g (N.of_nat n)) as [|Hge]; [done|].
      specialize (Hlog g Hge). cbn in Hlog. by rewrite N.eqb_refl in Hlog. }
    unfold totalDeposited in *. cbn [flat_map]. rewrite total_app, <- IH.
    rewrite <- (sum_upto_ext n
      (fun i => (if g =? i then v else 0) + total (deposits_for i log))).
    + rewrite sum_upto_add, sum_upto_at. apply N.ltb_lt in Hg.
      rewrite Hg. cbn. lia.
    + intros k _. cbn [deposits_for flat_map]. fold (deposits_for k log).
      rewrite total_app. destruct (g =? k); cbn; lia.
Qed.

(** ** Deposits that fit their 96-bit record *)

Lemma deposits_fit_run_trace txs c :
  Forall deposit_fits txs ->
  (forall id, Forall (fun v => v <= MAX_UINT96) (deposits_for id (snd c))) ->
  forall id,
    Forall (fun v => v <= MAX_UINT96)
           (deposits_for id (snd (run_trace txs c))).
Proof.
  intros Hfit Hc. induction txs as [|tx txs IH] using rev_ind; [done|].
  apply Forall_app in Hfit as [Hfit Htx]. specialize (IH Hfit).
  apply Forall_inv in Htx. intros id.
  rewrite run_trace_snoc. unfold apply_tx.
  destruct (exec_tx tx _) as [[s' effs]|] eqn:E; [|apply IH].
  cbn [fst snd]. rewrite deposits_for_app. apply Forall_app. split; [apply IH|].
  destruct (exec_tx_counter _ _ _ _ E)
    as [[_ Hd]|(v & d & ct & ds & Hop & _ & Hd1 & Hd2 & _)].
  - by rewrite Hd.
  - unfold deposit_fits in Htx. rewrite Hop in Htx.
    destruct (decide (id = goalCounter (fst (run_trace txs c)))) as [->|Hne].
    + rewrite Hd1. by constructor.
    + by rewrite Hd2.
Qed.

(** The line of one goal in the accounts. *)
Lemma goal_books_line s log id :
  goal_books s log id ->
  Forall (fun v => v <= MAX_UINT96) (deposits_for id log) ->
  (if (status (goal_at s id) =? 0) || (status (goal_at s id) =? 1)
   then stakeAmount (goal_at s id) else 0)
  + paid Refund (payments_for id log)
  + paid Donation (payments_for id log)
  + (if status (goal_at s id) =? 2
     then stakeAmount (goal_at s id) - paid Donation (payments_for id log)
     else 0)
  = total (deposits_for id log).
Proof.
  intros (v & Hd & Hb) Hfit. rewrite Hd in *. apply Forall_inv in Hfit.
  rewrite (uint96_id v Hfit) in Hb. cbn [total foldr].
  destruct Hb as [(-> & B2 & ->)|[(-> & B2 & B3 & _)|(-> & B2 & B3 & B4 & _)]];
    cbn; lia.
Qed.

Lemma conservation_history c :
  ledger_books c ->
  (forall id, Forall (fun v => v <= MAX_UINT96) (deposits_for id (snd c))) ->
  conservation c.
Proof.
  intros [B1 B2] Hfit. destruct c as [s log]. cbn [fst snd] in *.
  unfold conservation, held_stake, totalStranded, totalWithdrawn, totalDonated,
         sum_goals. cbn [fst snd].
  set (n := N.to_nat (goalCounter s)).
  assert (Hn : N.of_nat n = goalCounter s) by (subst n; lia).
  rewrite <- (sum_paid_total Refund n log), <- (sum_paid_total Donation n log),
          <- (sum_deposits_total n log);
    try (intros id Hid; apply B2; lia).
  rewrite <- !sum_upto_add. apply sum_upto_ext. intros k Hk.
  apply goal_books_line; [apply B1; lia|apply Hfit].
Qed.

(** ** Resolution is final *)

Lemma resolved_status_step tx s s' effs id st :
  exec_tx tx s = Ok (s', effs) -> id < goalCounter s -> st <> 0 ->
  status (goal_at s id) = st -> status (goal_at s' id) = st.
Proof.
  intros E Hid Hst H.
  destruct (exec_tx_goal_step _ _ _ _ id E Hid) as [_ Hs].
  destruct Hs as [(?&_)|[(?&_)|[(?&_)|(?&?&_)]]]; congruence.
Qed.

Lemma resolved_goal_reverts s id :
  status (goal_at s id) <> 0 ->
  forall sender now env score result support,
    (exists m, commit env (setAIScore sender now id score) s = Reverted m) /\
    (exists m, commit env (verifyGoal sender id result) s = Reverted m) /\
    (exists m, commit env (vote sender id support) s = Reverted m) /\
    (exists m, commit env (resolveVote id) s = Reverted m).
Proof.
  intros Hst sender now env score result support.
  repeat split; exec_unfold; repeat exec_step; bool_hyps; st_simp;
    solve [eauto | congruence].
Qed.

(** C2. Once a goal is Completed or Failed its status never changes again,
    and every later call of [setAIScore], [verifyGoal], [vote] or
    [resolveVote] on it reverts, whatever happened in between. *)
Theorem at_most_one_resolution s log id txs :
  id < goalCounter s ->
  status (goal_at s id) = 1 \/ status (goal_at s id) = 2 ->
  let s' := fst (run_trace txs (s, log)) in
  status (goal_at s' id) = status (goal_at s id) /\
  forall sender now env score result support,
    (exists m, commit env (setAIScore sender now id score) s' = Reverted m) /\
    (exists m, commit env (verifyGoal sender id result) s' = Reverted m) /\
    (exists m, commit env (vote sender id support) s' = Reverted m) /\
    (exists m, commit env (resolveVote id) s' = Reverted m).
Proof.
  intros Hid Hst s'.
  assert (Hne : status (goal_at s id) <> 0) by (destruct Hst; lia).
  destruct (goal_property_run_trace
              (fun x => status (goal_at x id) = status (goal_at s id)) id)
    with (txs := txs) (c := (s, log)) as [_ Hkeep]; auto.
  { intros tx x x' effs E Hx. by apply (resolved_status_step tx x x' effs). }
  split; [exact Hkeep|].
  apply resolved_goal_reverts. subst s'. by rewrite Hkeep.
Qed.

Lemma at_most_one_resolution_witness :
  0 < goalCounter (fst history_completed) /\
  (status (goal_at (fst history_completed) 0) = 1 \/
   status (goal_at (fst history_completed) 0) = 2) /\
  exists m,
    commit accept (resolveVote 0)
      (fst (run_trace [mkTx alice 1002 accept (WithdrawStake 0)]
                      (fst history_completed, snd history_completed)))
    = Reverted m.
Proof.
  assert (H1 : 0 < goalCounter (fst history_completed)) by (by vm_compute).
  assert (H2 : status (goal_at (fst history_completed) 0) = 1 \/
               status (goal_at (fst history_completed) 0) = 2)
    by (left; by vm_compute).
  split; [exact H1|]. split; [exact H2|].
  pose proof (at_most_one_resolution (fst history_completed)
                (snd history_completed) 0
                [mkTx alice 1002 accept (WithdrawStake 0)] H1 H2) as [_ H].
  destruct (H admin 0 accept 0 true true) as (_ & _ & _ & Hr).
  exact Hr.
Defined.

(** ** Only the oracle scores *)

(** C8. A caller other than the registered oracle cannot score an existing
    goal: [setAIScore] and [verifyGoal] revert with the authorization error
    and the ledger, the goal's score and status included, is left as it
    was. *)
Theorem only_oracle_can_score s sender now env id score result :
  id < goalCounter s -> sender <> aiVerifier s ->
  commit env (setAIScore sender now id score) s
    = Reverted "Only AI verifier can call" /\
  commit env (verifyGoal sender id result) s
    = Reverted "Only AI verifier can call" /\
  (forall log,
     apply_tx (s, log) (mkTx sender now env (SetAIScore id score)) = (s, log)) /\
  (forall log,
     apply_tx (s, log) (mkTx sender now env (VerifyGoal id result)) = (s, log)).
Proof.
  intros Hid Hne.
  apply N.ltb_lt in Hid. apply N.eqb_neq in Hne.
  assert (H1 : commit env (setAIScore sender now id score) s
               = Reverted "Only AI verifier can call").
  { exec_unfold. repeat exec_step; congruence. }
  assert (H2 : commit env (verifyGoal sender id result) s
               = Reverted "Only AI verifier can call").
  { exec_unfold. repeat exec_step; congruence. }
  repeat split; auto; intros log; unfold apply_tx, exec_tx;
    cbn [fst snd tx_op tx_sender tx_time tx_env].
  - unfold commit, dispatch. rewrite run_bind, run_require.
    destruct (abi_ok (SetAIScore id score)); [|done].
    cbn [fst snd]. unfold commit in H1. by rewrite H1.
  - unfold commit, dispatch. rewrite run_bind, run_require.
    cbn [abi_ok fst snd]. unfold commit in H2. by rewrite H2.
Qed.

Lemma only_oracle_can_score_witness :
  0 < goalCounter (fst history_created) /\
  alice <> aiVerifier (fst history_created) /\
  commit accept (setAIScore alice 1001 0 100) (fst history_created)
    = Reverted "Only AI verifier can call".
Proof.
  assert (H1 : 0 < goalCounter (fst history_created)) by (by vm_compute).
  assert (H2 : alice <> aiVerifier (fst history_created))
    by (by vm_compute).
  split; [exact H1|]. split; [exact H2|].
  exact (proj1 (only_oracle_can_score (fst history_created) alice 1001 accept
                  0 100 true H1 H2)).
Defined.

(** ** Score thresholds *)

(** Facts about a state are brought to the form the tests are written in. *)
Ltac exec_in :=
  exec_unfold; repeat exec_step; try discriminate; bool_hyps; st_simp.

Lemma wf_share_fits s id :
  wf s -> stakeAmount (goal_at s id) * charityBasisPoints s <= MAX_UINT256.
Proof.
  intros W. pose proof (wf_stake s W id). pose proof (wf_bps s W).
  transitivity (MAX_UINT96 * 10000); [by apply N.mul_le_mono|].
  by vm_compute.
Qed.




(** ** Vote resolution *)

Lemma side_effects_app l1 l2 :
  side_effects (l1 ++ l2) = side_effects l1 ++ side_effects l2.
Proof. unfold side_effects. apply List.filter_app. Qed.







(** ** Withdrawal *)


(** The call of C6 is reached: the owner of a completed goal gets to the
    refund. *)
Example withdrawStake_reaches_refund :
  exists st k,
    withdrawStake alice 0 (fst history_completed) []
    = External st (Transfer Refund 0 alice ether) k.
Proof. eexists. eexists. vm_compute. reflexivity. Qed.

Lemma withdrawn_goal_step tx s s' effs id :
  exec_tx tx s = Ok (s', effs) -> id < goalCounter s ->
  status (goal_at s id) = 1 /\ stakeAmount (goal_at s id) = 0 ->
  status (goal_at s' id) = 1 /\ stakeAmount (goal_at s' id) = 0.
Proof.
  intros E Hid [H1 H2].
  destruct (exec_tx_goal_step _ _ _ _ id E Hid) as [_ Hs].
  destruct Hs as [(?&?&_)|[(?&_)|[(?&_)|(?&?&?&_)]]]; split; congruence.
Qed.

Lemma withdrawStake_commit sender now env id s s' effs :
  exec_tx (mkTx sender now env (WithdrawStake id)) s = Ok (s', effs) ->
  id < goalCounter s /\ user (goal_at s id) = sender /\
  status (goal_at s id) = 1 /\
  stakeAmount (goal_at s id) <= totalStaked s /\
  status (goal_at s' id) = 1 /\ stakeAmount (goal_at s' id) = 0 /\
  user (goal_at s' id) = sender /\
  totalStaked s' = totalStaked s - stakeAmount (goal_at s id) /\
  effs = [Pay Refund id sender (stakeAmount (goal_at s id));
          Emit (StakeWithdrawn sender (stakeAmount (goal_at s id)))].
Proof.
  intros E. exec_cases E. bool_hyps. st_simp. by repeat split.
Qed.

(** C3 (as the code has it). After a withdrawal has committed, a later
    [withdrawStake] on the same goal moves nothing: if it commits, it sends
    the caller a refund of zero and leaves [totalStaked] and the goal's
    status and stake as they were; it does commit whenever the owner calls
    and the zero-value transfer is accepted. *)
Theorem second_withdrawal_moves_nothing
    s sender now env id s1 effs1 txs log sender' now' env' :
  exec_tx (mkTx sender now env (WithdrawStake id)) s = Ok (s1, effs1) ->
  let s2 := fst (run_trace txs (s1, log)) in
  (forall s3 effs3,
     exec_tx (mkTx sender' now' env' (WithdrawStake id)) s2 = Ok (s3, effs3) ->
     effs3 = [Pay Refund id sender' 0; Emit (StakeWithdrawn sender' 0)] /\
     totalStaked s3 = totalStaked s2 /\
     status (goal_at s3 id) = status (goal_at s2 id) /\
     stakeAmount (goal_at s3 id) = stakeAmount (goal_at s2 id)) /\
  (wf s -> sender' = user (goal_at s2 id) ->
   succeeded (env' (Transfer Refund id sender' 0)) = true ->
   exists s3 effs3,
     exec_tx (mkTx sender' now' env' (WithdrawStake id)) s2 = Ok (s3, effs3)).
Proof.
  intros E1 s2.
  destruct (withdrawStake_commit _ _ _ _ _ _ _ E1)
    as (Hid & _ & _ & _ & Hst & Hsk & _).
  assert (Hid1 : id < goalCounter s1)
    by (apply exec_tx_counter_le in E1; lia).
  destruct (goal_property_run_trace
              (fun x => status (goal_at x id) = 1 /\
                        stakeAmount (goal_at x id) = 0) id)
    with (txs := txs) (c := (s1, log)) as [Hid2 [Hst2 Hsk2]]; auto.
  { intros tx x x' effs E Hx. by apply (withdrawn_goal_step tx x x' effs). }
  fold s2 in Hid2, Hst2, Hsk2. split.
  - intros s3 effs3 E3.
    destruct (withdrawStake_commit _ _ _ _ _ _ _ E3)
      as (_ & _ & _ & _ & Hst3 & Hsk3 & _ & Htot & Heff).
    rewrite Hsk2 in Htot, Heff. rewrite N.sub_0_r in Htot.
    repeat split; congruence.
  - intros W Hu Hacc.
    assert (W2 : wf s2).
    { apply (wf_run_trace txs (s1, log)). by eapply wf_exec_tx. }
    pose proof (wf_not_entered s2 W2) as Hent.
    destruct (exec_tx (mkTx sender' now' env' (WithdrawStake id)) s2)
      as [[s3 effs3]|m] eqn:E3; [eauto|exfalso].
    exec_in; try lia; try congruence.
    all: rewrite Hsk2 in *; try lia; congruence.
Qed.

Lemma second_withdrawal_moves_nothing_witness :
  exec_tx (mkTx alice 1002 accept (WithdrawStake 0)) (fst history_completed)
  = Ok (fst history_withdrawn, [Pay Refund 0 alice ether;
                                Emit (StakeWithdrawn alice ether)]) /\
  forall s3 effs3,
    exec_tx (mkTx alice 1003 accept (WithdrawStake 0))
            (fst (run_trace [] (fst history_withdrawn, []))) = Ok (s3, effs3) ->
    effs3 = [Pay Refund 0 alice 0; Emit (StakeWithdrawn alice 0)].
Proof.
  assert (E1 : exec_tx (mkTx alice 1002 accept (WithdrawStake 0))
                       (fst history_completed)
               = Ok (fst history_withdrawn,
                     [Pay Refund 0 alice ether;
                      Emit (StakeWithdrawn alice ether)]))
    by (vm_compute; reflexivity).
  split; [exact E1|]. intros s3 effs3 E3.
  exact (proj1 (proj1 (second_withdrawal_moves_nothing _ _ _ _ _ _ _ [] []
                         alice 1003 accept E1) s3 effs3 E3)).
Defined.

(** C3 (as stated) fails: the owner's second [withdrawStake] on the same goal
    does not revert; it commits with a refund of zero. *)
Lemma second_withdrawal_commits :
  exec_tx (mkTx alice 1003 accept (WithdrawStake 0)) (fst history_withdrawn)
  = Ok (fst history_withdrawn,
        [Pay Refund 0 alice 0; Emit (StakeWithdrawn alice 0)]).
Proof. vm_compute. reflexivity. Qed.

(** ** Custody of the stake *)

(** C4 (as the code has it). In every history of a deployed ledger and for
    every existing goal: value leaves the ledger on the goal's behalf at most
    once; the recorded stake is the deposit as recorded at creation until the
    owner withdraws, and withdrawals on the Completed path are what lowers it,
    by what they refund; on the Failed path only a donation of at most the
    recorded stake is paid and the recorded stake is left unchanged. *)
Theorem stake_leaves_custody_at_most_once deployer _badgeContract txs id :
  let c := run_trace txs (constructor deployer _badgeContract, []) in
  let g := goal_at (fst c) id in
  let pays := payments_for id (snd c) in
  id < goalCounter (fst c) ->
  (length (nonzero pays) <= 1)%nat /\
  exists v,
    deposits_for id (snd c) = [v] /\
    ( (status g = 0 /\ stakeAmount g = uint96 v /\ pays = [])
    \/ (status g = 1 /\ stakeAmount g + paid Refund pays = uint96 v
        /\ paid Donation pays = 0
        /\ (0 < stakeAmount g -> nonzero pays = []))
    \/ (status g = 2 /\ stakeAmount g = uint96 v
        /\ paid Refund pays = 0 /\ paid Donation pays <= stakeAmount g) ).
Proof.
  intros c g pays Hid.
  assert (B : ledger_books c).
  { apply ledger_books_run_trace;
      [apply wf_constructor|apply ledger_books_constructor]. }
  destruct (proj1 B id Hid) as (v & Hd & Hb). fold g pays in Hb.
  split.
  - destruct Hb as [(_ & _ & ->)|[(_ & _ & _ & H & _)
                   |(_ & _ & _ & _ & [->|(to & a & -> & _)])]]; cbn; try lia.
    destruct (a =? 0); cbn; lia.
  - exists v. split; [exact Hd|].
    destruct Hb as [H|[(H1 & H2 & H3 & _ & H5)|(H1 & H2 & H3 & H4 & _)]];
      [by left|right; left|right; right]; by repeat split.
Qed.

Lemma stake_leaves_custody_at_most_once_witness :
  0 < goalCounter (fst (run_trace [tx_create;
                           mkTx admin 1001 accept (SetCharityAddress charity);
                           mkTx admin 1002 accept (VerifyGoal 0 false)]
                          (constructor admin registry, []))) /\
  (length (nonzero (payments_for 0 (snd history_failed))) <= 1)%nat.
Proof.
  assert (H : 0 < goalCounter (fst (run_trace [tx_create;
                           mkTx admin 1001 accept (SetCharityAddress charity);
                           mkTx admin 1002 accept (VerifyGoal 0 false)]
                          (constructor admin registry, []))))
    by (by vm_compute).
  split; [exact H|].
  exact (proj1 (stake_leaves_custody_at_most_once admin registry _ 0 H)).
Defined.

(** C4 (as stated) fails: after the beneficiary has been paid on the Failed
    path the recorded stake is not zero; it still reads the full deposit. *)
Lemma failed_goal_keeps_recorded_stake :
  payments_for 0 (snd history_failed) = [(Donation, charity, ether / 2)] /\
  status (goal_at (fst history_failed) 0) = 2 /\
  stakeAmount (goal_at (fst history_failed) 0) = ether /\
  ~ stake_zeroed_on_payout history_failed 0.
Proof.
  repeat split; try (vm_compute; reflexivity).
  unfold stake_zeroed_on_payout. intros H.
  assert (Hn : nonzero (payments_for 0 (snd history_failed)) <> [])
    by (by vm_compute).
  specialize (H Hn). vm_compute in H. discriminate.
Qed.

(** ** Conservation of value *)

(** C1 (as the code has it). In every history of a deployed ledger in which
    each stake sent with [createGoal] fits in 96 bits, the stake recorded on
    Active and Completed goals, plus what owners have withdrawn, plus what
    was donated, plus what is left on failed goals, equals the sum of the
    stakes deposited. *)
Theorem value_conservation deployer _badgeContract txs :
  Forall deposit_fits txs ->
  conservation (run_trace txs (constructor deployer _badgeContract, [])).
Proof.
  intros Hfit. apply conservation_history.
  - apply ledger_books_run_trace;
      [apply wf_constructor|apply ledger_books_constructor].
  - apply deposits_fit_run_trace; [exact Hfit|]. intros id. constructor.
Qed.

Lemma value_conservation_witness :
  Forall deposit_fits
    [tx_create; mkTx admin 1001 accept (SetAIScore 0 90);
     mkTx alice 1002 accept (WithdrawStake 0)] /\
  conservation
    (run_trace [tx_create; mkTx admin 1001 accept (SetAIScore 0 90);
                mkTx alice 1002 accept (WithdrawStake 0)]
               (constructor admin registry, [])).
Proof.
  assert (H : Forall deposit_fits
                [tx_create; mkTx admin 1001 accept (SetAIScore 0 90);
                 mkTx alice 1002 accept (WithdrawStake 0)])
    by (repeat constructor; by vm_compute).
  split; [exact H|]. exact (value_conservation admin registry _ H).
Defined.

(** C1 (as stated) fails: a goal that is Completed and not yet withdrawn
    holds its stake, which is neither on an Active goal, nor withdrawn, nor
    donated, nor stranded. *)
Lemma conservation_active_fails : ~ conservation_active history_completed.
Proof. unfold conservation_active. vm_compute. discriminate. Qed.

End Ledger.

Module Badge.
Import GoalBadgeNFT.

(** * Properties of the badge registry *)

Ltac b_unfold :=
  unfold exec_tx, dispatch, mintBadge, burn, transferFrom, safeTransferFrom,
         approve, setApprovalForAll, setBaseURI, setStakeContract,
         transferOwnership, renounceOwnership, onlyStakeContract, onlyOwner,
         _safeMint, _mint, _burn, _update, ERC721_update, _checkAuthorized,
         ownerOf, _requireOwned, checked_inc, checked_dec in *.

Ltac b_red :=
  cbv beta iota zeta delta [bind ret get modify require revert] in *;
  cbn [fst snd negb andb orb tx_op tx_sender tx_time tx_receiver_ok] in *.

Ltac b_split :=
  match goal with
  | H : context [if ?c then _ else _] |- _ => b_split_on c
  | |- context [if ?c then _ else _] => b_split_on c
  end
with b_split_on c :=
  lazymatch c with
  | negb ?x => b_split_on x
  | andb ?x _ => b_split_on x
  | orb ?x _ => b_split_on x
  | _ => let E := fresh "E" in destruct c eqn:E; b_red
  end.

Ltac b_exec := b_unfold; b_red; repeat b_split.

Ltac b_bool :=
  repeat match goal with
  | H : (_ =? _) = true |- _ => apply N.eqb_eq in H
  | H : (_ =? _) = false |- _ => apply N.eqb_neq in H
  | H : (_ <=? _) = true |- _ => apply N.leb_le in H
  | H : (_ <=? _) = false |- _ => apply N.leb_gt in H
  end.

(** The override lets a token move only from or to the zero address. *)
Lemma update_soulbound r to tokenId auth :
  _ownerOf r tokenId <> 0 -> to <> 0 ->
  _update to tokenId auth r
  = Reverted "Soulbound: badges cannot be transferred".
Proof.
  intros H1 H2. apply N.eqb_neq in H1, H2.
  unfold _update. b_red. by rewrite H1, H2.
Qed.

Lemma isAuthorized_no_holder r spender tokenId :
  wf r -> spender <> 0 -> _ownerOf r tokenId = 0 ->
  _isAuthorized r 0 spender tokenId = false.
Proof.
  intros W Hs Ho. unfold _isAuthorized.
  rewrite (wf_zero_operator r W), (wf_no_stale_approval r W _ Ho).
  by destruct spender.
Qed.

Lemma transferFrom_reverts r sender from to tokenId :
  wf r -> sender <> 0 ->
  exists m, transferFrom sender from to tokenId r = Reverted m.
Proof.
  intros W Hs.
  destruct (decide (_ownerOf r tokenId = 0)) as [Ho|Ho].
  - pose proof (isAuthorized_no_holder r sender tokenId W Hs Ho) as Ha.
    apply N.eqb_neq in Hs.
    unfold transferFrom, _update, ERC721_update, _checkAuthorized. b_red.
    destruct (to =? 0); b_red; [eauto|].
    repeat (rewrite ?Ho, ?Hs, ?Ha; cbn [N.eqb]; b_red). eauto.
  - unfold transferFrom. b_red.
    destruct (to =? 0) eqn:Et; b_red; [eauto|]. apply N.eqb_neq in Et.
    rewrite (update_soulbound r to tokenId sender Ho Et). eauto.
Qed.

Ltac b_cbn :=
  cbn [_owners _balances _tokenApprovals _operatorApprovals tokenCounter
       baseURI stakeContract badgeMetadata userBadgeCount categoryBadgeCount
       _owner set_owners set_balances set_tokenApprovals
       set_operatorApprovals set_tokenCounter set_baseURI set_stakeContract
       set_badgeMetadata set_userBadgeCount set_categoryBadgeCount set_owner
       fst snd] in *.

Ltac b_reads :=
  unfold _ownerOf, balance_at, _getApproved, isApprovedForAll, metadata_at,
         badge_count, category_count in *; b_cbn.

(** Every way a transaction can commit. *)
Ltac b_cases H :=
  b_exec; try discriminate; inversion H; subst; clear H.

Lemma safeTransferFrom_reverts r sender ok from to tokenId :
  wf r -> sender <> 0 ->
  exists m, safeTransferFrom sender ok from to tokenId r = Reverted m.
Proof.
  intros W Hs. destruct (transferFrom_reverts r sender from to tokenId W Hs)
    as [m Hm].
  exists m. unfold safeTransferFrom. b_red. by rewrite Hm.
Qed.

(** What a committed transaction does to ownership. *)
Lemma exec_tx_holdings tx r r' :
  wf r -> valid_tx tx -> exec_tx tx r = Ok r' ->
  match tx_op tx with
  | MintBadge u _ _ _ =>
      u <> 0 /\ tokenCounter r' = tokenCounter r + 1 /\
      _owners r' = <[tokenCounter r := u]> (_owners r) /\
      _balances r' = <[u := unchecked_inc (balance_at r u)]> (_balances r) /\
      _tokenApprovals r' = _tokenApprovals r
  | Burn t =>
      tx_sender tx = _ownerOf r t /\ tokenCounter r' = tokenCounter r /\
      _owners r' = <[t := 0]> (_owners r) /\
      _balances r'
      = <[tx_sender tx := unchecked_dec (balance_at r (tx_sender tx))]>
          (_balances r) /\
      _tokenApprovals r' = <[t := 0]> (_tokenApprovals r)
  | Approve to t =>
      _ownerOf r t <> 0 /\ tokenCounter r' = tokenCounter r /\
      _owners r' = _owners r /\ _balances r' = _balances r /\
      _tokenApprovals r' = <[t := to]> (_tokenApprovals r)
  | _ =>
      tokenCounter r' = tokenCounter r /\
      _owners r' = _owners r /\ _balances r' = _balances r /\
      _tokenApprovals r' = _tokenApprovals r
  end /\
  (match tx_op tx with
   | SetApprovalForAll o a =>
       _operatorApprovals r'
       = <[(tx_sender tx, o) := a]> (_operatorApprovals r)
   | _ => _operatorApprovals r' = _operatorApprovals r
   end).
Proof.
  intros W Hv E. destruct tx as [sender now ok op]. unfold valid_tx in Hv.
  cbn [tx_sender tx_op] in *.
  destruct op.
  3: { destruct (transferFrom_reverts r sender from to tokenId W Hv) as [m Hm].
       unfold exec_tx, dispatch in E. b_red. cbn [abi_ok] in E. b_red.
       by rewrite Hm in E. }
  3: { destruct (safeTransferFrom_reverts r sender ok from to tokenId W Hv)
         as [m Hm].
       unfold exec_tx, dispatch in E. b_red. cbn [abi_ok] in E. b_red.
       by rewrite Hm in E. }
  all: b_cases E; b_bool; b_reads.
  all: repeat split; try reflexivity; congruence.
Qed.

Lemma wf_registry_constructor deployer _stakeContract :
  wf (constructor deployer _stakeContract).
Proof. by split; intros; b_reads; rewrite ?lookup_empty. Qed.

Lemma wf_registry_exec_tx tx r r' :
  wf r -> valid_tx tx -> exec_tx tx r = Ok r' -> wf r'.
Proof.
  intros W Hv E. destruct (exec_tx_holdings tx r r' W Hv E) as [H Hop].
  destruct W as [W1 W2 W3]. unfold valid_tx in Hv.
  assert (Hz : forall operator, isApprovedForAll r' 0 operator = false).
  { intros o. specialize (W3 o). unfold isApprovedForAll in *.
    destruct (tx_op tx); rewrite Hop; try exact W3.
    rewrite lookup_insert_ne; [exact W3|congruence]. }
  unfold _ownerOf, _getApproved in *.
  destruct (tx_op tx);
    [destruct H as (Hu & Hc & Ho & _ & Ha)
    |destruct H as (_ & Hc & Ho & _ & Ha)
    |destruct H as (Hc & Ho & _ & Ha)
    |destruct H as (Hc & Ho & _ & Ha)
    |destruct H as (Hex & Hc & Ho & _ & Ha)
    |destruct H as (Hc & Ho & _ & Ha)
    |destruct H as (Hc & Ho & _ & Ha)
    |destruct H as (Hc & Ho & _ & Ha)
    |destruct H as (Hc & Ho & _ & Ha)
    |destruct H as (Hc & Ho & _ & Ha)];
    split; try exact Hz; unfold _ownerOf, _getApproved;
    rewrite ?Hc, ?Ho, ?Ha; try assumption.
  - intros t Ht. rewrite lookup_insert_ne by lia. apply W1. lia.
  - intros t. destruct (decide (tokenCounter r = t)) as [->|Hne].
    + rewrite lookup_insert_eq. cbn. congruence.
    + rewrite lookup_insert_ne by done. apply W2.
  - intros t Ht. destruct (decide (tokenId = t)) as [->|Hne].
    + by rewrite lookup_insert_eq.
    + rewrite lookup_insert_ne by done. by apply W1.
  - intros t. destruct (decide (tokenId = t)) as [->|Hne].
    + by rewrite !lookup_insert_eq.
    + rewrite !lookup_insert_ne by done. apply W2.
  - intros t Ht. destruct (decide (tokenId = t)) as [->|Hne].
    + congruence.
    + rewrite lookup_insert_ne by done. by apply W2.
Qed.

Lemma registry_run_trace_snoc txs tx r :
  run_trace (txs ++ [tx]) r = apply_tx (run_trace txs r) tx.
Proof. unfold run_trace. by rewrite fold_left_app. Qed.

Lemma wf_registry_run_trace txs r :
  wf r -> Forall valid_tx txs -> wf (run_trace txs r).
Proof.
  intros W. induction txs as [|tx txs IH] using rev_ind; [done|].
  intros Hv. apply Forall_app in Hv as [Hv Htx]. apply Forall_inv in Htx.
  rewrite registry_run_trace_snoc. unfold apply_tx.
  destruct (exec_tx tx (run_trace txs r)) as [r'|] eqn:E; [|by apply IH].
  apply (wf_registry_exec_tx tx (run_trace txs r) r'); auto.
Qed.

(** A token below the counter that has no holder keeps none. *)
Lemma burned_stays_burned txs r tokenId :
  wf r -> Forall valid_tx txs ->
  tokenId < tokenCounter r -> _ownerOf r tokenId = 0 ->
  tokenId < tokenCounter (run_trace txs r) /\
  _ownerOf (run_trace txs r) tokenId = 0.
Proof.
  intros W Hv Hlt Ho. induction txs as [|tx txs IH] using rev_ind; [done|].
  apply Forall_app in Hv as [Hv Htx]. apply Forall_inv in Htx.
  destruct (IH Hv) as [IH1 IH2]. rewrite registry_run_trace_snoc. unfold apply_tx.
  destruct (exec_tx tx (run_trace txs r)) as [r'|] eqn:E; [|done].
  pose proof (wf_registry_run_trace txs r W Hv) as W'.
  destruct (exec_tx_holdings tx _ r' W' Htx E) as [H _].
  unfold _ownerOf in *.
  destruct (tx_op tx);
    [destruct H as (Hu & Hc & Hw & _)
    |destruct H as (Hs & Hc & Hw & _)
    |destruct H as (Hc & Hw & _)
    |destruct H as (Hc & Hw & _)
    |destruct H as (_ & Hc & Hw & _)
    |destruct H as (Hc & Hw & _)
    |destruct H as (Hc & Hw & _)
    |destruct H as (Hc & Hw & _)
    |destruct H as (Hc & Hw & _)
    |destruct H as (Hc & Hw & _)];
    rewrite Hc, Hw; split; try lia; try assumption.
  - rewrite lookup_insert_ne by lia. exact IH2.
  - destruct (decide (tokenId0 = tokenId)) as [->|Hne].
    + by rewrite lookup_insert_eq.
    + by rewrite lookup_insert_ne.
Qed.

(** C9. Badges are soulbound.  The override of [_update] refuses to move a
    token between two nonzero holders, so [transferFrom] and
    [safeTransferFrom] revert for every caller; a committed transaction
    changes who holds which token, or a holder's balance, only if it is
    [mintBadge] (the next unused id goes from no holder to the recipient) or
    [burn] (the token goes from the caller, its holder, to no holder); and a
    token that was burned never has a holder again, every later mint taking
    a different id. *)
Theorem badges_are_soulbound r :
  wf r ->
  (forall to tokenId auth,
     _ownerOf r tokenId <> 0 -> to <> 0 ->
     _update to tokenId auth r
     = Reverted "Soulbound: badges cannot be transferred") /\
  (forall sender ok from to tokenId,
     sender <> 0 ->
     (exists m, transferFrom sender from to tokenId r = Reverted m) /\
     (exists m, safeTransferFrom sender ok from to tokenId r = Reverted m)) /\
  (forall tx r',
     valid_tx tx -> exec_tx tx r = Ok r' ->
     match tx_op tx with
     | MintBadge u _ _ _ =>
         _ownerOf r (tokenCounter r) = 0 /\
         _ownerOf r' (tokenCounter r) = u /\ u <> 0 /\
         balance_at r' u = unchecked_inc (balance_at r u)
     | Burn t =>
         _ownerOf r t = tx_sender tx /\ _ownerOf r' t = 0 /\
         balance_at r' (tx_sender tx)
         = unchecked_dec (balance_at r (tx_sender tx))
     | _ => _owners r' = _owners r /\ _balances r' = _balances r
     end) /\
  (forall sender now ok tokenId r1 txs,
     sender <> 0 -> Forall valid_tx txs ->
     exec_tx (mkTx sender now ok (Burn tokenId)) r = Ok r1 ->
     let r2 := run_trace txs r1 in
     _ownerOf r2 tokenId = 0 /\
     forall sender' now' ok' u g c k r3,
       sender' <> 0 ->
       exec_tx (mkTx sender' now' ok' (MintBadge u g c k)) r2 = Ok r3 ->
       tokenCounter r2 <> tokenId /\ _ownerOf r3 tokenId = 0).
Proof.
  intros W. split; [|split; [|split]].
  - intros to tokenId auth. apply update_soulbound.
  - intros sender ok from to tokenId Hs. split.
    + by apply transferFrom_reverts.
    + by apply safeTransferFrom_reverts.
  - intros tx r' Hv E. destruct (exec_tx_holdings tx r r' W Hv E) as [H _].
    unfold _ownerOf, balance_at.
    destruct (tx_op tx);
      try (destruct H as (_ & H1 & H2 & _); by split).
    + destruct H as (Hu & Hc & Ho & Hb & _). rewrite Ho, Hb.
      rewrite !lookup_insert_eq. repeat split; try done.
      apply (wf_unminted r W). lia.
    + destruct H as (Hs & Hc & Ho & Hb & _). rewrite Ho, Hb.
      by rewrite !lookup_insert_eq.
    + destruct H as (_ & _ & H1 & H2 & _). by split.
  - intros sender now ok tokenId r1 txs Hs Hv E r2.
    assert (Hv1 : valid_tx (mkTx sender now ok (Burn tokenId))) by exact Hs.
    pose proof (wf_registry_exec_tx _ _ _ W Hv1 E) as W1.
    destruct (exec_tx_holdings _ r r1 W Hv1 E) as [(Ho & Hc & Hw & _) _].
    cbn [tx_sender] in Ho.
    assert (Hlt : tokenId < tokenCounter r1).
    { rewrite Hc. destruct (N.lt_ge_cases tokenId (tokenCounter r)) as [|Hge];
        [done|]. apply (wf_unminted r W) in Hge. congruence. }
    assert (Hz : _ownerOf r1 tokenId = 0).
    { unfold _ownerOf. by rewrite Hw, lookup_insert_eq. }
    destruct (burned_stays_burned txs r1 tokenId W1 Hv Hlt Hz) as [B1 B2].
    fold r2 in B1, B2. split; [exact B2|].
    intros sender' now' ok' u g c k r3 Hs' E3.
    assert (W2 : wf r2) by by apply wf_registry_run_trace.
    assert (Hv3 : valid_tx (mkTx sender' now' ok' (MintBadge u g c k)))
      by exact Hs'.
    destruct (exec_tx_holdings _ r2 r3 W2 Hv3 E3) as [(_ & _ & Hw3 & _) _].
    split; [lia|]. unfold _ownerOf in *.
    rewrite Hw3, lookup_insert_ne by lia. exact B2.
Qed.

Lemma badges_are_soulbound_witness :
  wf registry_minted /\
  _ownerOf registry_minted 0 <> 0 /\
  _update 9 0 holder registry_minted
  = Reverted "Soulbound: badges cannot be transferred".
Proof.
  assert (W : wf registry_minted).
  { apply wf_registry_run_trace; [apply wf_registry_constructor|].
    repeat constructor. by vm_compute. }
  assert (H : _ownerOf registry_minted 0 <> 0) by (by vm_compute).
  split; [exact W|]. split; [exact H|].
  apply (proj1 (badges_are_soulbound registry_minted W) 9 0 holder H).
  by vm_compute.
Defined.

End Badge.

Module LedgerProps.
Import StakeYourGoal Ledger.

(** * Further properties of the goal ledger *)

(** ** Reachable storage *)

(** X1. In every state a deployed ledger can
    reach, between transactions: the reentrancy flag is down, the beneficiary
    share is at most 10000 basis points, every recorded stake fits in 96 bits,
    every status is Active, Completed or Failed (Disputed, 3, is never
    written), and the goal and vote slots at ids that were not yet issued
    have never been written. *)
Theorem reachable_states_well_formed s :
  reachable s ->
  _entered s = false /\
  charityBasisPoints s <= 10000 /\
  (forall id, stakeAmount (goal_at s id) <= MAX_UINT96 /\
              status (goal_at s id) <= 2) /\
  (forall id, goalCounter s <= id ->
              goal_at s id = Goal0 /\ vote_at s id = Vote0).
Proof.
  intros H. destruct (reachable_wf s H) as [W1 W2 W3 W4 W5 W6].
  repeat split; auto.
Qed.

Lemma reachable_states_well_formed_witness :
  reachable (fst history_created) /\
  status (goal_at (fst history_created) 0) <= 2.
Proof.
  assert (H : reachable (fst history_created)).
  { exists admin, registry, [tx_create]. reflexivity. }
  split; [exact H|].
  destruct (reachable_states_well_formed _ H) as (_ & _ & Hg & _).
  exact (proj2 (Hg 0)).
Defined.

(** ** Creating a goal *)

Lemma set_entered_same s : _entered s = false -> set_entered false s = s.
Proof. destruct s. cbn. by intros ->. Qed.

Lemma set_entered_twice b b' s :
  set_entered b (set_entered b' s) = set_entered b s.
Proof. reflexivity. Qed.

Lemma set_entered_upd_goal b id f s :
  set_entered b (upd_goal id f s) = upd_goal id f (set_entered b s).
Proof. reflexivity. Qed.

Lemma set_entered_upd_vote b id f s :
  set_entered b (upd_vote id f s) = upd_vote id f (set_entered b s).
Proof. reflexivity. Qed.

(** X2. [createGoal] checks its arguments in the
    order stake, deadline, description, category, and reverts with the
    message of the first check that fails: a stake below [minimumStake], a
    deadline that is not after [block.timestamp], an empty description, a
    category above 5. *)
Theorem createGoal_validation s sender now env v d c desc :
  _entered s = false -> d <= MAX_UINT64 -> c <= 255 ->
  let r := exec_tx (mkTx sender now env (CreateGoal v d c desc)) s in
  (v < minimumStake s -> r = Reverted "Stake too low") /\
  (minimumStake s <= v -> d <= now ->
   r = Reverted "Deadline must be in future") /\
  (minimumStake s <= v -> now < d -> desc = EmptyString ->
   r = Reverted "Description required") /\
  (minimumStake s <= v -> now < d -> desc <> EmptyString -> 5 < c ->
   r = Reverted "Invalid category").
Proof.
  intros He Hd Hc r. subst r.
  assert (Habi : abi_ok (CreateGoal v d c desc) = true).
  { cbn. apply andb_true_iff. split; by apply N.leb_le. }
  repeat split; intros.
  all: try (subst desc); try (destruct desc as [|ch desc]; [congruence|]).
  all: exec_unfold; repeat exec_step; bool_hyps; st_cbn.
  all: try reflexivity; try lia; try congruence.
  all: match goal with
       | E : (0 <? _)%nat = _ |- _ => cbn in E; discriminate
       end.
Qed.

Lemma createGoal_validation_witness :
  _entered (fst genesis) = false /\ 5000 <= MAX_UINT64 /\ 0 <= 255 /\
  exec_tx (mkTx alice 1000 accept (CreateGoal 5 5000 0 "run")) (fst genesis)
  = Reverted "Stake too low".
Proof.
  assert (H1 : _entered (fst genesis) = false) by reflexivity.
  assert (H2 : 5000 <= MAX_UINT64) by (by vm_compute).
  assert (H3 : 0 <= 255) by lia.
  repeat (split; [assumption|]).
  apply (proj1 (createGoal_validation (fst genesis) alice 1000 accept 5 5000 0
                  "run" H1 H2 H3)).
  by vm_compute.
Defined.

(** What a committed [createGoal] leaves behind. *)
Lemma createGoal_commit s sender now env v d c desc s' effs :
  wf s ->
  exec_tx (mkTx sender now env (CreateGoal v d c desc)) s = Ok (s', effs) ->
  let id := goalCounter s in
  goalCounter s' = id + 1 /\
  goal_at s' id
  = mkGoal sender (uint96 v) d (uint64 now) 0 0 c desc EmptyString /\
  vote_at s' id = Vote0 /\
  (forall j, j <> id -> goal_at s' j = goal_at s j) /\
  goals_of s' sender = goals_of s sender ++ [id] /\
  (forall a, a <> sender -> goals_of s' a = goals_of s a) /\
  totalStaked s' = totalStaked s + v /\
  effs = [Emit (GoalCreated id sender v d c desc)] /\
  minimumStake s <= v /\ now < d /\ desc <> EmptyString /\ c <= 5.
Proof.
  intros W E id. subst id.
  pose proof (wf_fresh_goal s W (goalCounter s) (N.le_refl _)) as Hg.
  pose proof (wf_fresh_vote s W (goalCounter s) (N.le_refl _)) as Hv.
  exec_cases E. bool_hyps. st_simp.
  repeat split; try reflexivity; try assumption; try lia.
  - rewrite Hg. reflexivity.
  - intros j Hj. st_simp. by rewrite goal_at_upd_goal_ne.
  - unfold goals_of. st_cbn. by rewrite lookup_insert_eq.
  - intros a Ha. unfold goals_of. st_cbn. by rewrite lookup_insert_ne.
  - intros ->. cbn in *. discriminate.
Qed.

(** X3. A [createGoal] that commits issues the
    next id, [goalCounter], and records under it the caller as owner, the
    stake truncated to 96 bits, the deadline, the creation time, the category
    and the description, with status Active, score 0, no proof and an empty
    vote; it appends the id to the caller's list of goals, adds the full
    [msg.value] to [totalStaked], emits [GoalCreated], and leaves every other
    goal and every other user's list as they were.  It commits only if the
    four argument checks pass. *)
Theorem createGoal_records_goal s sender now env v d c desc s' effs :
  wf s ->
  exec_tx (mkTx sender now env (CreateGoal v d c desc)) s = Ok (s', effs) ->
  let id := goalCounter s in
  goalCounter s' = id + 1 /\
  goal_at s' id
  = mkGoal sender (uint96 v) d (uint64 now) 0 0 c desc EmptyString /\
  vote_at s' id = Vote0 /\
  (forall j, j <> id -> goal_at s' j = goal_at s j) /\
  goals_of s' sender = goals_of s sender ++ [id] /\
  (forall a, a <> sender -> goals_of s' a = goals_of s a) /\
  totalStaked s' = totalStaked s + v /\
  effs = [Emit (GoalCreated id sender v d c desc)] /\
  minimumStake s <= v /\ now < d /\ desc <> EmptyString /\ c <= 5.
Proof. apply createGoal_commit. Qed.

Lemma createGoal_records_goal_witness :
  wf (fst genesis) /\
  exec_tx tx_create (fst genesis)
  = Ok (fst history_created, snd history_created) /\
  goal_at (fst history_created) 0
  = mkGoal alice ether 5000 1000 0 0 0 "run a marathon" EmptyString.
Proof.
  assert (W : wf (fst genesis)) by apply wf_constructor.
  assert (E : exec_tx tx_create (fst genesis)
              = Ok (fst history_created, snd history_created))
    by (vm_compute; reflexivity).
  split; [exact W|]. split; [exact E|].
  destruct (createGoal_records_goal _ _ _ _ _ _ _ _ _ _ W E)
    as (_ & Hg & _).
  exact Hg.
Defined.

(** ** Submitting proof *)

(** X4. On an existing goal [submitProof] commits only
    for the goal's owner, only while the goal is Active and only up to one
    day after the deadline; it then writes the proof URI, whatever was there
    before, and nothing else, and emits [ProofSubmitted].  Under those
    conditions it does commit, unless [deadline + 1 days] leaves the range of
    [uint64]: then it reverts with an arithmetic panic, at any time. *)
Theorem submitProof_window s sender now env id uri :
  wf s -> id < goalCounter s ->
  let g := goal_at s id in
  let r := exec_tx (mkTx sender now env (SubmitProof id uri)) s in
  (forall s' effs,
     r = Ok (s', effs) ->
     sender = user g /\ status g = 0 /\ now <= deadline g + days /\
     s' = upd_goal id (set_proofURI uri) s /\
     effs = [Emit (ProofSubmitted id sender uri)]) /\
  (sender = user g -> status g = 0 -> now <= deadline g + days ->
   deadline g + days <= MAX_UINT64 ->
   r = Ok (upd_goal id (set_proofURI uri) s,
           [Emit (ProofSubmitted id sender uri)])) /\
  (sender = user g -> status g = 0 -> MAX_UINT64 < deadline g + days ->
   r = Reverted PANIC_ARITH).
Proof.
  intros W Hid g r. subst g r. pose proof (wf_not_entered s W) as He.
  assert (Hs : forall f, set_entered false (upd_goal id f (set_entered true s))
                         = upd_goal id f s).
  { intros f. rewrite set_entered_upd_goal, set_entered_twice.
    by rewrite set_entered_same. }
  split; [|split].
  - intros s' effs E. exec_cases E. rewrite Hs. bool_hyps.
    rewrite N.mul_1_l in *.
    repeat split; try reflexivity; st_simp; auto.
  - intros Hu Hst Hnow Hfit. exec_unfold. cbn [abi_ok]. rewrite N.mul_1_l.
    repeat exec_step; rewrite ?Hs; try reflexivity; exfalso;
      bool_hyps; st_simp; try lia; congruence.
  - intros Hu Hst Hov. exec_unfold. cbn [abi_ok]. rewrite N.mul_1_l.
    repeat exec_step; try reflexivity; exfalso;
      bool_hyps; st_simp; try lia; congruence.
Qed.

Lemma submitProof_window_witness :
  wf (fst history_far_deadline) /\
  0 < goalCounter (fst history_far_deadline) /\
  exec_tx (mkTx alice 1001 accept (SubmitProof 0 "ipfs://proof"))
          (fst history_far_deadline)
  = Reverted PANIC_ARITH.
Proof.
  assert (W : wf (fst history_far_deadline))
    by (unfold history_far_deadline; apply wf_run_trace, wf_constructor).
  assert (H : 0 < goalCounter (fst history_far_deadline)) by (by vm_compute).
  split; [exact W|]. split; [exact H|].
  apply (proj2 (proj2 (submitProof_window (fst history_far_deadline) alice 1001
                         accept 0 "ipfs://proof" W H))); by vm_compute.
Defined.

(** ** Voting *)

Lemma vote_commit s sender now env id support s' effs :
  exec_tx (mkTx sender now env (CastVote id support)) s = Ok (s', effs) ->
  let g := goal_at s id in
  let v := vote_at s id in
  id < goalCounter s /\ status g = 0 /\ 40 <= aiScore g /\ aiScore g < 75 /\
  voted v sender = false /\
  hasVoted (vote_at s' id) = <[sender := true]> (hasVoted v) /\
  yesVotes (vote_at s' id) = yesVotes v + (if support then 1 else 0) /\
  noVotes (vote_at s' id) = noVotes v + (if support then 0 else 1) /\
  resolved (vote_at s' id) = resolved v /\
  goals s' = goals s /\
  effs = [Emit (VoteCast id sender support)].
Proof.
  intros E. exec_cases E; bool_hyps; st_simp.
  all: repeat split; try reflexivity; try assumption; try lia.
Qed.

(** X5. A [vote] that commits was cast on an existing Active
    goal whose score is in the band 40 to 74, by an address that had not
    voted on it; it marks the address as having voted, adds one to the tally
    chosen and leaves the other tally, the goal and the resolution flag as
    they were.  Nothing else is asked: the goal's owner may vote, and the
    time of the vote is not compared with the announced voting deadline, so
    under those conditions the vote commits at any time. *)
Theorem vote_effect s sender env id support :
  wf s ->
  let g := goal_at s id in
  let v := vote_at s id in
  (forall now s' effs,
     exec_tx (mkTx sender now env (CastVote id support)) s = Ok (s', effs) ->
     id < goalCounter s /\ status g = 0 /\ 40 <= aiScore g /\ aiScore g < 75 /\
     voted v sender = false /\
     voted (vote_at s' id) sender = true /\
     yesVotes (vote_at s' id) = yesVotes v + (if support then 1 else 0) /\
     noVotes (vote_at s' id) = noVotes v + (if support then 0 else 1) /\
     resolved (vote_at s' id) = resolved v /\
     goals s' = goals s /\
     effs = [Emit (VoteCast id sender support)]) /\
  (id < goalCounter s -> status g = 0 -> 40 <= aiScore g -> aiScore g < 75 ->
   voted v sender = false ->
   yesVotes v < MAX_UINT256 -> noVotes v < MAX_UINT256 ->
   forall now, exists s' effs,
     exec_tx (mkTx sender now env (CastVote id support)) s = Ok (s', effs)).
Proof.
  intros W g v. subst g v. split.
  - intros now s' effs E.
    destruct (vote_commit _ _ _ _ _ _ _ _ E)
      as (H1 & H2 & H3 & H4 & H5 & H6 & H7 & H8 & H9 & H10 & H11).
    repeat split; try assumption.
    unfold voted. by rewrite H6, lookup_insert_eq.
  - intros Hid Hst H40 H75 Hv Hy Hn now.
    pose proof (wf_not_entered s W) as He.
    destruct (exec_tx (mkTx sender now env (CastVote id support)) s)
      as [[s' effs]|m] eqn:E; [eauto|exfalso].
    exec_in; try lia; try congruence.
Qed.

Lemma vote_effect_witness :
  wf (fst history_voted) /\
  forall now s' effs,
    exec_tx (mkTx 21 now accept (CastVote 0 false)) (fst history_voted)
    = Ok (s', effs) ->
    noVotes (vote_at s' 0) = noVotes (vote_at (fst history_voted) 0) + 1.
Proof.
  assert (W : wf (fst history_voted))
    by (unfold history_voted; apply wf_run_trace, wf_constructor).
  split; [exact W|]. intros now s' effs E.
  destruct (proj1 (vote_effect (fst history_voted) 21 accept 0 false W)
              now s' effs E) as (_ & _ & _ & _ & _ & _ & _ & H & _).
  exact H.
Defined.

(** ** Ballots and tallies along a history *)

(** A property of the storage that every committed transaction preserves
    holds along every history. *)
Lemma state_property_run_trace (P : State -> Prop) :
  (forall tx s s' effs, exec_tx tx s = Ok (s', effs) -> P s -> P s') ->
  forall txs c, P (fst c) -> P (fst (run_trace txs c)).
Proof.
  intros Hstep txs c HP.
  induction txs as [|tx txs IH] using rev_ind; [done|].
  rewrite run_trace_snoc. unfold apply_tx.
  destruct (exec_tx tx (fst (run_trace txs c))) as [[s' effs]|] eqn:E;
    [|done].
  cbn [fst]. eauto.
Qed.

Lemma exec_tx_ballots tx s s' effs id :
  exec_tx tx s = Ok (s', effs) ->
  (exists b, tx_op tx = CastVote id b /\
     voted (vote_at s id) (tx_sender tx) = false /\
     ballots id effs = [(tx_sender tx, b)] /\
     hasVoted (vote_at s' id)
     = <[tx_sender tx := true]> (hasVoted (vote_at s id)) /\
     yesVotes (vote_at s' id)
     = yesVotes (vote_at s id) + (if b then 1 else 0) /\
     noVotes (vote_at s' id) = noVotes (vote_at s id) + (if b then 0 else 1))
  \/ (ballots id effs = [] /\
      hasVoted (vote_at s' id) = hasVoted (vote_at s id) /\
      yesVotes (vote_at s' id) = yesVotes (vote_at s id) /\
      noVotes (vote_at s' id) = noVotes (vote_at s id)).
Proof.
  destruct tx as [sender now env op]. intros H.
  destruct op; exec_cases H.
  all: unfold ballots, mint_effects, donation_effects; st_simp;
       on_vote id; st_simp.
  all: repeat split_if; cbn [flat_map app tx_op tx_sender]; eqb_simp;
       cbn [flat_map app].
  all: try solve [right; conj; atom].
  all: left; eexists; conj; try reflexivity; bool_hyps; try atom.
  all: cbv iota; lia.
Qed.

Lemma ballots_app id l1 l2 :
  ballots id (l1 ++ l2) = ballots id l1 ++ ballots id l2.
Proof. unfold ballots. apply flat_map_app. Qed.

Lemma count_ballots_app b l1 l2 :
  count_ballots b (l1 ++ l2) = count_ballots b l1 + count_ballots b l2.
Proof.
  unfold count_ballots. rewrite List.filter_app, length_app. lia.
Qed.

Lemma tally_books_apply_tx c tx id :
  tally_books c id -> tally_books (apply_tx c tx) id.
Proof.
  intros H. unfold apply_tx.
  destruct (exec_tx tx (fst c)) as [[s' effs]|] eqn:E; [|exact H].
  destruct H as (Hy & Hn & Hd & Hv).
  unfold tally_books. cbn [fst snd]. rewrite ballots_app.
  destruct (exec_tx_ballots _ _ _ _ id E)
    as [(b & _ & Hnv & -> & Hh & Hy' & Hn')|(-> & Hh & Hy' & Hn')].
  - rewrite !count_ballots_app, map_app. cbn [map fst].
    assert (Hfresh : ~ In (tx_sender tx) (map fst (ballots id (snd c)))).
    { intros Hin. apply Hv in Hin. congruence. }
    repeat split.
    + rewrite Hy', Hy. by destruct b.
    + rewrite Hn', Hn. by destruct b.
    + apply NoDup_app. split; [exact Hd|]. split; [|apply NoDup_singleton].
      intros a Ha ->%list_elem_of_singleton. by apply Hfresh, list_elem_of_In.
    + unfold voted. rewrite Hh. intros Ha. apply in_or_app.
      destruct (decide (tx_sender tx = a)) as [->|Hne]; [right; by left|].
      rewrite lookup_insert_ne in Ha by done. left. by apply Hv.
    + unfold voted. rewrite Hh. intros [Ha|[->|[]]]%in_app_or.
      * destruct (decide (tx_sender tx = a)) as [->|Hne].
        -- by rewrite lookup_insert_eq.
        -- rewrite lookup_insert_ne by done. by apply Hv.
      * by rewrite lookup_insert_eq.
  - rewrite app_nil_r. unfold voted in *. rewrite Hh, Hy', Hn'.
    by repeat split; try apply Hv.
Qed.

Lemma tally_books_run_trace txs c id :
  tally_books c id -> tally_books (run_trace txs c) id.
Proof.
  intros H. induction txs as [|tx txs IH] using rev_ind; [done|].
  rewrite run_trace_snoc. by apply tally_books_apply_tx.
Qed.

(** X6. In every history of a deployed ledger and
    for every goal, the yes tally is the number of [VoteCast] events in
    favour, the no tally the number against, no address appears twice among
    the voters, and the addresses marked as having voted are exactly the
    voters of those events. *)
Theorem tally_matches_ballots deployer _badgeContract txs id :
  let c := run_trace txs (constructor deployer _badgeContract, []) in
  let v := vote_at (fst c) id in
  let bs := ballots id (snd c) in
  yesVotes v = count_ballots true bs /\
  noVotes v = count_ballots false bs /\
  NoDup (map fst bs) /\
  (forall a, voted v a = true <-> In a (map fst bs)).
Proof.
  apply (tally_books_run_trace txs (constructor deployer _badgeContract, [])).
  unfold tally_books, vote_at, voted. cbn. rewrite lookup_empty. cbn.
  repeat split; try done. constructor.
Qed.

Lemma voted_step tx s s' effs id a :
  exec_tx tx s = Ok (s', effs) ->
  voted (vote_at s id) a = true -> voted (vote_at s' id) a = true.
Proof.
  intros E H. unfold voted in *.
  destruct (exec_tx_ballots _ _ _ _ id E)
    as [(b & _ & Hnv & _ & -> & _)|(_ & -> & _)]; [|done].
  destruct (decide (tx_sender tx = a)) as [->|Hne].
  - by rewrite lookup_insert_eq.
  - by rewrite lookup_insert_ne.
Qed.

(** X7. Once an address has voted on a goal, every
    later [vote] of that address on the same goal reverts, whatever
    transactions come in between and whichever way it votes. *)
Theorem one_vote_per_address s sender now env id support s1 effs1 log txs :
  exec_tx (mkTx sender now env (CastVote id support)) s = Ok (s1, effs1) ->
  let s2 := fst (run_trace txs (s1, log)) in
  voted (vote_at s2 id) sender = true /\
  forall now' env' support',
    exists m,
      exec_tx (mkTx sender now' env' (CastVote id support')) s2 = Reverted m.
Proof.
  intros E s2.
  assert (H1 : voted (vote_at s1 id) sender = true).
  { destruct (vote_commit _ _ _ _ _ _ _ _ E)
      as (_ & _ & _ & _ & _ & Hh & _).
    unfold voted. by rewrite Hh, lookup_insert_eq. }
  assert (H2 : voted (vote_at s2 id) sender = true).
  { apply (state_property_run_trace
             (fun x => voted (vote_at x id) sender = true)); [|exact H1].
    intros tx x x' effs Ex Hx. by apply (voted_step tx x x' effs). }
  split; [exact H2|]. intros now' env' support'.
  destruct (exec_tx (mkTx sender now' env' (CastVote id support')) s2)
    as [[s3 effs3]|m] eqn:E3; [exfalso|eauto].
  destruct (vote_commit _ _ _ _ _ _ _ _ E3) as (_ & _ & _ & _ & Hn & _).
  congruence.
Qed.

Lemma one_vote_per_address_witness :
  exec_tx (mkTx 13 1004 accept (CastVote 0 false))
    (fst (run_trace [tx_create; mkTx admin 1001 accept (SetAIScore 0 55);
                     mkTx 11 1002 accept (CastVote 0 true);
                     mkTx 12 1003 accept (CastVote 0 true)] genesis))
  = Ok (fst history_voted, [Emit (VoteCast 0 13 false)]) /\
  exists m,
    exec_tx (mkTx 13 1005 accept (CastVote 0 true))
            (fst (run_trace [] (fst history_voted, []))) = Reverted m.
Proof.
  assert (E : exec_tx (mkTx 13 1004 accept (CastVote 0 false))
    (fst (run_trace [tx_create; mkTx admin 1001 accept (SetAIScore 0 55);
                     mkTx 11 1002 accept (CastVote 0 true);
                     mkTx 12 1003 accept (CastVote 0 true)] genesis))
    = Ok (fst history_voted, [Emit (VoteCast 0 13 false)]))
    by (vm_compute; reflexivity).
  split; [exact E|].
  exact (proj2 (one_vote_per_address _ _ _ _ _ _ _ _ [] [] E) 1005 accept true).
Defined.

(** ** Why a goal has its status *)

Ltac on_any_goal :=
  repeat match goal with
  | Hne : ?g <> ?j |- context [goal_at (upd_goal ?g _ _) ?j] =>
      rewrite !(goal_at_upd_goal_ne _ _ _ _ Hne) in *
  | |- context [goal_at (upd_goal ?g _ _) ?j] =>
      let Hne := fresh "Hne" in
      destruct (decide (g = j)) as [?|Hne];
      [subst; rewrite ?goal_at_upd_goal_eq in *
      |rewrite ?(goal_at_upd_goal_ne _ _ _ _ Hne) in *]
  end.

Ltac on_any_vote :=
  repeat match goal with
  | Hne : ?g <> ?j |- context [vote_at (upd_vote ?g _ _) ?j] =>
      rewrite !(vote_at_upd_vote_ne _ _ _ _ Hne) in *
  | |- context [vote_at (upd_vote ?g _ _) ?j] =>
      let Hne := fresh "Hne" in
      destruct (decide (g = j)) as [?|Hne];
      [subst; rewrite ?vote_at_upd_vote_eq in *
      |rewrite ?(vote_at_upd_vote_ne _ _ _ _ Hne) in *]
  end.

Lemma resolution_cause_step tx s s' effs id :
  wf s -> exec_tx tx s = Ok (s', effs) ->
  resolution_cause s id -> resolution_cause s' id.
Proof.
  destruct tx as [sender now env op]. intros W H.
  pose proof (wf_fresh_goal s W id) as Hg.
  pose proof (wf_fresh_vote s W id) as Hv.
  unfold resolution_cause. intros (C0 & C1 & C2).
  destruct op; exec_cases H.
  all: st_simp; on_any_goal; st_simp; on_any_vote; st_simp.
  all: bool_hyps; try congruence.
  all: try solve [conj; assumption].
  all: try (rewrite Hg, Hv by lia; unfold Goal0, Vote0; st_cbn).
  all: try solve [intuition (first [lia | congruence])].
Qed.

Lemma resolution_cause_constructor deployer _badgeContract id :
  resolution_cause (constructor deployer _badgeContract) id.
Proof.
  unfold resolution_cause, goal_at, vote_at. cbn. rewrite !lookup_empty. cbn.
  repeat split; try done; lia.
Qed.

(** X8. In every state a deployed ledger can reach:
    an Active goal has no resolved vote, and if any vote was cast on it its
    score is in the band 40 to 74; a Completed goal either has a score of at
    least 75 and no resolved vote, or its vote was resolved as passed with
    more yes than no votes and a score in the band; a Failed goal either has
    a score below 40 and no resolved vote, or its vote was resolved as not
    passed with at most as many yes as no votes. *)
Theorem resolved_goal_has_cause s id :
  reachable s ->
  let g := goal_at s id in
  let v := vote_at s id in
  (status g = 0 ->
     resolved v = false /\
     (0 < yesVotes v + noVotes v -> 40 <= aiScore g /\ aiScore g < 75)) /\
  (status g = 1 ->
     (75 <= aiScore g /\ resolved v = false)
     \/ (resolved v = true /\ passed v = true /\ noVotes v < yesVotes v
         /\ 40 <= aiScore g /\ aiScore g < 75)) /\
  (status g = 2 ->
     (aiScore g < 40 /\ resolved v = false)
     \/ (resolved v = true /\ passed v = false /\ yesVotes v <= noVotes v)).
Proof.
  intros (deployer & b & txs & ->).
  apply (state_property_run_trace
           (fun x => wf x /\ resolution_cause x id)).
  - intros tx x x' effs E [W C]. split.
    + by apply (wf_exec_tx tx x x' effs).
    + by apply (resolution_cause_step tx x x' effs).
  - split; [apply wf_constructor|apply resolution_cause_constructor].
Qed.

Lemma resolved_goal_has_cause_witness :
  reachable (fst history_resolved) /\
  status (goal_at (fst history_resolved) 0) = 1 /\
  noVotes (vote_at (fst history_resolved) 0)
  < yesVotes (vote_at (fst history_resolved) 0).
Proof.
  assert (H : reachable (fst history_resolved)).
  { exists admin, registry,
      ([tx_create; mkTx admin 1001 accept (SetAIScore 0 55);
        mkTx 11 1002 accept (CastVote 0 true);
        mkTx 12 1003 accept (CastVote 0 true);
        mkTx 13 1004 accept (CastVote 0 false)]
       ++ [mkTx 14 1005 accept (ResolveVote 0)]).
    unfold history_resolved, history_voted, genesis, run_trace.
    by rewrite fold_left_app. }
  assert (H1 : status (goal_at (fst history_resolved) 0) = 1)
    by (by vm_compute).
  split; [exact H|]. split; [exact H1|].
  destruct (resolved_goal_has_cause _ 0 H) as (_ & C1 & _).
  destruct (C1 H1) as [[_ C]|(_ & _ & C & _)]; [|exact C].
  exfalso. revert C. by vm_compute.
Defined.

(** ** Streaks *)

Ltac ins_cases :=
  repeat match goal with
  | |- context [<[?k := _]> _ !! ?j] =>
      let Heq := fresh "Heq" in
      let Hne := fresh "Hne" in
      destruct (decide (k = j)) as [Heq|Hne];
      [rewrite ?Heq in *; rewrite ?lookup_insert_eq in *
      |rewrite ?lookup_insert_ne in * by exact Hne]
  end.

Lemma streak_step tx s s' effs u :
  exec_tx tx s = Ok (s', effs) ->
  streak_of s u <= highest_of s u ->
  streak_of s' u <= highest_of s' u /\ highest_of s u <= highest_of s' u.
Proof.
  destruct tx as [sender now env op]. intros H Hu.
  destruct op; exec_cases H.
  all: st_simp; try (split; [exact Hu|reflexivity]).
  all: repeat (progress (unfold streak_of, highest_of in *; st_simp)).
  all: repeat split_if; bool_hyps; ins_cases; cbn [from_option id] in *.
  all: lia.
Qed.

(** X9. In every state a deployed ledger can
    reach, a user's current streak is at most the highest streak recorded
    for them. *)
Theorem streak_never_exceeds_highest s u :
  reachable s -> streak_of s u <= highest_of s u.
Proof.
  intros (deployer & b & txs & ->).
  apply (state_property_run_trace (fun x => streak_of x u <= highest_of x u)).
  - intros tx x x' effs E Hx. by apply (streak_step tx x x' effs u).
  - unfold streak_of, highest_of. cbn. by rewrite !lookup_empty.
Qed.

Lemma streak_never_exceeds_highest_witness :
  reachable (fst history_completed) /\
  streak_of (fst history_completed) alice
  <= highest_of (fst history_completed) alice.
Proof.
  assert (H : reachable (fst history_completed)).
  { exists admin, registry,
      [tx_create; mkTx admin 1001 accept (SetAIScore 0 90)]. reflexivity. }
  split; [exact H|]. exact (streak_never_exceeds_highest _ alice H).
Defined.

(** X10. Along every history that starts in
    a state where a user's streak is at most their highest streak, the
    highest streak recorded for the user never decreases: failures reset the
    current streak and leave the highest one. *)
Theorem highest_streak_never_decreases s log txs u :
  streak_of s u <= highest_of s u ->
  highest_of s u <= highest_of (fst (run_trace txs (s, log))) u.
Proof.
  intros H.
  apply (state_property_run_trace
           (fun x => streak_of x u <= highest_of x u
                     /\ highest_of s u <= highest_of x u)); [|by split].
  intros tx x x' effs E [Hx Hm].
  destruct (streak_step tx x x' effs u E Hx) as [H1 H2].
  split; [exact H1|lia].
Qed.

Lemma highest_streak_never_decreases_witness :
  streak_of (fst history_completed) alice
  <= highest_of (fst history_completed) alice /\
  highest_of (fst history_completed) alice
  <= highest_of
       (fst (run_trace [mkTx alice 2000 accept
                          (CreateGoal ether 9000 1 "read a book");
                        mkTx admin 2001 accept (VerifyGoal 1 false)]
                       (fst history_completed, snd history_completed)))
       alice.
Proof.
  assert (H : streak_of (fst history_completed) alice
              <= highest_of (fst history_completed) alice) by (by vm_compute).
  split; [exact H|].
  exact (highest_streak_never_decreases _ _ _ alice H).
Defined.

(** ** Administration *)

Lemma exec_tx_config tx s s' effs :
  exec_tx tx s = Ok (s', effs) ->
  config s' = config s \/ tx_sender tx = _owner s.
Proof.
  destruct tx as [sender now env op]. intros H.
  destruct op; exec_cases H.
  all: unfold config; st_simp; cbn [tx_sender]; bool_hyps.
  all: first [left; reflexivity | right; assumption].
Qed.

(** X11. A committed transaction sent by
    anyone but the owner leaves the configuration as it was: the owner, the
    oracle, the minimum stake, the voting period, the beneficiary and its
    share, and the badge contract. *)
Theorem config_changes_only_by_owner tx s s' effs :
  exec_tx tx s = Ok (s', effs) -> tx_sender tx <> _owner s ->
  config s' = config s.
Proof.
  intros E Hs. by destruct (exec_tx_config _ _ _ _ E).
Qed.

Lemma config_changes_only_by_owner_witness :
  exec_tx tx_create (fst genesis)
  = Ok (fst history_created, snd history_created) /\
  tx_sender tx_create <> _owner (fst genesis) /\
  config (fst history_created) = config (fst genesis).
Proof.
  assert (E : exec_tx tx_create (fst genesis)
              = Ok (fst history_created, snd history_created))
    by (vm_compute; reflexivity).
  assert (H : tx_sender tx_create <> _owner (fst genesis)) by (by vm_compute).
  split; [exact E|]. split; [exact H|].
  exact (config_changes_only_by_owner _ _ _ _ E H).
Defined.

(** X12. Once the owner is the zero address, as
    after [renounceOwnership], no later transaction changes the
    configuration: the oracle, the minimum stake, the voting period, the
    beneficiary and the badge contract stay as they are for good. *)
Theorem renounced_ledger_is_frozen s log txs :
  _owner s = 0 -> Forall valid_tx txs ->
  config (fst (run_trace txs (s, log))) = config s.
Proof.
  intros Ho Hv. induction txs as [|tx txs IH] using rev_ind; [done|].
  apply Forall_app in Hv as [Hv Htx]. apply Forall_inv in Htx.
  specialize (IH Hv). rewrite run_trace_snoc. unfold apply_tx.
  destruct (exec_tx tx (fst (run_trace txs (s, log)))) as [[s' effs]|] eqn:E;
    [|exact IH].
  cbn [fst]. destruct (exec_tx_config _ _ _ _ E) as [Hc|Hc]; [congruence|].
  exfalso. apply Htx. rewrite Hc.
  assert (Hq : _owner (fst (run_trace txs (s, log))) = _owner s).
  { unfold config in IH. congruence. }
  congruence.
Qed.

Lemma renounced_ledger_is_frozen_witness :
  _owner (fst history_renounced) = 0 /\
  Forall valid_tx [mkTx admin 1002 accept (SetAIVerifier 66)] /\
  aiVerifier (fst (run_trace [mkTx admin 1002 accept (SetAIVerifier 66)]
                     (fst history_renounced, snd history_renounced)))
  = admin.
Proof.
  assert (H1 : _owner (fst history_renounced) = 0) by (by vm_compute).
  assert (H2 : Forall valid_tx [mkTx admin 1002 accept (SetAIVerifier 66)])
    by (repeat constructor; by vm_compute).
  split; [exact H1|]. split; [exact H2|].
  pose proof (renounced_ledger_is_frozen _ (snd history_renounced) _ H1 H2)
    as H.
  unfold config in H.
  assert (Ha : aiVerifier (fst history_renounced) = admin) by (by vm_compute).
  congruence.
Defined.

(** ** The staked total *)

Lemma total_paid_app p l1 l2 :
  total_paid p (l1 ++ l2) = total_paid p l1 + total_paid p l2.
Proof. unfold total_paid. by rewrite flat_map_app, total_app. Qed.

Lemma totalDeposited_app l1 l2 :
  totalDeposited (l1 ++ l2) = totalDeposited l1 + totalDeposited l2.
Proof. unfold totalDeposited. by rewrite flat_map_app, total_app. Qed.

Lemma exec_tx_totalStaked tx s s' effs :
  exec_tx tx s = Ok (s', effs) ->
  totalStaked s' + total_paid Refund effs = totalStaked s + totalDeposited effs.
Proof.
  destruct tx as [sender now env op]. intros H.
  destruct op; exec_cases H.
  all: unfold total_paid, totalDeposited, mint_effects, donation_effects;
       st_simp.
  all: repeat split_if;
       cbn [flat_map app total foldr has_purpose fst snd]; bool_hyps; lia.
Qed.

(** X13. In every history of a deployed
    ledger [totalStaked] plus the refunds paid by [withdrawStake] equals the
    stakes received by [createGoal]: donations are not deducted from it, so
    after a donation [totalStaked] counts value that has left the ledger. *)
Theorem totalStaked_is_deposits_less_refunds deployer _badgeContract txs :
  let c := run_trace txs (constructor deployer _badgeContract, []) in
  totalStaked (fst c) + totalWithdrawn (snd c) = totalDeposited (snd c).
Proof.
  cbv zeta. induction txs as [|tx txs IH] using rev_ind; [reflexivity|].
  rewrite run_trace_snoc. unfold apply_tx.
  destruct (exec_tx tx _) as [[s' effs]|] eqn:E; [|exact IH].
  cbn [fst snd]. unfold totalWithdrawn in *.
  rewrite total_paid_app, totalDeposited_app.
  apply exec_tx_totalStaked in E. lia.
Qed.

(** ** The remainder of a failed stake *)

(** X14. Once a goal is Failed, its recorded stake
    never changes again, no further value is sent on its behalf, and every
    [withdrawStake] on it reverts, for every caller: what the donation left
    behind cannot be taken out through the ledger. *)
Theorem failed_stake_is_locked s log id txs :
  id < goalCounter s -> status (goal_at s id) = 2 ->
  let c := run_trace txs (s, log) in
  status (goal_at (fst c) id) = 2 /\
  stakeAmount (goal_at (fst c) id) = stakeAmount (goal_at s id) /\
  payments_for id (snd c) = payments_for id log /\
  forall sender now env,
    exists m,
      exec_tx (mkTx sender now env (WithdrawStake id)) (fst c) = Reverted m.
Proof.
  intros Hid Hst c. subst c.
  assert (H : id < goalCounter (fst (run_trace txs (s, log))) /\
              status (goal_at (fst (run_trace txs (s, log))) id) = 2 /\
              stakeAmount (goal_at (fst (run_trace txs (s, log))) id)
              = stakeAmount (goal_at s id) /\
              payments_for id (snd (run_trace txs (s, log)))
              = payments_for id log).
  { induction txs as [|tx txs IH] using rev_ind; [by repeat split|].
    destruct IH as (I1 & I2 & I3 & I4). rewrite run_trace_snoc.
    unfold apply_tx.
    destruct (exec_tx tx _) as [[s' effs]|] eqn:E; [|by repeat split].
    cbn [fst snd]. rewrite payments_for_app.
    pose proof (exec_tx_counter_le _ _ _ _ E) as Hc.
    destruct (exec_tx_goal_step _ _ _ _ id E I1) as [_ Hs].
    destruct Hs as [(H1 & H2 & ->)|[(H1 & _)|[(H1 & _)|(H1 & _)]]];
      try congruence.
    rewrite app_nil_r. repeat split; try congruence. lia. }
  destruct H as (H1 & H2 & H3 & H4). repeat split; try assumption.
  intros sender now env.
  destruct (exec_tx (mkTx sender now env (WithdrawStake id)) _)
    as [[s3 effs3]|m] eqn:E3; [exfalso|eauto].
  destruct (withdrawStake_commit _ _ _ _ _ _ _ E3) as (_ & _ & Hc & _).
  congruence.
Qed.

Lemma failed_stake_is_locked_witness :
  0 < goalCounter (fst history_failed) /\
  status (goal_at (fst history_failed) 0) = 2 /\
  exists m,
    exec_tx (mkTx alice 1003 accept (WithdrawStake 0))
            (fst (run_trace [] (fst history_failed, snd history_failed)))
    = Reverted m.
Proof.
  assert (H1 : 0 < goalCounter (fst history_failed)) by (by vm_compute).
  assert (H2 : status (goal_at (fst history_failed) 0) = 2)
    by (by vm_compute).
  split; [exact H1|]. split; [exact H2|].
  destruct (failed_stake_is_locked _ (snd history_failed) 0 [] H1 H2)
    as (_ & _ & _ & H).
  exact (H alice 1003 accept).
Defined.

(** ** The terms of a goal *)

Lemma exec_tx_terms tx s s' effs id :
  exec_tx tx s = Ok (s', effs) -> id < goalCounter s ->
  user (goal_at s' id) = user (goal_at s id) /\
  deadline (goal_at s' id) = deadline (goal_at s id) /\
  createdAt (goal_at s' id) = createdAt (goal_at s id) /\
  category (goal_at s' id) = category (goal_at s id) /\
  description (goal_at s' id) = description (goal_at s id) /\
  stakeAmount (goal_at s' id) <= stakeAmount (goal_at s id).
Proof.
  destruct tx as [sender now env op]. intros H Hid.
  destruct op; exec_cases H.
  all: st_simp; on_goal id; st_simp; bool_hyps.
  all: try (exfalso; lia).
  all: repeat split; try reflexivity; lia.
Qed.

(** X15. Along every history an existing goal keeps
    its owner, deadline, creation time, category and description, and its
    recorded stake never grows. *)
Theorem goal_terms_are_fixed s log id txs :
  id < goalCounter s ->
  let g := goal_at s id in
  let g' := goal_at (fst (run_trace txs (s, log))) id in
  user g' = user g /\ deadline g' = deadline g /\
  createdAt g' = createdAt g /\ category g' = category g /\
  description g' = description g /\ stakeAmount g' <= stakeAmount g.
Proof.
  intros Hid g g'. subst g g'.
  apply (goal_property_run_trace
           (fun x => user (goal_at x id) = user (goal_at s id) /\
                     deadline (goal_at x id) = deadline (goal_at s id) /\
                     createdAt (goal_at x id) = createdAt (goal_at s id) /\
                     category (goal_at x id) = category (goal_at s id) /\
                     description (goal_at x id) = description (goal_at s id) /\
                     stakeAmount (goal_at x id) <= stakeAmount (goal_at s id))
           id); [|exact Hid|by repeat split].
  intros tx x x' effs E Hx (H1 & H2 & H3 & H4 & H5 & H6).
  destruct (exec_tx_terms _ _ _ _ id E Hx) as (T1 & T2 & T3 & T4 & T5 & T6).
  repeat split; try congruence. lia.
Qed.

Lemma goal_terms_are_fixed_witness :
  0 < goalCounter (fst history_created) /\
  user (goal_at (fst (run_trace [mkTx admin 1001 accept (SetAIScore 0 90);
                                 mkTx alice 1002 accept (WithdrawStake 0)]
                                (fst history_created, snd history_created)))
                0)
  = user (goal_at (fst history_created) 0).
Proof.
  assert (H : 0 < goalCounter (fst history_created)) by (by vm_compute).
  split; [exact H|].
  exact (proj1 (goal_terms_are_fixed _ (snd history_created) 0 _ H)).
Defined.

(** ** The list of a user's goals *)

Lemma exec_tx_index tx s s' effs :
  exec_tx tx s = Ok (s', effs) ->
  (goalCounter s' = goalCounter s /\ userGoals s' = userGoals s /\
   forall id, user (goal_at s' id) = user (goal_at s id))
  \/ (goalCounter s' = goalCounter s + 1 /\
      userGoals s'
      = <[tx_sender tx := goals_of s (tx_sender tx) ++ [goalCounter s]]>
          (userGoals s) /\
      user (goal_at s' (goalCounter s)) = tx_sender tx /\
      forall id, id <> goalCounter s ->
                 user (goal_at s' id) = user (goal_at s id)).
Proof.
  destruct tx as [sender now env op]. intros H.
  destruct op; exec_cases H.
  2-27: left; st_simp; repeat split; try reflexivity;
        intros id'; st_simp; on_goal id'; st_simp; reflexivity.
  right. cbn [tx_sender]. st_simp. repeat split; try reflexivity.
  intros id' Hne. st_simp. by rewrite goal_at_upd_goal_ne.
Qed.

(** The list [userGoals[u]] holds the ids of the goals owned by [u]. *)
Lemma index_step tx s s' effs :
  exec_tx tx s = Ok (s', effs) ->
  (forall u id, In id (goals_of s u) <->
                id < goalCounter s /\ user (goal_at s id) = u) ->
  (forall u, NoDup (goals_of s u)) ->
  (forall u id, In id (goals_of s' u) <->
                id < goalCounter s' /\ user (goal_at s' id) = u) /\
  (forall u, NoDup (goals_of s' u)).
Proof.
  intros E HI HN.
  destruct (exec_tx_index _ _ _ _ E) as [(Hc & Hg & Hu)|(Hc & Hg & Hn & Hu)].
  - unfold goals_of in *. rewrite Hc, Hg. split; [|exact HN].
    intros u id. rewrite Hu. apply HI.
  - split.
    + intros u id. unfold goals_of at 1. rewrite Hg, Hc.
      destruct (decide (tx_sender tx = u)) as [<-|Hne].
      * rewrite lookup_insert_eq. cbn [from_option Datatypes.id].
        rewrite in_app_iff.
        cbn [In]. rewrite HI.
        destruct (decide (id = goalCounter s)) as [->|Hid].
        -- split; [intros _; split; [lia|exact Hn]|intros _; right; by left].
        -- rewrite (Hu id Hid). split.
           ++ intros [[? ?]|[?|[]]]; [split; [lia|done]|congruence].
           ++ intros [? ?]. left. split; [lia|done].
      * rewrite lookup_insert_ne by done. fold (goals_of s u). rewrite HI.
        destruct (decide (id = goalCounter s)) as [->|Hid].
        -- split; [intros [? _]; lia|intros [_ ?]; congruence].
        -- rewrite (Hu id Hid). split; intros [? ?]; split; try done; lia.
    + intros u. unfold goals_of. rewrite Hg.
      destruct (decide (tx_sender tx = u)) as [<-|Hne].
      * rewrite lookup_insert_eq. cbn [from_option Datatypes.id].
        apply NoDup_app. split; [apply HN|]. split; [|apply NoDup_singleton].
        intros x Hx ->%list_elem_of_singleton.
        apply list_elem_of_In, HI in Hx. lia.
      * rewrite lookup_insert_ne by done. apply HN.
Qed.

(** X16. In every state a deployed ledger
    can reach, [getUserGoals(u)] returns, without repetition, exactly the ids
    of the existing goals whose owner is [u]. *)
Theorem getUserGoals_lists_owned_goals s u l :
  reachable s -> view (getUserGoals u) s = Ok l ->
  NoDup l /\
  forall id, In id l <-> id < goalCounter s /\ user (goal_at s id) = u.
Proof.
  intros (deployer & b & txs & ->) Hl.
  assert (l = goals_of (fst (run_trace txs (constructor deployer b, []))) u)
    as ->.
  { unfold view, getUserGoals, bind, get, ret in Hl.
    cbn [bindE run fst snd] in Hl. congruence. }
  pose proof (state_property_run_trace
    (fun x => (forall u id, In id (goals_of x u) <->
                 id < goalCounter x /\ user (goal_at x id) = u) /\
              (forall u, NoDup (goals_of x u)))) as H.
  destruct (H (fun tx x x' effs E Hx =>
                 index_step tx x x' effs E (proj1 Hx) (proj2 Hx))
              txs (constructor deployer b, [])) as [HI HN].
  - split.
    + intros u' id. unfold goals_of. cbn. rewrite lookup_empty. cbn.
      split; [done|]. intros [? _]. lia.
    + intros u'. unfold goals_of. cbn. rewrite lookup_empty. constructor.
  - split; [apply HN|apply HI].
Qed.

Lemma getUserGoals_lists_owned_goals_witness :
  reachable (fst history_created) /\
  view (getUserGoals alice) (fst history_created) = Ok [0] /\
  (In 0 [0] <-> 0 < goalCounter (fst history_created)
                /\ user (goal_at (fst history_created) 0) = alice).
Proof.
  assert (H : reachable (fst history_created)).
  { exists admin, registry, [tx_create]. reflexivity. }
  assert (Hl : view (getUserGoals alice) (fst history_created) = Ok [0])
    by (by vm_compute).
  split; [exact H|]. split; [exact Hl|].
  exact (proj2 (getUserGoals_lists_owned_goals _ alice [0] H Hl) 0).
Defined.

(** ** The two ways the oracle resolves a goal *)

(** X17. [verifyGoal(id, result)] is
    [setAIScore] with the score 100 for [true] and 0 for [false]: from the
    same state and with the same answers of the called accounts, both revert
    with the same error or both commit the same storage, with the same value
    sent and the same badge and donation events. *)
Theorem verifyGoal_as_extreme_score s sender now env id result :
  match commit env (verifyGoal sender id result) s,
        commit env (setAIScore sender now id (if result then 100 else 0)) s
  with
  | Ok (s1, e1), Ok (s2, e2) => s1 = s2 /\ side_effects e1 = side_effects e2
  | Reverted m1, Reverted m2 => m1 = m2
  | _, _ => False
  end.
Proof.
  destruct result; unfold commit, verifyGoal, setAIScore, goalExists,
    onlyAIVerifier; cbv zeta.
  all: try change (100 <=? 100) with true; try change (75 <=? 100) with true;
       try change (0 <=? 100) with true; try change (75 <=? 0) with false;
       try change (0 <? 40) with true.
  all: repeat exec_step; try reflexivity.
  all: split; [reflexivity|].
  all: rewrite !side_effects_app; reflexivity.
Qed.

(** ** External calls during a resolution *)

(** X18. When [setAIScore], [verifyGoal]
    or [resolveVote] reaches an external call, the storage the callee finds
    already shows the goal as resolved: Completed when the call is the badge
    mint, Failed when it is the donation.  A call back into [setAIScore],
    [verifyGoal], [vote] or [resolveVote] on that goal therefore reverts,
    although the first two carry no reentrancy guard. *)
Theorem external_calls_follow_resolution s sender now id st c k :
  (exists score, setAIScore sender now id score s [] = External st c k) \/
  (exists result, verifyGoal sender id result s [] = External st c k) \/
  resolveVote id s [] = External st c k ->
  match c with
  | MintBadge _ _ g _ _ => g = id /\ status (goal_at st id) = 1
  | Transfer p g _ _ => p = Donation /\ g = id /\ status (goal_at st id) = 2
  end /\
  forall sender' now' env' score' result' support',
    (exists m, commit env' (setAIScore sender' now' id score') st
               = Reverted m) /\
    (exists m, commit env' (verifyGoal sender' id result') st = Reverted m) /\
    (exists m, commit env' (vote sender' id support') st = Reverted m) /\
    (exists m, commit env' (resolveVote id) st = Reverted m).
Proof.
  intros H.
  assert (Hc : match c with
               | MintBadge _ _ g _ _ => g = id /\ status (goal_at st id) = 1
               | Transfer p g _ _ =>
                   p = Donation /\ g = id /\ status (goal_at st id) = 2
               end).
  { destruct H as [[score H]|[[result H]|H]].
    all: unfold setAIScore, verifyGoal, resolveVote, goalExists,
           onlyAIVerifier, nonReentrant, _onGoalCompleted, _onGoalFailed in H;
         unfold_monad; red_exec.
    all: repeat (split_if; red_exec); try discriminate.
    all: inversion H; subst; st_simp; by repeat split. }
  split; [exact Hc|]. intros. apply resolved_goal_reverts.
  destruct c; [destruct Hc as (_ & _ & ->)|destruct Hc as (_ & ->)]; lia.
Qed.

Lemma external_calls_follow_resolution_witness :
  exists st k,
    setAIScore admin 1001 0 90 (fst history_created) []
    = External st (MintBadge registry alice 0 0 1) k /\
    status (goal_at st 0) = 1.
Proof.
  assert (H : exists st k, setAIScore admin 1001 0 90 (fst history_created) []
                           = External st (MintBadge registry alice 0 0 1) k).
  { eexists. eexists. vm_compute. reflexivity. }
  destruct H as (st & k & H). exists st, k. split; [exact H|].
  destruct (external_calls_follow_resolution (fst history_created) admin 1001
              0 st _ k (or_introl (ex_intro _ 90 H))) as [[_ Hs] _].
  exact Hs.
Defined.

(** ** The reentrancy guard *)

(** X19. While the reentrancy flag is up, that is,
    during an external call made by a guarded function, [createGoal],
    [submitProof], [vote], [resolveVote] and [withdrawStake] all revert. *)
Theorem guarded_entry_points s sender now env :
  _entered s = true ->
  (forall v d c desc,
     exists m, exec_tx (mkTx sender now env (CreateGoal v d c desc)) s
               = Reverted m) /\
  (forall id uri,
     exists m, exec_tx (mkTx sender now env (SubmitProof id uri)) s
               = Reverted m) /\
  (forall id support,
     exists m, exec_tx (mkTx sender now env (CastVote id support)) s
               = Reverted m) /\
  (forall id,
     exists m, exec_tx (mkTx sender now env (ResolveVote id)) s
               = Reverted m) /\
  (forall id,
     exists m, exec_tx (mkTx sender now env (WithdrawStake id)) s
               = Reverted m).
Proof.
  intros He. repeat split; intros.
  all: match goal with
       | |- exists m, ?e = _ => destruct e as [[s' effs]|m] eqn:E;
                                [exfalso|eauto]
       end.
  all: exec_unfold; repeat exec_step; try discriminate; congruence.
Qed.

Lemma guarded_entry_points_witness :
  _entered (set_entered true (fst history_completed)) = true /\
  exists m,
    exec_tx (mkTx alice 1002 accept (WithdrawStake 0))
            (set_entered true (fst history_completed)) = Reverted m.
Proof.
  assert (H : _entered (set_entered true (fst history_completed)) = true)
    by reflexivity.
  split; [exact H|].
  destruct (guarded_entry_points _ alice 1002 accept H) as (_ & _ & _ & _ & W).
  exact (W 0).
Defined.

(** ** Verdicts, streaks and donations *)

(** X20. After a [verifyGoal] that commits,
    [getUserStreak] of the goal's owner returns the streak raised by one and
    the larger of the old highest streak and the new streak when the verdict
    is [true], and a streak of zero with the highest streak untouched when it
    is [false]; the streaks of every other user are as before. *)
Theorem verdict_updates_streak s sender now env id result s' effs :
  exec_tx (mkTx sender now env (VerifyGoal id result)) s = Ok (s', effs) ->
  let u := user (goal_at s id) in
  view (getUserStreak u) s'
  = Ok (if result
        then (streak_of s u + 1, N.max (highest_of s u) (streak_of s u + 1))
        else (0, highest_of s u)) /\
  forall a, a <> u -> view (getUserStreak a) s' = view (getUserStreak a) s.
Proof.
  intros E u. subst u. exec_cases E.
  all: unfold view, getUserStreak, get, ret, bind; cbn [run bindE fst snd].
  all: repeat (progress (unfold streak_of, highest_of in *; st_simp)).
  all: split; [|intros a Ha].
  all: repeat split_if; bool_hyps;
       rewrite ?lookup_insert_eq, ?lookup_insert_ne by congruence;
       cbn [from_option Datatypes.id]; try reflexivity.
  all: f_equal; f_equal; lia.
Qed.

Lemma verdict_updates_streak_witness :
  exec_tx (mkTx admin 1001 accept (VerifyGoal 0 true)) (fst history_created)
  = Ok (fst (run_trace [mkTx admin 1001 accept (VerifyGoal 0 true)]
                       history_created),
        snd (run_trace [mkTx admin 1001 accept (VerifyGoal 0 true)]
                       (fst history_created, []))) /\
  view (getUserStreak (user (goal_at (fst history_created) 0)))
       (fst (run_trace [mkTx admin 1001 accept (VerifyGoal 0 true)]
                       history_created))
  = Ok (1, 1).
Proof.
  assert (E : exec_tx (mkTx admin 1001 accept (VerifyGoal 0 true))
                      (fst history_created)
    = Ok (fst (run_trace [mkTx admin 1001 accept (VerifyGoal 0 true)]
                         history_created),
          snd (run_trace [mkTx admin 1001 accept (VerifyGoal 0 true)]
                         (fst history_created, []))))
    by (vm_compute; reflexivity).
  split; [exact E|].
  pose proof (proj1 (verdict_updates_streak _ _ _ _ _ _ _ _ E)) as H.
  rewrite H. by vm_compute.
Defined.

(** X21. When the oracle rejects an Active
    goal with [verifyGoal(id, false)] the transaction always commits: the
    goal becomes Failed, its recorded stake and [totalStaked] stay as they
    were, and the only value sent is the beneficiary's share, the recorded
    stake times the basis points divided by 10000 and rounded down, which is
    at most the stake; it is sent when a beneficiary is set, the share is not
    zero and the beneficiary accepts the transfer, and not otherwise. *)
Theorem failure_pays_beneficiary_share s sender now env id :
  wf s -> id < goalCounter s -> sender = aiVerifier s ->
  status (goal_at s id) = 0 ->
  let share := stakeAmount (goal_at s id) * charityBasisPoints s / 10000 in
  share <= stakeAmount (goal_at s id) /\
  exists s' effs,
    exec_tx (mkTx sender now env (VerifyGoal id false)) s = Ok (s', effs) /\
    status (goal_at s' id) = 2 /\
    stakeAmount (goal_at s' id) = stakeAmount (goal_at s id) /\
    totalStaked s' = totalStaked s /\
    payments_for id effs
    = if (charityAddress s =? 0) || (share =? 0) then []
      else if succeeded (env (Transfer Donation id (charityAddress s) share))
           then [(Donation, charityAddress s, share)]
           else [].
Proof.
  intros W Hid Hs Hst share. subst share.
  pose proof (wf_share_fits s id W) as Hfit.
  split; [apply share_le, (wf_bps s W)|].
  destruct (exec_tx (mkTx sender now env (VerifyGoal id false)) s)
    as [[s' effs]|m] eqn:E.
  - exists s', effs. split; [reflexivity|].
    exec_cases E.
    all: bool_hyps; st_simp; repeat split; try reflexivity.
    all: unfold payments_for, donation_effects, charity_share; st_simp.
    all: rewrite ?flat_map_app; cbn [flat_map app]; rewrite ?app_nil_r.
    all: repeat split_if; bool_hyps; cbn [flat_map app];
         rewrite ?N.eqb_refl; try reflexivity; try congruence; try lia.
    all: exfalso;
         match goal with
         | H0 : stakeAmount _ = 0, H : _ / 10000 <> 0 |- _ =>
             rewrite H0 in H; apply H; reflexivity
         end.
  - exfalso. exec_in; try lia; congruence.
Qed.

Lemma failure_pays_beneficiary_share_witness :
  wf (fst (run_trace [tx_create;
                      mkTx admin 1001 accept (SetCharityAddress charity)]
                     genesis)) /\
  exists s' effs,
    exec_tx (mkTx admin 1002 accept (VerifyGoal 0 false))
            (fst (run_trace [tx_create;
                             mkTx admin 1001 accept (SetCharityAddress charity)]
                            genesis))
    = Ok (s', effs) /\
    payments_for 0 effs = [(Donation, charity, ether / 2)].
Proof.
  assert (W : wf (fst (run_trace [tx_create;
                      mkTx admin 1001 accept (SetCharityAddress charity)]
                     genesis))) by apply wf_run_trace, wf_constructor.
  assert (H1 : 0 < goalCounter (fst (run_trace [tx_create;
                      mkTx admin 1001 accept (SetCharityAddress charity)]
                     genesis))) by (by vm_compute).
  assert (H2 : admin = aiVerifier (fst (run_trace [tx_create;
                      mkTx admin 1001 accept (SetCharityAddress charity)]
                     genesis))) by (by vm_compute).
  assert (H3 : status (goal_at (fst (run_trace [tx_create;
                      mkTx admin 1001 accept (SetCharityAddress charity)]
                     genesis)) 0) = 0) by (by vm_compute).
  split; [exact W|].
  destruct (failure_pays_beneficiary_share _ admin 1002 accept 0 W H1 H2 H3)
    as (_ & s' & effs & E & _ & _ & _ & Hp).
  exists s', effs. split; [exact E|]. rewrite Hp. by vm_compute.
Defined.

(** ** Ids that were issued *)

Lemma view_getGoal s id :
  view (getGoal id) s
  = if id <? goalCounter s then Ok (goal_at s id)
    else Reverted "Goal does not exist".
Proof.
  unfold view, getGoal, goalExists. unfold_monad. cbn [bindE run fst snd].
  destruct (id <? goalCounter s); reflexivity.
Qed.

Lemma view_getVoteInfo s id :
  view (getVoteInfo id) s
  = if id <? goalCounter s
    then Ok (yesVotes (vote_at s id), noVotes (vote_at s id),
             resolved (vote_at s id))
    else Reverted "Goal does not exist".
Proof.
  unfold view, getVoteInfo, goalExists. unfold_monad. cbn [bindE run fst snd].
  destruct (id <? goalCounter s); reflexivity.
Qed.

(** X22. In every history of a deployed ledger an
    id below the counter was issued by exactly one [createGoal]: [getGoal]
    returns its record and [getVoteInfo] the number of ballots in favour and
    against and whether the vote is resolved.  For an id that was not issued
    there is no [GoalCreated] event and both views revert. *)
Theorem issued_ids_are_readable deployer _badgeContract txs id :
  let c := run_trace txs (constructor deployer _badgeContract, []) in
  (id < goalCounter (fst c) ->
   (exists v, deposits_for id (snd c) = [v]) /\
   view (getGoal id) (fst c) = Ok (goal_at (fst c) id) /\
   view (getVoteInfo id) (fst c)
   = Ok (count_ballots true (ballots id (snd c)),
         count_ballots false (ballots id (snd c)),
         resolved (vote_at (fst c) id))) /\
  (goalCounter (fst c) <= id ->
   deposits_for id (snd c) = [] /\
   view (getGoal id) (fst c) = Reverted "Goal does not exist" /\
   view (getVoteInfo id) (fst c) = Reverted "Goal does not exist").
Proof.
  intros c.
  assert (B : ledger_books c).
  { apply ledger_books_run_trace;
      [apply wf_constructor|apply ledger_books_constructor]. }
  assert (T : tally_books c id).
  { apply tally_books_run_trace. unfold tally_books, vote_at, voted. cbn.
    rewrite lookup_empty. cbn. repeat split; try done. constructor. }
  destruct T as (Ty & Tn & _).
  rewrite view_getGoal, view_getVoteInfo.
  split; intros Hid.
  - apply N.ltb_lt in Hid as Hb. rewrite Hb.
    destruct (proj1 B id Hid) as (v & Hd & _).
    rewrite <- Ty, <- Tn. split; [by exists v|by split].
  - apply N.ltb_ge in Hid as Hb. rewrite Hb.
    destruct (proj2 B id Hid) as [_ Hd]. by repeat split.
Qed.

End LedgerProps.

Module BadgeProps.
Import GoalBadgeNFT Badge.

(** * Further properties of the badge registry *)

(** ** Who may do what *)

(** X23. A transaction that commits on the
    registry was sent by the stake contract if it is [mintBadge], by the
    holder of the token if it is [burn], and by the owner of the registry if
    it is [setBaseURI], [setStakeContract], [transferOwnership] or
    [renounceOwnership]. *)
Theorem registry_access_control tx r r' :
  exec_tx tx r = Ok r' ->
  match tx_op tx with
  | MintBadge u _ _ _ => tx_sender tx = stakeContract r /\ u <> 0
  | Burn t => tx_sender tx = _ownerOf r t /\ _ownerOf r t <> 0
  | SetBaseURI _ | SetStakeContract _ | TransferOwnership _
  | RenounceOwnership => tx_sender tx = _owner r
  | _ => True
  end.
Proof.
  destruct tx as [sender now ok op]. intros E. cbn [tx_op tx_sender].
  destruct op; try exact I.
  all: b_cases E; b_bool; b_reads; repeat split; congruence.
Qed.

Lemma registry_access_control_witness :
  exec_tx (mkTx ledger 2000 true (MintBadge holder 0 3 1))
          (constructor 1 ledger)
  = Ok registry_minted /\
  ledger = stakeContract (constructor 1 ledger).
Proof.
  assert (E : exec_tx (mkTx ledger 2000 true (MintBadge holder 0 3 1))
                      (constructor 1 ledger) = Ok registry_minted)
    by (vm_compute; reflexivity).
  split; [exact E|].
  exact (proj1 (registry_access_control _ _ _ E)).
Defined.

(** ** Counters and metadata *)

Lemma exec_tx_counters tx r r' :
  exec_tx tx r = Ok r' ->
  match tx_op tx with
  | MintBadge u g c k =>
      tokenCounter r + 1 <= MAX_UINT256 /\
      badge_count r u + 1 <= MAX_UINT256 /\
      category_count r u c + 1 <= MAX_UINT256 /\
      userBadgeCount r' = <[u := badge_count r u + 1]> (userBadgeCount r) /\
      categoryBadgeCount r'
      = <[(u, c) := category_count r u c + 1]> (categoryBadgeCount r) /\
      badgeMetadata r'
      = <[tokenCounter r := mkBadgeMetadata g c (uint64 (tx_time tx)) k]>
          (badgeMetadata r)
  | Burn t =>
      let c := category (metadata_at r t) in
      1 <= badge_count r (tx_sender tx) /\
      1 <= category_count r (tx_sender tx) c /\
      userBadgeCount r'
      = <[tx_sender tx := badge_count r (tx_sender tx) - 1]>
          (userBadgeCount r) /\
      categoryBadgeCount r'
      = <[(tx_sender tx, c) := category_count r (tx_sender tx) c - 1]>
          (categoryBadgeCount r) /\
      badgeMetadata r' = badgeMetadata r
  | _ =>
      userBadgeCount r' = userBadgeCount r /\
      categoryBadgeCount r' = categoryBadgeCount r /\
      badgeMetadata r' = badgeMetadata r
  end /\
  baseURI r' = (match tx_op tx with SetBaseURI u => u | _ => baseURI r end).
Proof.
  destruct tx as [sender now ok op]. intros E. cbn [tx_op tx_sender tx_time].
  destruct op; unfold exec_tx, dispatch, safeTransferFrom in E;
    b_cases E; b_bool; b_reads.
  all: repeat split; try reflexivity; try assumption.
Qed.



(** ** Counting the badges of an account *)







(** What a committed transaction does to the tokens and the counters. *)
Lemma exec_tx_tokens tx r r' :
  wf r -> valid_tx tx -> exec_tx tx r = Ok r' ->
  (exists u g c k,
     tx_op tx = MintBadge u g c k /\ u <> 0 /\
     tokenCounter r' = tokenCounter r + 1 /\
     tokenCounter r + 1 <= MAX_UINT256 /\
     _owners r' = <[tokenCounter r := u]> (_owners r) /\
     _balances r' = <[u := unchecked_inc (balance_at r u)]> (_balances r) /\
     badge_count r u + 1 <= MAX_UINT256 /\
     category_count r u c + 1 <= MAX_UINT256 /\
     userBadgeCount r' = <[u := badge_count r u + 1]> (userBadgeCount r) /\
     categoryBadgeCount r'
     = <[(u, c) := category_count r u c + 1]> (categoryBadgeCount r) /\
     badgeMetadata r'
     = <[tokenCounter r := mkBadgeMetadata g c (uint64 (tx_time tx)) k]>
         (badgeMetadata r))
  \/ (exists t,
        tx_op tx = Burn t /\ tx_sender tx = _ownerOf r t /\
        tokenCounter r' = tokenCounter r /\
        _owners r' = <[t := 0]> (_owners r) /\
        _balances r'
        = <[tx_sender tx := unchecked_dec (balance_at r (tx_sender tx))]>
            (_balances r) /\
        1 <= badge_count r (tx_sender tx) /\
        1 <= category_count r (tx_sender tx) (category (metadata_at r t)) /\
        userBadgeCount r'
        = <[tx_sender tx := badge_count r (tx_sender tx) - 1]>
            (userBadgeCount r) /\
        categoryBadgeCount r'
        = <[(tx_sender tx, category (metadata_at r t))
            := category_count r (tx_sender tx)
                 (category (metadata_at r t)) - 1]>
            (categoryBadgeCount r) /\
        badgeMetadata r' = badgeMetadata r)
  \/ (tokenCounter r' = tokenCounter r /\ _owners r' = _owners r /\
      _balances r' = _balances r /\
      userBadgeCount r' = userBadgeCount r /\
      categoryBadgeCount r' = categoryBadgeCount r /\
      badgeMetadata r' = badgeMetadata r).
Proof.
  intros W Hv E.
  destruct (exec_tx_holdings tx r r' W Hv E) as [H _].
  destruct (exec_tx_counters tx r r' E) as [K _].
  destruct (tx_op tx) as [u g c k|t| | | | | | | |].
  - left. exists u, g, c, k.
    destruct H as (H1 & H2 & H3 & H4 & _).
    destruct K as (K1 & K2 & K3 & K4 & K5 & K6). by repeat split.
  - right. left. exists t.
    destruct H as (H1 & H2 & H3 & H4 & _).
    destruct K as (K1 & K2 & K3 & K4 & K5). by repeat split.
  - right. right. destruct H as (H1 & H2 & H3 & _).
    destruct K as (K1 & K2 & K3). by repeat split.
  - right. right. destruct H as (H1 & H2 & H3 & _).
    destruct K as (K1 & K2 & K3). by repeat split.
  - right. right. destruct H as (_ & H1 & H2 & H3 & _).
    destruct K as (K1 & K2 & K3). by repeat split.
  - right. right. destruct H as (H1 & H2 & H3 & _).
    destruct K as (K1 & K2 & K3). by repeat split.
  - right. right. destruct H as (H1 & H2 & H3 & _).
    destruct K as (K1 & K2 & K3). by repeat split.
  - right. right. destruct H as (H1 & H2 & H3 & _).
    destruct K as (K1 & K2 & K3). by repeat split.
  - right. right. destruct H as (H1 & H2 & H3 & _).
    destruct K as (K1 & K2 & K3). by repeat split.
  - right. right. destruct H as (H1 & H2 & H3 & _).
    destruct K as (K1 & K2 & K3). by repeat split.
Qed.






Ltac pair_cases :=
  match goal with
  | |- context [<[?k := _]> _ !! ?j] =>
      let Heq := fresh "Heq" in
      let Hne := fresh "Hne" in
      destruct (decide (k = j)) as [Heq|Hne];
      [rewrite Heq; rewrite lookup_insert_eq
      |rewrite lookup_insert_ne by exact Hne]
  end.







(** ** After a burn *)

Lemma metadata_kept txs r t :
  wf r -> Forall valid_tx txs -> t < tokenCounter r ->
  t < tokenCounter (run_trace txs r) /\
  metadata_at (run_trace txs r) t = metadata_at r t.
Proof.
  intros W Hv Ht. induction txs as [|tx txs IH] using rev_ind; [done|].
  apply Forall_app in Hv as [Hv Htx]. apply Forall_inv in Htx.
  destruct (IH Hv) as [I1 I2]. rewrite registry_run_trace_snoc.
  unfold apply_tx.
  destruct (exec_tx tx (run_trace txs r)) as [r'|] eqn:E; [|done].
  pose proof (wf_registry_run_trace txs r W Hv) as W'.
  unfold metadata_at in *.
  destruct (exec_tx_tokens tx _ r' W' Htx E)
    as [(u & g & c & k & _ & _ & Hc & _ & _ & _ & _ & _ & _ & _ & Hm)
       |[(t' & _ & _ & Hc & _ & _ & _ & _ & _ & _ & Hm)
        |(Hc & _ & _ & _ & _ & Hm)]]; rewrite Hc, Hm.
  - rewrite lookup_insert_ne by lia. split; [lia|exact I2].
  - by split.
  - by split.
Qed.

(** X27. After a [burn], and whatever happens
    later, [ownerOf], [getBadgeMetadata] and [tokenURI] revert for the token,
    while the metadata record written at the mint stays in storage: [burn]
    does not delete it. *)
Theorem burned_badge_is_unreadable r sender now ok t r1 txs :
  wf r -> sender <> 0 -> Forall valid_tx txs ->
  exec_tx (mkTx sender now ok (Burn t)) r = Ok r1 ->
  let r2 := run_trace txs r1 in
  view (ownerOf t) r2 = Reverted "ERC721NonexistentToken" /\
  view (getBadgeMetadata t) r2 = Reverted "Token does not exist" /\
  view (tokenURI t) r2 = Reverted "Token does not exist" /\
  metadata_at r2 t = metadata_at r t.
Proof.
  intros W Hs Hv E r2.
  assert (Hv1 : valid_tx (mkTx sender now ok (Burn t))) by exact Hs.
  pose proof (wf_registry_exec_tx _ _ _ W Hv1 E) as W1.
  destruct (exec_tx_holdings _ r r1 W Hv1 E) as [(Ho & Hc & Hw & _) _].
  destruct (exec_tx_counters _ r r1 E) as [K _].
  cbn [tx_op tx_sender] in *. cbv zeta in K.
  destruct K as (_ & _ & _ & _ & Hm).
  assert (Hlt : t < tokenCounter r1).
  { rewrite Hc. destruct (N.lt_ge_cases t (tokenCounter r)) as [|Hge];
      [done|]. apply (wf_unminted r W) in Hge. congruence. }
  assert (Hz : _ownerOf r1 t = 0).
  { unfold _ownerOf. by rewrite Hw, lookup_insert_eq. }
  destruct (burned_stays_burned txs r1 t W1 Hv Hlt Hz) as [_ B2].
  destruct (metadata_kept txs r1 t W1 Hv Hlt) as [_ M2].
  fold r2 in B2, M2.
  unfold view, ownerOf, _requireOwned, getBadgeMetadata, tokenURI, _exists.
  b_red. rewrite B2. cbn [N.eqb negb]. b_red.
  repeat split. rewrite M2. unfold metadata_at. by rewrite Hm.
Qed.

Lemma burned_badge_is_unreadable_witness :
  wf registry_minted /\ holder <> 0 /\
  exec_tx (mkTx holder 2001 true (Burn 0)) registry_minted
  = Ok registry_burned /\
  view (tokenURI 0) (run_trace [] registry_burned)
  = Reverted "Token does not exist" /\
  metadata_at (run_trace [] registry_burned) 0 = mkBadgeMetadata 0 3 2000 1.
Proof.
  assert (W : wf registry_minted).
  { apply wf_registry_run_trace; [apply wf_registry_constructor|].
    repeat constructor. by vm_compute. }
  assert (H : holder <> 0) by (by vm_compute).
  assert (E : exec_tx (mkTx holder 2001 true (Burn 0)) registry_minted
              = Ok registry_burned) by (vm_compute; reflexivity).
  split; [exact W|]. split; [exact H|]. split; [exact E|].
  destruct (burned_badge_is_unreadable _ _ _ _ _ _ [] W H (List.Forall_nil _) E)
    as (_ & _ & H3 & H4).
  split; [exact H3|]. rewrite H4. by vm_compute.
Defined.

(** ** Minting for the ledger *)



End BadgeProps.

Module DeploymentProps.
Import StakeYourGoal Ledger Deployment.

(** * The ledger and the registry together *)



End DeploymentProps.
